(** * ValutaTrade Hub: rate cache, wallets and the trading engine

    A shallow embedding of the Python package [valutatrade_hub]
    (core/models.py, core/utils.py, core/currencies.py, core/exceptions.py,
    core/usecases.py, infra/database.py, parser_service/storage.py) and the
    properties of its trading engine, rate cache and persisted stores.

    Conventions of the embedding:
    - a Python [float] is an IEEE 754 binary64 number: Rocq's primitive
      [float], with [PrimFloat]'s operations and comparisons;
    - a value read from JSON is a [json]; a Python [dict] is a [gmap];
    - a Python [str] is a [string] of the bytes of its UTF-8 encoding;
      [len] and [strip] work on the characters these bytes encode, and
      [upper] is [str.upper()] on ASCII text;
    - an exception is a constructor of [exn]; a function that may raise
      returns a [result]; a method that mutates an object or a file threads
      the object or the [Database] through the [Py] monad, and the state that
      comes back with a [Raise] is the state the exception leaves behind;
    - a [Database] is the data directory when each of its files is absent or
      holds text, where the loads of [DatabaseManager] return; a [Directory]
      is the data directory whatever [open] and [json.load] do on it;
    - the clock, [os.urandom] and the string parsers of the Python standard
      library ([float()], [datetime.fromisoformat], [hashlib.sha256]) are
      inputs of the model. *)

From Stdlib Require Import ZArith Floats Ascii String.
From stdpp Require Import gmap strings list fin_maps.

Set Warnings "-register-all,-inexact-float".
#[local] Open Scope Z_scope.
#[local] Open Scope string_scope.

(** ** Python values *)

(** What [json.load] can return. *)
Inductive json : Type :=
  | JNull
  | JBool (b : bool)
  | JInt (z : Z)
  | JFloat (f : float)
  | JStr (s : string)
  | JList (l : list json)
  | JDict (d : gmap string json).

(** [str.upper()] on ASCII text: the letters [a] to [z] change, and every
    other byte is kept (Python also changes letters outside ASCII). *)
Definition upper_ascii (c : ascii) : ascii :=
  let n := nat_of_ascii c in
  if (Nat.leb 97 n && Nat.leb n 122)%bool then ascii_of_nat (n - 32) else c.

Fixpoint upper (s : string) : string :=
  match s with
  | EmptyString => EmptyString
  | String c s' => String (upper_ascii c) (upper s')
  end.

(** [c.isspace()] on ASCII. *)
Definition isspace (c : ascii) : bool :=
  let n := nat_of_ascii c in
  (Nat.leb 9 n && Nat.leb n 13 || Nat.leb 28 n && Nat.leb n 32)%bool.

(** A Python [str] is held as its UTF-8 encoding, and its characters are the
    code points these bytes encode: a byte below 128 is a character; a byte
    from 192 on opens a character of two, three or four bytes, whose other
    bytes each bring six bits. [pending] counts the bytes the character still
    needs and [acc] holds the bits read so far. *)
Fixpoint decode_utf8 (pending : nat) (acc : N) (s : string) : list N :=
  match s with
  | EmptyString => []
  | String c s' =>
      let b := N_of_ascii c in
      match pending with
      | O =>
          if (b <? 192)%N then b :: decode_utf8 0 0%N s'
          else if (b <? 224)%N then decode_utf8 1 (b mod 32)%N s'
          else if (b <? 240)%N then decode_utf8 2 (b mod 16)%N s'
          else decode_utf8 3 (b mod 8)%N s'
      | S O => (acc * 64 + b mod 64)%N :: decode_utf8 0 0%N s'
      | S more => decode_utf8 more (acc * 64 + b mod 64)%N s'
      end
  end.

Definition code_points (s : string) : list N := decode_utf8 0 0%N s.

(** [len(s)]: the number of characters of [s], not of its bytes. *)
Definition py_len (s : string) : nat := length (code_points s).

(** [ch.isspace()] for a character: the characters [str.strip()] removes. *)
Definition isspace_char (n : N) : bool :=
  ((9 <=? n) && (n <=? 13) || (28 <=? n) && (n <=? 32)
   || (n =? 133) || (n =? 160) || (n =? 5760)
   || (8192 <=? n) && (n <=? 8202)
   || (n =? 8232) || (n =? 8233) || (n =? 8239) || (n =? 8287)
   || (n =? 12288))%N%bool.

(** [s.strip()] is empty exactly when every character of [s] is a space. *)
Definition strip_is_empty (s : string) : bool :=
  forallb isspace_char (code_points s).

(** Whether [s] is ASCII text: every byte is below 128. On such text a
    character is a byte. *)
Fixpoint is_ascii (s : string) : bool :=
  match s with
  | EmptyString => true
  | String c s' => ((N_of_ascii c <? 128)%N && is_ascii s')%bool
  end.

Definition str_is_empty (s : string) : bool :=
  match s with EmptyString => true | String _ _ => false end.

(** [s.replace("Z", "+00:00")]. *)
Fixpoint replace_Z (s : string) : string :=
  match s with
  | EmptyString => EmptyString
  | String c s' =>
      if Ascii.eqb c "Z"%char then "+00:00" ++ replace_Z s'
      else String c (replace_Z s')
  end.

(** [sub in s] for two strings. *)
Fixpoint str_contains (sub s : string) : bool :=
  if String.prefix sub s then true
  else match s with
       | EmptyString => false
       | String _ s' => str_contains sub s'
       end.

(** [float(z)] for a Python [int]: the nearest binary64 value (ties to even);
    [None] stands for the [OverflowError] of an integer too large. *)
Definition float_of_int (z : Z) : option float :=
  let f := SF2Prim (binary_normalize prec emax z 0 false) in
  if PrimFloat.is_infinity f then None else Some f.

(** Truth value of a Python object ([not x] is its negation). *)
Definition truthy (v : json) : bool :=
  match v with
  | JNull => false
  | JBool b => b
  | JInt z => negb (Z.eqb z 0)
  | JFloat f => negb (PrimFloat.eqb f 0%float)
  | JStr s => negb (str_is_empty s)
  | JList l => match l with [] => false | _ => true end
  | JDict d => match map_to_list d with [] => false | _ => true end
  end.

(** [v is None]. *)
Definition is_none (v : json) : bool :=
  match v with
  | JNull => true
  | _ => false
  end.

(** ** core/exceptions.py and the built-in exceptions the code raises *)

(** The messages of the [ValueError]s the package raises. *)
Inductive value_error : Type :=
  | AmountNotNumber          (* utils.validate_amount: not a number *)
  | AmountNotPositive        (* utils.validate_amount: value <= 0 *)
  | EmptyUsername            (* UserService.register *)
  | ShortPassword            (* UserService.register *)
  | UserWithoutName          (* User.__init__ *)
  | UserPasswordTooShort     (* User.__init__, User.change_password *)
  | UsernameTaken (username : string)   (* UserService.register *)
  | NegativeInitialBalance   (* Wallet.__init__ *)
  | DepositNotPositive       (* Wallet.deposit *)
  | WithdrawalNotPositive    (* Wallet.withdraw *)
  | UnknownTransactionType (transaction_type : string).

(** The two reasons [_prepare_transaction] gives to [ApiRequestError]: the
    rate of the pair is not available, or it is out of date. *)
Inductive api_reason : Type :=
  | RateUnavailable (from_code to_code : string)
  | RateStale (from_code to_code : string).

Inductive exn : Type :=
  | ValueError (why : value_error)
  | CurrencyNotFoundError (code : string)
  | InsufficientFundsError (available required : float) (code : string)
  | ApiRequestError (reason : api_reason)
  | AttributeError (type_name attribute : string)
  | TypeError (operation : string)
  | OverflowError
  | FileNotFoundError
  | JSONDecodeError
  | UnicodeDecodeError
  | PermissionError.


Inductive result (A : Type) : Type :=
  | Ok (a : A)
  | Raise (e : exn).
Arguments Ok {A} a.
Arguments Raise {A} e.

Definition bindR {A B : Type} (r : result A) (k : A → result B) : result B :=
  match r with
  | Ok a => k a
  | Raise e => Raise e
  end.

(** Code that reads and writes a state [S] and may raise. *)
Definition Py (S A : Type) : Type := S → result A * S.

Definition ret {S A : Type} (a : A) : Py S A := λ s, (Ok a, s).
Definition raise {S A : Type} (e : exn) : Py S A := λ s, (Raise e, s).
Definition bind {S A B : Type} (c : Py S A) (k : A → Py S B) : Py S B :=
  λ s, match c s with
       | (Ok a, s') => k a s'
       | (Raise e, s') => (Raise e, s')
       end.
Definition lift {S A : Type} (r : result A) : Py S A := λ s, (r, s).
Definition get {S : Type} : Py S S := λ s, (Ok s, s).
Definition put {S : Type} (s : S) : Py S unit := λ _, (Ok tt, s).

Declare Scope py_scope.
Delimit Scope py_scope with py.
Notation "'let*' x := c 'in' k" := (bind c (λ x, k))
  (at level 10, x pattern, c at level 100, k at level 200, only parsing)
  : py_scope.
Notation "c ;;; k" := (bind c (λ _, k))
  (at level 100, k at level 200, only parsing, right associativity)
  : py_scope.

(** [a * v] for a float [a] and a value [v] read from JSON. *)
Definition float_mul (a : float) (v : json) : result float :=
  match v with
  | JFloat f => Ok (a * f)%float
  | JInt z =>
      match float_of_int z with
      | Some f => Ok (a * f)%float
      | None => Raise OverflowError
      end
  | JBool b => Ok (a * (if b then 1 else 0))%float
  | _ => Raise (TypeError "float * non-number")
  end.

(** ** core/currencies.py *)

Inductive currency_kind : Type :=
  | Fiat (issuing_country : string)
  | Crypto (algorithm : string) (market_cap : float).

Record Currency : Type := {
  code : string;
  name : string;
  kind : currency_kind;
}.

Definition FiatCurrency (c n country : string) : Currency :=
  {| code := c; name := n; kind := Fiat country |}.
Definition CryptoCurrency (c n algo : string) (cap : float) : Currency :=
  {| code := c; name := n; kind := Crypto algo cap |}.

(** [CurrencyRegistry._initialize]. *)
Definition registry_entries : list (string * Currency) :=
  [ ("USD", FiatCurrency "USD" "US Dollar" "United States");
    ("EUR", FiatCurrency "EUR" "Euro" "Eurozone");
    ("GBP", FiatCurrency "GBP" "British Pound" "United Kingdom");
    ("RUB", FiatCurrency "RUB" "Russian Ruble" "Russia");
    ("JPY", FiatCurrency "JPY" "Japanese Yen" "Japan");
    ("CNY", FiatCurrency "CNY" "Chinese Yuan" "China");
    ("BTC", CryptoCurrency "BTC" "Bitcoin" "SHA-256" 1.12e12);
    ("ETH", CryptoCurrency "ETH" "Ethereum" "Ethash" 4.5e11);
    ("SOL", CryptoCurrency "SOL" "Solana" "Proof of History" 6.8e10);
    ("ADA", CryptoCurrency "ADA" "Cardano" "Ouroboros" 2.3e10);
    ("DOT", CryptoCurrency "DOT" "Polkadot" "Nominated Proof-of-Stake" 1.2e10) ].

Definition _currencies : gmap string Currency := list_to_map registry_entries.

(** [CurrencyRegistry.get_currency] and the module function [get_currency]. *)
Definition get_currency (c : string) : result Currency :=
  let c := upper c in
  match _currencies !! c with
  | None => Raise (CurrencyNotFoundError c)
  | Some cur => Ok cur
  end.

(** ** The environment of the package *)

(** A [datetime]: its position in microseconds on its own time line (UTC for
    an aware value, the local wall clock for a naive one) and whether it
    carries a [tzinfo]. *)
Record datetime : Type := {
  micros : Z;
  aware : bool;
}.

(** What [datetime.now()] reads: the current instant in microseconds, on the
    UTC time line and on the local wall clock. *)
Record clock : Type := {
  utc_now : Z;
  local_now : Z;
}.

(** The Python standard library functions the package calls on strings, and
    the configuration file read by [SettingsLoader]:
    - [py_float s] is [float(s)], [None] when it raises [ValueError];
    - [fromisoformat s] is [datetime.fromisoformat(s)], [None] when it raises
      [ValueError];
    - [sha256_hexdigest s] is [hashlib.sha256(s.encode()).hexdigest()];
    - [config] holds the integer entries of config.json. *)
Class Env : Type := {
  py_float : string → option float;
  fromisoformat : string → option datetime;
  sha256_hexdigest : string → string;
  config : gmap string Z;
}.

(** infra/settings.py, [SettingsLoader.get]. *)
Definition settings_get `{Env} (key : string) (default : Z) : Z :=
  match config !! key with
  | Some v => v
  | None => default
  end.

(** ** core/utils.py *)

Definition hash_password `{Env} (password salt : string) : string :=
  sha256_hexdigest (password ++ salt).

Definition validate_amount `{Env} (amount : string) : result float :=
  match py_float amount with
  | None => Raise (ValueError AmountNotNumber)
  | Some value =>
      if (value <=? 0)%float then Raise (ValueError AmountNotPositive)
      else Ok value
  end.

(** ** core/models.py *)

Record User : Type := {
  _user_id : Z;
  _username : string;
  _hashed_password : string;
  _salt : string;
  _registration_date : string;
}.

(** The dictionary of [User.to_dict], an element of users.json. *)
Record user_dict : Type := {
  user_id : Z;
  username : string;
  hashed_password : string;
  salt : string;
  registration_date : string;
}.

(** [User.__init__]; [urandom_hex] is [os.urandom(16).hex()] and [now_iso] is
    [datetime.now().isoformat()]. *)
Definition User_init `{Env} (uid : Z) (uname password : string)
    (urandom_hex now_iso : string) : result User :=
  if str_is_empty uname then Raise (ValueError UserWithoutName)
  else if (py_len password <? 4)%nat
  then Raise (ValueError UserPasswordTooShort)
  else Ok {| _user_id := uid;
             _username := uname;
             _hashed_password := hash_password password urandom_hex;
             _salt := urandom_hex;
             _registration_date := now_iso |}.

Definition User_to_dict (self : User) : user_dict :=
  {| user_id := _user_id self;
     username := _username self;
     hashed_password := _hashed_password self;
     salt := _salt self;
     registration_date := _registration_date self |}.

Record Wallet : Type := {
  currency_code : string;
  _balance : float;
}.

(** The dictionary of [Wallet.to_dict]. *)
Record wallet_dict : Type := {
  balance : float;
}.

(** [Wallet.__init__]. *)
Definition Wallet_init (c : string) (b : float) : result Wallet :=
  if (b <? 0)%float then Raise (ValueError NegativeInitialBalance)
  else Ok {| currency_code := upper c; _balance := b |}.

(** [Wallet.__init__] with the default balance [0.0], which never raises. *)
Definition Wallet_new (c : string) : Wallet :=
  {| currency_code := upper c; _balance := 0%float |}.

(** [Wallet.deposit]: the wallet is the state, changed in place. *)
Definition deposit (amount : float) : Py Wallet unit :=
  λ self,
    if (amount <=? 0)%float then (Raise (ValueError DepositNotPositive), self)
    else (Ok tt, {| currency_code := currency_code self;
                    _balance := (_balance self + amount)%float |}).

(** [Wallet.withdraw]. *)
Definition withdraw (amount : float) : Py Wallet unit :=
  λ self,
    if (amount <=? 0)%float then (Raise (ValueError WithdrawalNotPositive), self)
    else if (_balance self <? amount)%float then
      (Raise (InsufficientFundsError (_balance self) amount (currency_code self)),
       self)
    else (Ok tt, {| currency_code := currency_code self;
                    _balance := (_balance self - amount)%float |}).

Definition Wallet_to_dict (self : Wallet) : wallet_dict :=
  {| balance := _balance self |}.

Definition Wallet_from_dict (c : string) (data : wallet_dict) : result Wallet :=
  Wallet_init c (balance data).

Record Portfolio : Type := {
  _owner_id : Z;                     (* Portfolio._user_id *)
  _wallets : gmap string Wallet;
}.

(** The dictionary of [Portfolio.to_dict], an element of portfolios.json. *)
Record portfolio_dict : Type := {
  owner_id : Z;                      (* the key "user_id" *)
  wallets : gmap string wallet_dict;
}.

(** [Portfolio.__init__] without wallets. *)
Definition Portfolio_new (uid : Z) : Portfolio :=
  {| _owner_id := uid; _wallets := ∅ |}.

(** [Portfolio.add_currency]. *)
Definition add_currency (c : string) : Py Portfolio unit :=
  λ self,
    let c := upper c in
    match _wallets self !! c with
    | Some _ => (Ok tt, self)
    | None => (Ok tt, {| _owner_id := _owner_id self;
                         _wallets := <[c := Wallet_new c]> (_wallets self) |})
    end.

(** [Portfolio.get_wallet]. *)
Definition get_wallet (self : Portfolio) (c : string) : option Wallet :=
  _wallets self !! upper c.

Definition Portfolio_to_dict (self : Portfolio) : portfolio_dict :=
  {| owner_id := _owner_id self;
     wallets := Wallet_to_dict <$> _wallets self |}.

(** [Portfolio.from_dict]: every wallet is rebuilt by [Wallet.from_dict]; the
    first one that raises ends the loop, and all raise the same error. *)
Definition Portfolio_from_dict (data : portfolio_dict) : result Portfolio :=
  bindR
    (map_fold
       (λ c wdata acc,
          bindR acc (λ ws,
          bindR (Wallet_from_dict c wdata) (λ w, Ok (<[c := w]> ws))))
       (Ok ∅) (wallets data))
    (λ ws, Ok {| _owner_id := owner_id data; _wallets := ws |}).

(** ** infra/database.py *)

(** [DatabaseManager._load_json]. [body] is what the [with] statement of the
    [try] block does on the path: [open] and [json.load] return the value the
    file holds, or one of them raises ([FileNotFoundError] for a missing
    file, [json.JSONDecodeError] for text that is not JSON,
    [UnicodeDecodeError] for bytes that are not UTF-8, [PermissionError]).
    The [except] clause names two exceptions; any other goes on to the
    caller. Every caller passes a default that is not [None], so
    [default if default is not None else []] is [default]. *)
Definition _load_json {A : Type} (body : result A) (default : A) : result A :=
  match body with
  | Ok data => Ok data
  | Raise FileNotFoundError | Raise JSONDecodeError => Ok default
  | Raise e => Raise e
  end.

(** The data directory as [open] and [json.load] find it: what the [try]
    block of [_load_json] does on each of the four paths. *)
Record Directory : Type := {
  users_path : result (list user_dict);
  portfolios_path : result (list portfolio_dict);
  rates_path : result json;
  exchange_rates_path : result (list json);
}.

(** A file of the data directory that is absent or holds text: the file does
    not exist ([FileNotFoundError]), its text is not JSON
    ([json.JSONDecodeError]), or it holds a value. *)
Inductive file (A : Type) : Type :=
  | FileNotFound
  | NotJSON
  | Stored (data : A).
Arguments FileNotFound {A}.
Arguments NotJSON {A}.
Arguments Stored {A} data.

(** The four files of [DatabaseManager]. users.json and portfolios.json hold
    the lists the package writes; rates.json and exchange_rates.json are kept
    as the JSON values they are. *)
Record Database : Type := {
  users_json : file (list user_dict);
  portfolios_json : file (list portfolio_dict);
  rates_json : file json;
  exchange_rates_json : file (list json);
}.


(** What [_load_json] returns on such a file, where it never raises:
    [_load_json (read f) default = Ok (loaded f default)]. *)
Definition loaded {A : Type} (f : file A) (default : A) : A :=
  match f with
  | Stored data => data
  | FileNotFound | NotJSON => default
  end.

(** [DatabaseManager._save_json]: the temporary file replaces the old one. *)
Definition _save_json {A : Type} (data : A) : file A := Stored data.

(** The four loads on a [Database], whose files are absent or hold text:
    there [_load_json] returns, and the load is the value it returns (see
    [DatabaseManager] below for the loads on any [Directory]). *)
Definition load_users (db : Database) : list user_dict :=
  loaded (users_json db) [].

Definition save_users (users : list user_dict) : Py Database unit :=
  λ db, (Ok tt, {| users_json := _save_json users;
                   portfolios_json := portfolios_json db;
                   rates_json := rates_json db;
                   exchange_rates_json := exchange_rates_json db |}).

Definition load_portfolios (db : Database) : list portfolio_dict :=
  loaded (portfolios_json db) [].

Definition save_portfolios (portfolios : list portfolio_dict) : Py Database unit :=
  λ db, (Ok tt, {| users_json := users_json db;
                   portfolios_json := _save_json portfolios;
                   rates_json := rates_json db;
                   exchange_rates_json := exchange_rates_json db |}).

(** The default of [load_rates_cache]: [{"pairs": {}, "last_refresh": None}]. *)
Definition empty_rates_cache : json :=
  JDict (<["pairs" := JDict ∅]> (<["last_refresh" := JNull]> ∅)).

Definition load_rates_cache (db : Database) : json :=
  loaded (rates_json db) empty_rates_cache.

Definition save_rates_cache (data : json) : Py Database unit :=
  λ db, (Ok tt, {| users_json := users_json db;
                   portfolios_json := portfolios_json db;
                   rates_json := _save_json data;
                   exchange_rates_json := exchange_rates_json db |}).

Definition load_exchange_rates_history (db : Database) : list json :=
  loaded (exchange_rates_json db) [].

Definition save_exchange_rates_history (history : list json) : Py Database unit :=
  λ db, (Ok tt, {| users_json := users_json db;
                   portfolios_json := portfolios_json db;
                   rates_json := rates_json db;
                   exchange_rates_json := _save_json history |}).

(** The loads of [DatabaseManager] on any directory: each is [_load_json]
    with the default of the method. *)
Module DatabaseManager.

Definition load_users (d : Directory) : result (list user_dict) :=
  _load_json (users_path d) [].

Definition load_portfolios (d : Directory) : result (list portfolio_dict) :=
  _load_json (portfolios_path d) [].

Definition load_rates_cache (d : Directory) : result json :=
  _load_json (rates_path d) empty_rates_cache.

Definition load_exchange_rates_history (d : Directory) : result (list json) :=
  _load_json (exchange_rates_path d) [].

End DatabaseManager.


(** ** core/usecases.py *)

(** [type(v).__name__], for the messages of [AttributeError]. *)
Definition type_name (v : json) : string :=
  match v with
  | JNull => "NoneType"
  | JBool _ => "bool"
  | JInt _ => "int"
  | JFloat _ => "float"
  | JStr _ => "str"
  | JList _ => "list"
  | JDict _ => "dict"
  end.

(** [v.get(key, default)]; Python's [None] is [JNull]. Only a [dict] has the
    method. *)
Definition py_get (v : json) (key : string) (default : json) : result json :=
  match v with
  | JDict d => Ok (match d !! key with Some x => x | None => default end)
  | _ => Raise (AttributeError (type_name v) "get")
  end.

(** [s.replace("Z", "+00:00")], a method of [str] only. *)
Definition py_replace_Z (v : json) : result string :=
  match v with
  | JStr s => Ok (replace_Z s)
  | _ => Raise (AttributeError (type_name v) "replace")
  end.

(** [RATES_TTL = settings.get("rates_ttl_seconds", 300)], in seconds. *)
Definition RATES_TTL `{Env} : Z := settings_get "rates_ttl_seconds" 300.

(** [now - updated_at] in microseconds, where [now] is
    [datetime.now(updated_at.tzinfo)] for an aware [updated_at] and
    [datetime.now()] for a naive one. *)
Definition age (now : clock) (updated_at : datetime) : Z :=
  (if aware updated_at then utc_now now else local_now now) - micros updated_at.

(** [(now - updated_at) < timedelta(seconds=RATES_TTL)]. *)
Definition is_fresh_at `{Env} (now : clock) (updated_at : datetime) : bool :=
  (age now updated_at <? RATES_TTL * 1000000)%Z.

Definition pair_key (from_cur to_cur : string) : string :=
  upper from_cur ++ "_" ++ upper to_cur.

(** [_get_cached_rate]: the triple [(rate, updated_at, is_fresh)], with
    [(JNull, None, false)] for [(None, None, False)]. *)
Definition _get_cached_rate `{Env} (db : Database) (now : clock)
    (from_cur to_cur : string) : result (json * option datetime * bool) :=
  let rates_data := load_rates_cache db in
  bindR (py_get rates_data "pairs" (JDict ∅)) (λ pairs,
  bindR (py_get pairs (pair_key from_cur to_cur) JNull) (λ pair_info,
  if negb (truthy pair_info) then Ok (JNull, None, false)
  else
    bindR (py_get pair_info "rate" JNull) (λ rate,
    bindR (py_get pair_info "updated_at" JNull) (λ updated_at_str,
    if (negb (truthy rate) || negb (truthy updated_at_str))%bool
    then Ok (JNull, None, false)
    else
      bindR (py_replace_Z updated_at_str) (λ text,
      match fromisoformat text with
      | None => Ok (JNull, None, false)
      | Some updated_at => Ok (rate, Some updated_at, is_fresh_at now updated_at)
      end))))).

(** [max(l, default=d)]: the greatest element of [l], and [d] for an empty
    list. *)
Definition py_max (l : list Z) (d : Z) : Z :=
  match l with
  | [] => d
  | x :: l' => foldr Z.max x l'
  end.

(** [UserService.register]; [urandom_hex] and [now_iso] are what
    [User.__init__] reads from [os.urandom] and the clock. *)
Definition register `{Env} (uname password urandom_hex now_iso : string)
    : Py Database User :=
  (if (str_is_empty uname || strip_is_empty uname)%bool
   then raise (ValueError EmptyUsername)
   else if (py_len password <? 4)%nat
   then raise (ValueError ShortPassword)
   else
     let* db := get in
     let users_data := load_users db in
     if existsb (λ u, String.eqb (username u) uname) users_data
     then raise (ValueError (UsernameTaken uname))
     else
       let new_id := py_max (user_id <$> users_data) 0 + 1 in
       let* user := lift (User_init new_id uname password urandom_hex now_iso) in
       save_users (users_data ++ [User_to_dict user]) ;;;
       let portfolio := Portfolio_new (_user_id user) in
       let* db := get in
       let portfolios_data := load_portfolios db in
       save_portfolios (portfolios_data ++ [Portfolio_to_dict portfolio]) ;;;
       ret user)%py.

(** A [PortfolioService] object: its user and the portfolio it holds in
    memory. *)
Record PortfolioService : Type := {
  user : User;
  _portfolio : Portfolio;
}.

(** The state of a command: the service object and the data directory. *)
Definition World : Type := PortfolioService * Database.

Definition on_db {A : Type} (c : Py Database A) : Py World A :=
  λ '(self, db), let '(r, db') := c db in (r, (self, db')).

Definition on_portfolio {A : Type} (c : Py Portfolio A) : Py World A :=
  λ '(self, db),
    let '(r, p) := c (_portfolio self) in
    (r, ({| user := user self; _portfolio := p |}, db)).

(** A [Wallet] object of the portfolio is referred to by its key in
    [_wallets]; a method called on the reference changes that entry. *)
Definition on_wallet {A : Type} (ref : string) (c : Py Wallet A) : Py Portfolio A :=
  λ p,
    match _wallets p !! ref with
    | None => (Raise (AttributeError "NoneType" "wallet"), p)
    | Some w =>
        let '(r, w') := c w in
        (r, {| _owner_id := _owner_id p; _wallets := <[ref := w']> (_wallets p) |})
    end.

(** The property [wallet.balance]. *)
Definition read_balance : Py Wallet float := λ w, (Ok (_balance w), w).

(** The first portfolio of the list that belongs to [uid]. *)
Fixpoint find_portfolio (uid : Z) (l : list portfolio_dict) : option portfolio_dict :=
  match l with
  | [] => None
  | p :: l' => if (owner_id p =? uid)%Z then Some p else find_portfolio uid l'
  end.

(** [PortfolioService._load_portfolio]. *)
Definition _load_portfolio (u : User) : Py Database Portfolio :=
  (let* db := get in
   let portfolios_data := load_portfolios db in
   match find_portfolio (_user_id u) portfolios_data with
   | Some p => lift (Portfolio_from_dict p)
   | None =>
       let new_portfolio := Portfolio_new (_user_id u) in
       save_portfolios (portfolios_data ++ [Portfolio_to_dict new_portfolio]) ;;;
       ret new_portfolio
   end)%py.

(** [PortfolioService.__init__]. *)
Definition PortfolioService_init (u : User) : Py Database PortfolioService :=
  (let* p := _load_portfolio u in
   ret {| user := u; _portfolio := p |})%py.

(** The loop of [_save_portfolio]: the first entry of the user is replaced,
    and without one ([for ... else]) the dictionary is appended. *)
Fixpoint replace_portfolio (uid : Z) (d : portfolio_dict) (l : list portfolio_dict)
    : list portfolio_dict :=
  match l with
  | [] => [d]
  | p :: l' =>
      if (owner_id p =? uid)%Z then d :: l' else p :: replace_portfolio uid d l'
  end.

(** [PortfolioService._save_portfolio]. *)
Definition _save_portfolio : Py World unit :=
  λ '(self, db),
    let portfolios_data := load_portfolios db in
    on_db (save_portfolios
             (replace_portfolio (_user_id (user self))
                (Portfolio_to_dict (_portfolio self)) portfolios_data))
      (self, db).

(** [PortfolioService._get_or_create_wallet]; the wallet returned is the one
    under the key [upper c]. *)
Definition _get_or_create_wallet (c : string) : Py Portfolio string :=
  λ p,
    match get_wallet p c with
    | Some _ => (Ok (upper c), p)
    | None => let '(_, p') := add_currency c p in (Ok (upper c), p')
    end.

(** [PortfolioService._prepare_transaction]: the tuple
    [(amount_float, rate, wallet_from, wallet_to, is_fresh)]. *)
Definition _prepare_transaction `{Env} (now : clock)
    (c amount base_currency transaction_type : string)
    : Py World (float * json * string * string * bool) :=
  (let* amount_float := lift (validate_amount amount) in
   let* currency := lift (get_currency c) in
   let* db := (λ w, (Ok (snd w), w)) in
   let* (rate, updated_at, is_fresh) :=
     lift (_get_cached_rate db now (code currency) base_currency) in
   if is_none rate
   then raise (ApiRequestError (RateUnavailable (code currency) base_currency))
   else
     if negb is_fresh
     then raise (ApiRequestError (RateStale (code currency) base_currency))
     else if String.eqb transaction_type "buy" then
       let* wallet_from := on_portfolio (_get_or_create_wallet base_currency) in
       let* wallet_to := on_portfolio (_get_or_create_wallet (code currency)) in
       let* required := lift (float_mul amount_float rate) in
       let* available := on_portfolio (on_wallet wallet_from read_balance) in
       if (available <? required)%float
       then raise (InsufficientFundsError available required base_currency)
       else ret (amount_float, rate, wallet_from, wallet_to, is_fresh)
     else if String.eqb transaction_type "sell" then
       let* wallet_from := on_portfolio (_get_or_create_wallet (code currency)) in
       let* wallet_to := on_portfolio (_get_or_create_wallet base_currency) in
       let required := amount_float in
       let* available := on_portfolio (on_wallet wallet_from read_balance) in
       if (available <? required)%float
       then raise (InsufficientFundsError available required (code currency))
       else ret (amount_float, rate, wallet_from, wallet_to, is_fresh)
     else raise (ValueError (UnknownTransactionType transaction_type)))%py.

(** [currency_code.code] in [buy_currency]: [currency_code] is a [str], which
    has no attribute [code]. *)
Definition str_code (s : string) : result string :=
  Raise (AttributeError "str" "code").

(** [PortfolioService.buy_currency]; the dictionary returned is a [gmap]. *)
Definition buy_currency `{Env} (now : clock) (c amount base_currency : string)
    : Py World (gmap string json) :=
  (let* (amount_float, rate, base_wallet, target_wallet, is_fresh) := _prepare_transaction now c amount base_currency "buy" in
   let* cost := lift (float_mul amount_float rate) in
   on_portfolio (on_wallet base_wallet (withdraw cost)) ;;;
   on_portfolio (on_wallet target_wallet (deposit amount_float)) ;;;
   _save_portfolio ;;;
   let* currency := lift (str_code c) in
   let* new_balance := on_portfolio (on_wallet target_wallet read_balance) in
   let* base_balance := on_portfolio (on_wallet base_wallet read_balance) in
   ret (list_to_map
          [ ("currency", JStr currency);
            ("amount", JFloat amount_float);
            ("rate", rate);
            ("cost", JFloat cost);
            ("base_currency", JStr base_currency);
            ("new_balance", JFloat new_balance);
            ("base_balance", JFloat base_balance);
            ("rate_fresh", JBool is_fresh) ]))%py.

(** [PortfolioService.sell_currency]; the warning logged for a rate that is
    not fresh changes no state. *)
Definition sell_currency `{Env} (now : clock) (c amount base_currency : string)
    : Py World (gmap string json) :=
  (let* (amount_float, rate, wallet_from, wallet_to, is_fresh) := _prepare_transaction now c amount base_currency "sell" in
   let* proceeds := lift (float_mul amount_float rate) in
   on_portfolio (on_wallet wallet_from (withdraw amount_float)) ;;;
   on_portfolio (on_wallet wallet_to (deposit proceeds)) ;;;
   _save_portfolio ;;;
   let* new_balance := on_portfolio (on_wallet wallet_from read_balance) in
   let* base_balance := on_portfolio (on_wallet wallet_to read_balance) in
   ret (list_to_map
          [ ("currency", JStr (upper c));
            ("amount", JFloat amount_float);
            ("rate", rate);
            ("proceeds", JFloat proceeds);
            ("base_currency", JStr base_currency);
            ("new_balance", JFloat new_balance);
            ("base_balance", JFloat base_balance);
            ("rate_fresh", JBool is_fresh) ]))%py.

(** ** parser_service/storage.py *)

(** The argument of [save_exchange_rate]: the dictionary that
    [RatesUpdater.run_update] builds, whose key [meta] is optional. *)
Record rate_data : Type := {
  from_currency : string;
  to_currency : string;
  rate : json;
  source : string;
  meta : option json;
}.

(** [ParserStorage._generate_rate_id]; [stamp] is
    [datetime.now().strftime("%Y-%m-%dT%H:%M:%SZ")]. *)
Definition _generate_rate_id (data : rate_data) (stamp : string) : string :=
  from_currency data ++ "_" ++ to_currency data ++ "_" ++ stamp.

(** The size of the history kept by [save_exchange_rate]. *)
Definition history_cap : nat := 1000.

(** [history[-1000:]]. *)
Definition last_entries (history : list json) : list json :=
  drop (length history - history_cap)%nat history.

(** The dictionary [record] of [save_exchange_rate]. *)
Definition exchange_rate_record (data : rate_data) (record_id now_iso : string)
    : json :=
  JDict (list_to_map
    [ ("id", JStr record_id);
      ("from_currency", JStr (from_currency data));
      ("to_currency", JStr (to_currency data));
      ("rate", rate data);
      ("timestamp", JStr (now_iso ++ "Z"));
      ("source", JStr (source data));
      ("meta", match meta data with Some m => m | None => JDict ∅ end) ]).

(** [ParserStorage.save_exchange_rate]; [stamp] is the time as
    [_generate_rate_id] formats it and [now_iso] is
    [datetime.now().isoformat()]. *)
Definition save_exchange_rate (data : rate_data) (stamp now_iso : string)
    : Py Database unit :=
  (let* db := get in
   let history := load_exchange_rates_history db in
   let record_id := _generate_rate_id data stamp in
   let record := exchange_rate_record data record_id now_iso in
   let history := (history ++ [record])%list in
   let history :=
     if (history_cap <? length history)%nat then last_entries history
     else history in
   save_exchange_rates_history history)%py.

(** Whether a value read from JSON is the string ["pairs"]. *)
Definition is_pairs_str (v : json) : bool :=
  match v with
  | JStr s => String.eqb s "pairs"
  | _ => false
  end.

(** ["pairs" in cache]: a key of a [dict], an element of a [list], a part of
    a [str]; the other values are not iterable. *)
Definition contains_pairs (cache : json) : result bool :=
  match cache with
  | JDict d => Ok (bool_decide (is_Some (d !! "pairs")))
  | JList l => Ok (existsb is_pairs_str l)
  | JStr s => Ok (str_contains "pairs" s)
  | _ => Raise (TypeError "argument is not iterable")
  end.

(** [cache["pairs"]]. *)
Definition get_pairs (cache : json) : result json :=
  match cache with
  | JDict d =>
      match d !! "pairs" with
      | Some v => Ok v
      | None => Raise (TypeError "KeyError: pairs")
      end
  | _ => Raise (TypeError "indices must be integers")
  end.

(** [pairs.update(new_pairs)], a method of [dict] only; the new entries
    replace the old ones of the same key. *)
Definition py_update (pairs : json) (new_pairs : gmap string json)
    : result (gmap string json) :=
  match pairs with
  | JDict old => Ok (new_pairs ∪ old)
  | _ => Raise (AttributeError (type_name pairs) "update")
  end.

(** [cache[key] = v] for the dictionary [cache]. *)
Definition py_setitem (cache : json) (key : string) (v : json) : result json :=
  match cache with
  | JDict d => Ok (JDict (<[key := v]> d))
  | _ => Raise (TypeError "item assignment")
  end.

(** The entry [save_current_rates] writes for one pair. *)
Definition new_pair (source_name current_time : string) (r : json) : json :=
  JDict (list_to_map
    [ ("rate", r);
      ("updated_at", JStr current_time);
      ("source", JStr source_name) ]).

(** [ParserStorage.save_current_rates]; [current_time] is
    [datetime.now().isoformat()]. *)
Definition save_current_rates (rates : gmap string json)
    (source_name current_time : string) : Py Database unit :=
  (let new_pairs := new_pair source_name current_time <$> rates in
   let* db := get in
   let cache := load_rates_cache db in
   let* has_pairs := lift (contains_pairs cache) in
   let cache :=
     if negb has_pairs then
       let old_pairs := match cache with JDict _ => cache | _ => JDict ∅ end in
       JDict (<["pairs" := old_pairs]> (<["last_refresh" := JNull]> ∅))
     else cache in
   let* pairs := lift (get_pairs cache) in
   let* pairs := lift (py_update pairs new_pairs) in
   let* cache := lift (py_setitem cache "pairs" (JDict pairs)) in
   let* cache := lift (py_setitem cache "last_refresh" (JStr current_time)) in
   save_rates_cache cache)%py.

(** The pairs an existing content of rates.json holds when
    [save_current_rates] reads it, and the entries of the cache that stay
    beside them:
    - a missing file and a file that is not JSON hold no pairs (the default
      of [load_rates_cache]);
    - an object with an object under ["pairs"] holds those pairs, beside the
      other keys of the object;
    - an object without the key ["pairs"], the old flat format, holds its
      own entries as pairs;
    - a list without the string ["pairs"] and a string without the text
      ["pairs"] hold no pairs. *)
Inductive holds_pairs : file json → gmap string json → gmap string json → Prop :=
  | pairs_of_missing_file : holds_pairs FileNotFound ∅ ∅
  | pairs_of_broken_file : holds_pairs NotJSON ∅ ∅
  | pairs_of_cache (cache old : gmap string json) :
      cache !! "pairs" = Some (JDict old) →
      holds_pairs (Stored (JDict cache)) old cache
  | pairs_of_flat_cache (cache : gmap string json) :
      cache !! "pairs" = None →
      holds_pairs (Stored (JDict cache)) cache ∅
  | pairs_of_list (l : list json) :
      existsb is_pairs_str l = false →
      holds_pairs (Stored (JList l)) ∅ ∅
  | pairs_of_text (text : string) :
      str_contains "pairs" text = false →
      holds_pairs (Stored (JStr text)) ∅ ∅.

(** ** Sequences of wallet operations *)

Inductive wallet_op : Type :=
  | Deposit (amount : float)
  | Withdraw (amount : float).

(** One call on a wallet; an exception is caught by the caller and the wallet
    is kept as the call left it. *)
Definition apply_op (op : wallet_op) (w : Wallet) : Wallet :=
  match op with
  | Deposit a => snd (deposit a w)
  | Withdraw a => snd (withdraw a w)
  end.

Definition apply_ops (ops : list wallet_op) (w : Wallet) : Wallet :=
  foldl (λ w op, apply_op op w) w ops.

Definition op_amount (op : wallet_op) : float :=
  match op with
  | Deposit a => a
  | Withdraw a => a
  end.

(** ** Classes of binary64 values *)

(** The values [x] for which [x < 0] is false: zeros, positive numbers,
    [+infinity] and [nan]. *)
Definition not_negative (x : spec_float) : Prop :=
  match x with
  | S754_infinity true | S754_finite true _ _ => False
  | _ => True
  end.

(** The values [x] for which [x <= 0] is false: positive numbers, [+infinity]
    and [nan]. *)
Definition positive_or_nan (x : spec_float) : Prop :=
  match x with
  | S754_nan | S754_infinity false | S754_finite false _ _ => True
  | _ => False
  end.

(** The values [x] for which [0 <= x] is true. *)
Definition at_least_zero (x : spec_float) : Prop :=
  match x with
  | S754_zero _ | S754_infinity false | S754_finite false _ _ => True
  | _ => False
  end.

(** The positive numbers: neither zero, nor infinite, nor [nan]. *)
Definition positive_finite (x : spec_float) : Prop :=
  match x with
  | S754_finite false _ _ => True
  | _ => False
  end.

(** ** A concrete environment *)

(** Python's [float()] on the literals of the scenarios below. *)
Definition demo_float (s : string) : option float :=
  if String.eqb s "0.01" then Some 0.01%float
  else if String.eqb s "0.2" then Some 0.2%float
  else if String.eqb s "5" then Some 5%float
  else if String.eqb s "nan" then Some nan
  else None.

(** [datetime.fromisoformat] on the time stamps of the scenarios below:
    midnight and ten minutes past midnight of 1 January 2024, naive. *)
Definition demo_fromisoformat (s : string) : option datetime :=
  if String.eqb s "2024-01-01T00:00:00"
  then Some {| micros := 1704067200000000; aware := false |}
  else if String.eqb s "2024-01-01T00:10:00"
  then Some {| micros := 1704067800000000; aware := false |}
  else None.

(** An environment whose config.json has no [rates_ttl_seconds]. The digest
    is not computed: the text hashed stands for it. *)
Definition demo_env : Env :=
  {| py_float := demo_float;
     fromisoformat := demo_fromisoformat;
     sha256_hexdigest := λ s, "sha256:" ++ s;
     config := ∅ |}.

(** A clock reading [seconds] after midnight of 1 January 2024. *)
Definition clock_at (seconds : Z) : clock :=
  {| utc_now := 1704067200000000 + seconds * 1000000;
     local_now := 1704067200000000 + seconds * 1000000 |}.

(** rates.json with one pair. *)
Definition rates_with (key : string) (r : json) (updated_at : string) : json :=
  JDict (<["pairs" := JDict {[ key := new_pair "coingecko" updated_at r ]}]>
         (<["last_refresh" := JStr updated_at]> ∅)).

Definition alice : User :=
  {| _user_id := 1; _username := "alice"; _hashed_password := "";
     _salt := ""; _registration_date := "2024-01-01T00:00:00" |}.

(** The data directory of the scenario: alice holds 1000.00 USD and BTC_USD
    is cached at 60000.0. *)
Definition demo_db (r : json) : Database :=
  {| users_json := Stored [User_to_dict alice];
     portfolios_json :=
       Stored [ {| owner_id := 1;
                   wallets := {[ "USD" := {| balance := 1000 |} ]} |} ];
     rates_json := Stored (rates_with "BTC_USD" r "2024-01-01T00:00:00");
     exchange_rates_json := FileNotFound |}.

(** A second scenario: alice holds 100000.00 USD and 0.1 BTC. *)
Definition rich_db (r : json) : Database :=
  {| users_json := Stored [User_to_dict alice];
     portfolios_json :=
       Stored [ {| owner_id := 1;
                   wallets := <["BTC" := {| balance := 0.1 |}]>
                                {[ "USD" := {| balance := 100000 |} ]} |} ];
     rates_json := Stored (rates_with "BTC_USD" r "2024-01-01T00:00:00");
     exchange_rates_json := FileNotFound |}.

Definition rich_service : PortfolioService :=
  {| user := alice;
     _portfolio :=
       {| _owner_id := 1;
          _wallets :=
            <["BTC" := {| currency_code := "BTC"; _balance := 0.1 |}]>
              {[ "USD" := {| currency_code := "USD"; _balance := 100000 |} ]} |} |}.

Definition demo_service : PortfolioService :=
  {| user := alice;
     _portfolio :=
       {| _owner_id := 1;
          _wallets := {[ "USD" := {| currency_code := "USD"; _balance := 1000 |} ]} |} |}.

(** ** Views of the state used in the statements *)

(** The balance of a wallet of the service, when it has one. *)
Definition wallet_balance (self : PortfolioService) (c : string) : option float :=
  _balance <$> (_wallets (_portfolio self) !! c).

(** The balance a trade finds in the wallet [c]: a wallet the user never held
    is created with [0.0]. *)
Definition balance_or_zero (self : PortfolioService) (c : string) : float :=
  match wallet_balance self c with
  | Some b => b
  | None => 0%float
  end.

(** The service after [_get_or_create_wallet c]. *)
Definition with_wallet (c : string) (self : PortfolioService) : PortfolioService :=
  {| user := user self; _portfolio := snd (add_currency c (_portfolio self)) |}.

(** The service after the balance of its wallet [k] went from [b] to [f b]. *)
Definition map_balance (f : float → float) (k : string) (self : PortfolioService)
    : PortfolioService :=
  {| user := user self;
     _portfolio :=
       {| _owner_id := _owner_id (_portfolio self);
          _wallets :=
            alter (λ wl, {| currency_code := currency_code wl;
                            _balance := f (_balance wl) |})
                  k (_wallets (_portfolio self)) |} |}.

(** The data directory after [_save_portfolio]. *)
Definition persist (self : PortfolioService) (db : Database) : Database :=
  snd (snd (_save_portfolio (self, db))).

(** The pairs [_get_cached_rate] reads from rates.json: the dictionary under
    ["pairs"] of the dictionary loaded, empty when the key is missing. *)
Definition cached_pairs (db : Database) : option (gmap string json) :=
  match load_rates_cache db with
  | JDict d =>
      match d !! "pairs" with
      | None => Some ∅
      | Some (JDict pairs) => Some pairs
      | Some _ => None
      end
  | _ => None
  end.

(** No wallet of [self] has changed in [self']: the wallets of [self] are in
    [self'] as they were, and a wallet of [self'] that [self] does not have is
    a new one with balance [0.0]. *)
Definition balances_kept (self self' : PortfolioService) : Prop :=
  user self' = user self ∧
  _owner_id (_portfolio self') = _owner_id (_portfolio self) ∧
  (∀ k w, _wallets (_portfolio self) !! k = Some w →
          _wallets (_portfolio self') !! k = Some w) ∧
  (∀ k w, _wallets (_portfolio self') !! k = Some w →
          _wallets (_portfolio self) !! k = Some w ∨
          (_wallets (_portfolio self) !! k = None ∧ w = Wallet_new k)).

(** ** More of core/models.py *)

(** [User.from_dict]. *)
Definition User_from_dict (data : user_dict) : User :=
  {| _user_id := user_id data;
     _username := username data;
     _hashed_password := hashed_password data;
     _salt := salt data;
     _registration_date := registration_date data |}.

(** [User.verify_password]. *)
Definition verify_password `{Env} (self : User) (password : string) : bool :=
  String.eqb (_hashed_password self) (hash_password password (_salt self)).

(** [User.change_password]: the user is the state, changed in place. *)
Definition change_password `{Env} (new_password : string) : Py User unit :=
  λ self,
    if (py_len new_password <? 4)%nat
    then (Raise (ValueError UserPasswordTooShort), self)
    else (Ok tt, {| _user_id := _user_id self;
                    _username := _username self;
                    _hashed_password := hash_password new_password (_salt self);
                    _salt := _salt self;
                    _registration_date := _registration_date self |}).

(** What [Portfolio.from_dict] makes of the stored wallet [wdata] under the
    key [k], when its balance is accepted. *)
Definition stored_wallet (k : string) (wdata : wallet_dict) : Wallet :=
  {| currency_code := upper k; _balance := balance wdata |}.

(** A portfolio as the package builds it: every wallet carries the upper-case
    form of its key, and no balance is below zero. *)
Definition well_kept (p : Portfolio) : Prop :=
  ∀ k w, _wallets p !! k = Some w →
         currency_code w = upper k ∧ (_balance w <? 0)%float = false.

(** ** More of core/usecases.py *)

(** The two [ValueError]s of [UserService.login]: the password is wrong, or
    no user has the name. *)
Inductive login_error : Type :=
  | WrongPassword
  | UserNotFound (username : string).

(** The loop of [UserService.login]: the first stored user of that name
    decides. *)
Fixpoint login_loop `{Env} (users_data : list user_dict) (uname password : string)
    : login_error + User :=
  match users_data with
  | [] => inl (UserNotFound uname)
  | u_data :: rest =>
      if String.eqb (username u_data) uname then
        let user := User_from_dict u_data in
        if verify_password user password then inr user else inl WrongPassword
      else login_loop rest uname password
  end.

(** [UserService.login]. *)
Definition login `{Env} (uname password : string) (db : Database)
    : login_error + User :=
  login_loop (load_users db) uname password.

(** What [RateService.get_rate] raises: its own [ApiRequestError] for a rate
    that is not in the cache, or an exception that [_prepare_transaction]
    raises too (the stale rate has the same message, an unknown code is a
    [CurrencyNotFoundError]). The codes in the messages are the arguments as
    they were passed. *)
Inductive get_rate_error : Type :=
  | RateNotCached (from_code to_code : string)
  | Raised (e : exn).

(** [RateService.get_rate]: the pair [(rate, updated_at)]. *)
Definition get_rate `{Env} (db : Database) (now : clock) (from_code to_code : string)
    : get_rate_error + (json * option datetime) :=
  match get_currency from_code with
  | Raise e => inl (Raised e)
  | Ok from_cur =>
    match get_currency to_code with
    | Raise e => inl (Raised e)
    | Ok to_cur =>
      match _get_cached_rate db now (code from_cur) (code to_cur) with
      | Raise e => inl (Raised e)
      | Ok (rate, updated_at, is_fresh) =>
          if is_none rate then inl (RateNotCached from_code to_code)
          else if negb is_fresh
          then inl (Raised (ApiRequestError (RateStale from_code to_code)))
          else inr (rate, updated_at)
      end
    end
  end.

(** ** parser_service/updater.py *)

(** [s.split(sep)] for a separator of one character. *)
Fixpoint split_on (sep : ascii) (s : string) : list string :=
  match s with
  | EmptyString => [EmptyString]
  | String ch s' =>
      if Ascii.eqb ch sep then EmptyString :: split_on sep s'
      else match split_on sep s' with
           | [] => [String ch EmptyString]
           | part :: parts => String ch part :: parts
           end
  end.

(** [sep.join(l)]. *)
Fixpoint join (sep : string) (l : list string) : string :=
  match l with
  | [] => EmptyString
  | [x] => x
  | x :: rest => x ++ sep ++ join sep rest
  end.

(** One reading of the clock, as the two formats the parser service uses:
    [datetime.now().isoformat()] and
    [datetime.now().strftime("%Y-%m-%dT%H:%M:%SZ")]. *)
Record time_reading : Type := {
  iso : string;
  stamp : string;
}.

(** What [fetch_rates] of each client of [RatesUpdater] does in one run: it
    raises, or it returns a dictionary, given by its items in their order. *)
Record clients : Type := {
  coingecko : result (list (string * json));
  exchangerate : result (list (string * json));
}.

(** [self.clients.get(name)]: the updater has the two clients, in this
    order. *)
Definition client_names : list string := ["coingecko"; "exchangerate"].

Definition client_named (cl : clients) (source_name : string)
    : option (result (list (string * json))) :=
  if String.eqb source_name "coingecko" then Some (coingecko cl)
  else if String.eqb source_name "exchangerate" then Some (exchangerate cl)
  else None.

(** The state of a run: the data directory and the number of readings of the
    clock so far; [clk n] is the reading number [n]. *)
Definition Run : Type := Database * nat.

(** The body of the inner loop of [run_update] for one pair: a key that does
    not split into two parts raises a [ValueError], which is caught and
    logged; otherwise the record is appended to the history, with three
    readings of the clock. *)
Definition record_pair (clk : nat → time_reading) (source_name : string)
    (item : string * json) : Py Run unit :=
  λ '(db, n),
    match split_on "_" (fst item) with
    | [from_cur; to_cur] =>
        let rate_record :=
          {| from_currency := from_cur;
             to_currency := to_cur;
             rate := snd item;
             source := source_name;
             meta := Some (JDict {[ "request_timestamp" := JStr (iso (clk n)) ]}) |} in
        let '(_, db') :=
          save_exchange_rate rate_record (stamp (clk (S n))) (iso (clk (S (S n)))) db in
        (Ok tt, (db', S (S (S n))))
    | _ => (Ok tt, (db, n))
    end.

Fixpoint record_pairs (clk : nat → time_reading) (source_name : string)
    (items : list (string * json)) : Py Run unit :=
  match items with
  | [] => ret tt
  | item :: rest =>
      (record_pair clk source_name item ;;;
       record_pairs clk source_name rest)%py
  end.

(** [all_rates.update(rates)]. *)
Definition update_rates (all_rates : gmap string json) (items : list (string * json))
    : gmap string json :=
  foldl (λ acc item, <[fst item := snd item]> acc) all_rates items.

(** The loop of [run_update] over the sources: an unknown name, a client that
    raises and a client without rates are skipped (and logged); the pairs of
    the others go to the history and into [all_rates]. *)
Fixpoint update_sources (clk : nat → time_reading) (cl : clients)
    (sources : list string) (all_rates : gmap string json) (successful : list string)
    : Py Run (gmap string json * list string) :=
  match sources with
  | [] => ret (all_rates, successful)
  | source_name :: rest =>
      match client_named cl source_name with
      | None => update_sources clk cl rest all_rates successful
      | Some (Raise _) => update_sources clk cl rest all_rates successful
      | Some (Ok []) => update_sources clk cl rest all_rates successful
      | Some (Ok items) =>
          (record_pairs clk source_name items ;;;
           update_sources clk cl rest (update_rates all_rates items)
             (successful ++ [source_name]))%py
      end
  end.

(** [RatesUpdater.run_update]; a [source] that is [None] or empty stands for
    all the clients. *)
Definition run_update (clk : nat → time_reading) (cl : clients)
    (source : option string) : Py Run (gmap string json) :=
  let sources_to_update :=
    match source with
    | Some name => if str_is_empty name then client_names else [name]
    | None => client_names
    end in
  (let* (all_rates, successful_sources) :=
     update_sources clk cl sources_to_update ∅ [] in
   if negb (bool_decide (all_rates = ∅)) then
     let source_str := join "," successful_sources in
     (λ '(db, n),
        let '(r, db') := save_current_rates all_rates source_str (iso (clk n)) db in
        (r, (db', S n))) ;;;
     ret all_rates
   else ret all_rates)%py.

(** The rates a client contributes to a run: those it returned, and none
    when it raised. *)
Definition fetched (r : result (list (string * json))) : list (string * json) :=
  match r with
  | Ok items => items
  | Raise _ => []
  end.

(** The number of items whose key splits into two parts at ["_"], which are
    the items [run_update] appends to the history. *)
Definition recorded (items : list (string * json)) : nat :=
  length (filter (λ item, length (split_on "_" (fst item)) = 2%nat) items).

(** The names [run_update] joins into the source of a commit. *)
Definition sources_with_rates (cl : clients) : list string :=
  ((if fetched (coingecko cl) is [] then [] else ["coingecko"]) ++
   (if fetched (exchangerate cl) is [] then [] else ["exchangerate"]))%list.

(** A run in which CoinGecko returns two pairs and ExchangeRate-API raises. *)
Definition demo_clients : clients :=
  {| coingecko := Ok [("BTC_USD", JFloat 61000); ("ETH_USD", JFloat 3000)];
     exchangerate := Raise (TypeError "unexpected response") |}.

(** A clock that gives the same reading every time. *)
Definition demo_clock (n : nat) : time_reading :=
  {| iso := "2024-01-01T00:10:00"; stamp := "2024-01-01T00:10:00Z" |}.

(** ** More of core/utils.py *)

(** [s.lstrip()], [s.rstrip()] and [s.strip()] on ASCII text (Python also
    strips the spaces outside ASCII, which [isspace_char] lists). *)
Fixpoint lstrip (s : string) : string :=
  match s with
  | EmptyString => EmptyString
  | String c s' => if isspace c then lstrip s' else s
  end.

Fixpoint rstrip (s : string) : string :=
  match s with
  | EmptyString => EmptyString
  | String c s' =>
      match rstrip s' with
      | EmptyString => if isspace c then EmptyString else String c EmptyString
      | String c' r => String c (String c' r)
      end
  end.

Definition strip (s : string) : string := lstrip (rstrip s).

(** [validate_currency_code]; the currency [get_currency] returns is
    dropped. *)
Definition validate_currency_code (code : string) : result string :=
  let code := strip (upper code) in
  if str_is_empty code then Raise (CurrencyNotFoundError code)
  else bindR (get_currency code) (λ _, Ok code).

(** ** cli/interface.py *)

(** What [_parse_args] prints before it returns [None]: an option without a
    value, an argument that is not an option, a required option that is
    missing. *)
Inductive parse_error : Type :=
  | ValueMissing (key : string)
  | UnknownArgument (arg : string)
  | RequiredMissing (req : string).

(** [s.startswith(pre)]. *)
Definition startswith (pre s : string) : bool := String.prefix pre s.

(** The [while] loop of [_parse_args], on the arguments from index [i] on. *)
Fixpoint parse_loop (args : list string) (result : gmap string string)
    : parse_error + gmap string string :=
  match args with
  | [] => inr result
  | key :: rest =>
      if startswith "--" key then
        match rest with
        | value :: rest' =>
            if negb (startswith "--" value)
            then parse_loop rest' (<[key := value]> result)
            else inl (ValueMissing key)
        | [] => inl (ValueMissing key)
        end
      else inl (UnknownArgument key)
  end.

(** The [for] loop of [_parse_args] over the required options. *)
Fixpoint first_missing (expected : list string) (result : gmap string string)
    : option string :=
  match expected with
  | [] => None
  | req :: rest =>
      if bool_decide (result !! req = None) then Some req
      else first_missing rest result
  end.

(** [CLI._parse_args]; [inl] is the return of [None] after the message.
    The body never reads [optional]. *)
Definition _parse_args (args expected optional : list string)
    : parse_error + gmap string string :=
  match parse_loop args ∅ with
  | inl e => inl e
  | inr result =>
      match first_missing expected result with
      | Some req => inl (RequiredMissing req)
      | None => inr result
      end
  end.

(** A command line made of options with their values, and the dictionary the
    options give when each one is stored in turn. *)
Definition flatten_pairs (kvs : list (string * string)) : list string :=
  concat ((λ kv, [fst kv; snd kv]) <$> kvs).

Definition option_with_value (kv : string * string) : Prop :=
  startswith "--" (fst kv) = true ∧ startswith "--" (snd kv) = false.

Definition store_options (result : gmap string string) (kvs : list (string * string))
    : gmap string string :=
  foldl (λ acc kv, <[fst kv := snd kv]> acc) result kvs.

(** * Properties *)

(** ** Strings and the currency registry *)

Lemma upper_ascii_idem (c : ascii) : upper_ascii (upper_ascii c) = upper_ascii c.
Proof. destruct c as [[] [] [] [] [] [] [] []]; reflexivity. Qed.

Lemma upper_idem (s : string) : upper (upper s) = upper s.
Proof.
  induction s as [|c s IH]; simpl; [reflexivity|].
  by rewrite upper_ascii_idem, IH.
Qed.

Lemma registry_lookup (k : string) (cur : Currency) :
  _currencies !! k = Some cur → code cur = k ∧ upper k = k.
Proof.
  intros Hk. apply elem_of_list_to_map_2 in Hk.
  unfold registry_entries in Hk.
  repeat (apply elem_of_cons in Hk as [Hk|Hk];
          [inversion Hk; subst; split; reflexivity|]).
  by apply elem_of_nil in Hk.
Qed.

Lemma get_currency_code (c : string) (cur : Currency) :
  get_currency c = Ok cur → code cur = upper c ∧ upper (code cur) = code cur.
Proof.
  unfold get_currency. destruct (_currencies !! upper c) eqn:E; [|discriminate].
  intros [= ->]. apply registry_lookup in E as [-> ?].
  by rewrite upper_idem.
Qed.

(** ** The rate cache lookup *)

Lemma truthy_dict (d : gmap string json) (k : string) (v : json) :
  d !! k = Some v → truthy (JDict d) = true.
Proof.
  intros Hk. simpl. destruct (map_to_list d) eqn:E; [|reflexivity].
  apply map_to_list_empty_iff in E. subst d. by rewrite lookup_empty in Hk.
Qed.

Lemma truthy_not_none (v : json) : truthy v = true → is_none v = false.
Proof. by destruct v. Qed.

Lemma truthy_str (s : string) : s ≠ "" → truthy (JStr s) = true.
Proof. by destruct s. Qed.

Lemma cached_pairs_get (db : Database) (pairs : gmap string json) :
  cached_pairs db = Some pairs →
  py_get (load_rates_cache db) "pairs" (JDict ∅) = Ok (JDict pairs).
Proof.
  unfold cached_pairs, py_get. destruct (load_rates_cache db); try discriminate.
  destruct (d !! "pairs") as [[]|]; try discriminate; by intros [= ->].
Qed.

Section cached_rate.
Context `{Env}.
Variables (db : Database) (now : clock) (from_cur to_cur : string).
Variable pairs : gmap string json.
Hypothesis Hpairs : cached_pairs db = Some pairs.

Lemma cached_rate_absent :
  pairs !! pair_key from_cur to_cur = None →
  _get_cached_rate db now from_cur to_cur = Ok (JNull, None, false).
Proof.
  intros Hk. unfold _get_cached_rate.
  rewrite (cached_pairs_get _ _ Hpairs). simpl. by rewrite Hk.
Qed.

Variable e : gmap string json.
Hypothesis Hentry : pairs !! pair_key from_cur to_cur = Some (JDict e).

Lemma cached_rate_entry :
  _get_cached_rate db now from_cur to_cur =
  if negb (truthy (JDict e)) then Ok (JNull, None, false)
  else
    let rate := match e !! "rate" with Some r => r | None => JNull end in
    let updated_at_str :=
      match e !! "updated_at" with Some u => u | None => JNull end in
    if (negb (truthy rate) || negb (truthy updated_at_str))%bool
    then Ok (JNull, None, false)
    else
      bindR (py_replace_Z updated_at_str) (λ text,
      match fromisoformat text with
      | None => Ok (JNull, None, false)
      | Some updated_at => Ok (rate, Some updated_at, is_fresh_at now updated_at)
      end).
Proof.
  unfold _get_cached_rate.
  rewrite (cached_pairs_get _ _ Hpairs). simpl. by rewrite Hentry.
Qed.

Lemma cached_rate_no_rate :
  e !! "rate" = None ∨ (∃ r, e !! "rate" = Some r ∧ truthy r = false) →
  _get_cached_rate db now from_cur to_cur = Ok (JNull, None, false).
Proof.
  intros Hr. rewrite cached_rate_entry.
  destruct (negb (truthy (JDict e))); [reflexivity|].
  destruct Hr as [->|(r & -> & Hr)]; simpl; [reflexivity|].
  by rewrite Hr.
Qed.

Lemma cached_rate_no_updated_at :
  e !! "updated_at" = None →
  _get_cached_rate db now from_cur to_cur = Ok (JNull, None, false).
Proof.
  intros Hu. rewrite cached_rate_entry, Hu.
  destruct (negb (truthy (JDict e))); [reflexivity|].
  simpl. by rewrite orb_true_r.
Qed.

Lemma cached_rate_unparseable (s : string) :
  e !! "updated_at" = Some (JStr s) →
  fromisoformat (replace_Z s) = None →
  _get_cached_rate db now from_cur to_cur = Ok (JNull, None, false).
Proof.
  intros Hu Hparse. rewrite cached_rate_entry, Hu.
  destruct (negb (truthy (JDict e))); [reflexivity|].
  cbv zeta. destruct (negb _ || negb _)%bool; [reflexivity|].
  simpl. by rewrite Hparse.
Qed.

Lemma cached_rate_stored (r : json) (s : string) (t : datetime) :
  e !! "rate" = Some r → truthy r = true →
  e !! "updated_at" = Some (JStr s) → s ≠ "" →
  fromisoformat (replace_Z s) = Some t →
  _get_cached_rate db now from_cur to_cur = Ok (r, Some t, is_fresh_at now t).
Proof.
  intros Hr Hrt Hu Hs Hparse. rewrite cached_rate_entry, Hr, Hu.
  rewrite (truthy_dict _ _ _ Hr). cbv zeta.
  rewrite Hrt, (truthy_str _ Hs). simpl. by rewrite Hparse.
Qed.
End cached_rate.

(** A rate that comes back from the lookup is a truthy value, so it is not
    [None]. *)
Lemma cached_rate_truthy `{Env} (db : Database) (now : clock)
    (from_cur to_cur : string) (r : json) (t : datetime) (fresh : bool) :
  _get_cached_rate db now from_cur to_cur = Ok (r, Some t, fresh) →
  truthy r = true.
Proof.
  unfold _get_cached_rate.
  destruct (py_get (load_rates_cache db) "pairs" (JDict ∅)) as [ps|]; [|discriminate].
  simpl. destruct (py_get ps _ JNull) as [pi|]; [|discriminate].
  simpl. destruct (negb (truthy pi)); [discriminate|].
  destruct (py_get pi "rate" JNull) as [rate|]; [|discriminate].
  simpl. destruct (py_get pi "updated_at" JNull) as [u|]; [|discriminate].
  simpl. destruct (truthy rate) eqn:Hr; simpl; [|discriminate].
  destruct (negb (truthy u)); [discriminate|].
  destruct (py_replace_Z u) as [text|]; [|discriminate].
  simpl. destruct (fromisoformat text); [|discriminate].
  by intros [= <- _ _].
Qed.

(** ** The trading engine: the gate on the cached rate *)

Lemma bind_raise {S A B : Type} (c : Py S A) (k : A → Py S B) (s s' : S) (e : exn) :
  c s = (Raise e, s') → bind c k s = (Raise e, s').
Proof. intros Hc. unfold bind. by rewrite Hc. Qed.

Lemma bind_ok {S A B : Type} (c : Py S A) (k : A → Py S B) (s s' : S) (a : A) :
  c s = (Ok a, s') → bind c k s = k a s'.
Proof. intros Hc. unfold bind. by rewrite Hc. Qed.

Section rate_gate.
Context `{Env}.
Variables (now : clock) (c amount base_currency transaction_type : string).
Variables (w : World) (a : float) (cur : Currency).
Hypothesis Hamount : validate_amount amount = Ok a.
Hypothesis Hcur : get_currency c = Ok cur.

Lemma prepare_unavailable :
  _get_cached_rate (snd w) now (code cur) base_currency = Ok (JNull, None, false) →
  _prepare_transaction now c amount base_currency transaction_type w =
  (Raise (ApiRequestError (RateUnavailable (code cur) base_currency)), w).
Proof.
  intros Hrate. unfold _prepare_transaction, bind, lift.
  by rewrite Hamount, Hcur, Hrate.
Qed.

Lemma prepare_stale (r : json) (t : datetime) :
  _get_cached_rate (snd w) now (code cur) base_currency = Ok (r, Some t, false) →
  _prepare_transaction now c amount base_currency transaction_type w =
  (Raise (ApiRequestError (RateStale (code cur) base_currency)), w).
Proof.
  intros Hrate. pose proof (cached_rate_truthy _ _ _ _ _ _ _ Hrate) as Hr.
  unfold _prepare_transaction, bind, lift.
  rewrite Hamount, Hcur, Hrate.
  by destruct r.
Qed.
End rate_gate.

(** Whatever the amount and the currency code, a trade that finds no fresh
    rate ends in an exception and leaves the service object and the data
    directory as they were. *)
Lemma prepare_without_fresh_rate `{Env} (now : clock)
    (c amount base_currency transaction_type : string) (w : World) :
  (∀ cur r u, get_currency c = Ok cur →
              _get_cached_rate (snd w) now (code cur) base_currency ≠ Ok (r, u, true)) →
  ∃ e, _prepare_transaction now c amount base_currency transaction_type w =
       (Raise e, w).
Proof.
  intros Hgate. unfold _prepare_transaction, bind, lift.
  destruct (validate_amount amount) as [a|e]; [|eauto].
  destruct (get_currency c) as [cur|e] eqn:Hcur; [|eauto].
  specialize (Hgate cur).
  destruct (_get_cached_rate (snd w) now (code cur) base_currency)
    as [[[r u] fresh]|e]; [|eauto].
  destruct (is_none r); [unfold raise; eauto|].
  destruct fresh; [|unfold raise; simpl; eauto].
  by destruct (Hgate r u eq_refl).
Qed.

Lemma trade_without_fresh_rate `{Env} (now : clock)
    (c amount base_currency : string) (w : World) :
  (∀ cur r u, get_currency c = Ok cur →
              _get_cached_rate (snd w) now (code cur) base_currency ≠ Ok (r, u, true)) →
  (∃ e, buy_currency now c amount base_currency w = (Raise e, w)) ∧
  (∃ e, sell_currency now c amount base_currency w = (Raise e, w)).
Proof.
  intros Hgate. split.
  - destruct (prepare_without_fresh_rate now c amount base_currency "buy" w Hgate)
      as [e He].
    exists e. by apply bind_raise.
  - destruct (prepare_without_fresh_rate now c amount base_currency "sell" w Hgate)
      as [e He].
    exists e. by apply bind_raise.
Qed.

(** C1: a trade whose pair is missing from the cache ends in the
    [ApiRequestError] that reports the rate as unavailable, and a trade whose
    cached rate is as old as the TTL or older (300 seconds when the
    configuration does not set it) ends in the one that reports it as stale;
    both leave the service object, hence every wallet, and the data directory
    as they were. *)
Theorem trade_gated_on_rate `{Env} (now : clock) (c amount base_currency : string)
    (w : World) (a : float) (cur : Currency) (pairs : gmap string json) :
  validate_amount amount = Ok a →
  get_currency c = Ok cur →
  cached_pairs (snd w) = Some pairs →
  (config !! "rates_ttl_seconds" = None → RATES_TTL = 300) ∧
  (pairs !! pair_key (code cur) base_currency = None →
   let e := ApiRequestError (RateUnavailable (code cur) base_currency) in
   buy_currency now c amount base_currency w = (Raise e, w) ∧
   sell_currency now c amount base_currency w = (Raise e, w)) ∧
  (∀ (entry : gmap string json) (r : json) (s : string) (t : datetime),
   pairs !! pair_key (code cur) base_currency = Some (JDict entry) →
   entry !! "rate" = Some r → truthy r = true →
   entry !! "updated_at" = Some (JStr s) → s ≠ "" →
   fromisoformat (replace_Z s) = Some t →
   (RATES_TTL * 1000000 ≤ age now t)%Z →
   let e := ApiRequestError (RateStale (code cur) base_currency) in
   buy_currency now c amount base_currency w = (Raise e, w) ∧
   sell_currency now c amount base_currency w = (Raise e, w)).
Proof.
  intros Hamount Hcur Hpairs. split; [|split].
  - intros Hcfg. unfold RATES_TTL, settings_get. by rewrite Hcfg.
  - intros Habsent e.
    pose proof (cached_rate_absent _ now _ _ _ Hpairs Habsent) as Hrate.
    split; apply bind_raise; by eapply prepare_unavailable.
  - intros entry r s t Hentry Hr Hrt Hu Hs Hparse Hold e.
    pose proof (cached_rate_stored _ now _ _ _ Hpairs _ Hentry _ _ _ Hr Hrt Hu Hs Hparse)
      as Hrate.
    assert (is_fresh_at now t = false) as Hstale
      by (unfold is_fresh_at; apply Z.ltb_ge; exact Hold).
    rewrite Hstale in Hrate.
    split; apply bind_raise; by eapply prepare_stale.
Qed.

(** The scenario of the specification: the rate of BTC_USD is ten minutes old
    and the TTL is 300 seconds. *)
Lemma trade_gated_on_rate_witness :
  let w := (demo_service, demo_db (JFloat 60000)) in
  buy_currency (H := demo_env) (clock_at 600) "btc" "0.01" "USD" w =
    (Raise (ApiRequestError (RateStale "BTC" "USD")), w) ∧
  sell_currency (H := demo_env) (clock_at 600) "btc" "0.01" "EUR" w =
    (Raise (ApiRequestError (RateUnavailable "BTC" "EUR")), w).
Proof.
  intros w.
  pose (btc := CryptoCurrency "BTC" "Bitcoin" "SHA-256" 1.12e12).
  pose (entry := new_pair "coingecko" "2024-01-01T00:00:00" (JFloat 60000)).
  split.
  - destruct (trade_gated_on_rate (H := demo_env) (clock_at 600) "btc" "0.01" "USD" w
                0.01%float btc {[ "BTC_USD" := entry ]}
                eq_refl eq_refl eq_refl) as (_ & _ & Hstale).
    refine (proj1 (Hstale _ (JFloat 60000) "2024-01-01T00:00:00"
                     {| micros := 1704067200000000; aware := false |}
                     eq_refl eq_refl eq_refl eq_refl _ eq_refl _)).
    + discriminate.
    + vm_compute. discriminate.
  - destruct (trade_gated_on_rate (H := demo_env) (clock_at 600) "btc" "0.01" "EUR" w
                0.01%float btc {[ "BTC_USD" := entry ]}
                eq_refl eq_refl eq_refl) as (_ & Habsent & _).
    exact (proj2 (Habsent eq_refl)).
Defined.

(** ** The trading engine: wallets and the funds check *)

Lemma with_wallet_lookup (c k : string) (self : PortfolioService) :
  _wallets (_portfolio (with_wallet c self)) !! k =
  match _wallets (_portfolio self) !! k with
  | Some wl => Some wl
  | None => if decide (k = upper c) then Some (Wallet_new (upper c)) else None
  end.
Proof.
  unfold with_wallet, add_currency. simpl.
  destruct (_wallets (_portfolio self) !! upper c) eqn:E; simpl.
  - destruct (_wallets (_portfolio self) !! k) eqn:Ek; [reflexivity|].
    case_decide; [congruence|reflexivity].
  - destruct (decide (k = upper c)) as [->|Hne].
    + by rewrite lookup_insert_eq, E.
    + rewrite lookup_insert_ne by done. by destruct (_ !! k).
Qed.

Lemma with_wallet_has (c : string) (self : PortfolioService) :
  is_Some (_wallets (_portfolio (with_wallet c self)) !! upper c).
Proof.
  rewrite with_wallet_lookup. destruct (_ !! upper c); [eauto|].
  rewrite decide_True by done. eauto.
Qed.

Lemma with_wallet_balance (c k : string) (self : PortfolioService) :
  balance_or_zero (with_wallet c self) k = balance_or_zero self k.
Proof.
  unfold balance_or_zero, wallet_balance. rewrite with_wallet_lookup.
  destruct (_ !! k); [reflexivity|]. by case_decide.
Qed.

Lemma balances_kept_refl (self : PortfolioService) : balances_kept self self.
Proof. unfold balances_kept. naive_solver. Qed.

Lemma with_wallet_kept (c : string) (self self' : PortfolioService) :
  balances_kept self self' → balances_kept self (with_wallet c self').
Proof.
  intros (Hu & Ho & Hold & Hnew). split; [|split; [|split]].
  - exact Hu.
  - rewrite <- Ho. unfold with_wallet, add_currency. simpl.
    by destruct (_ !! upper c).
  - intros k wl Hk. rewrite with_wallet_lookup. by rewrite (Hold _ _ Hk).
  - intros k wl. rewrite with_wallet_lookup.
    destruct (_wallets (_portfolio self') !! k) eqn:Ek.
    + intros [= <-]. by apply Hnew.
    + case_decide; [|discriminate]. intros [= <-]. subst k.
      destruct (_wallets (_portfolio self) !! upper c) eqn:E.
      * apply Hold in E. congruence.
      * right. split; [reflexivity|]. unfold Wallet_new. by rewrite upper_idem.
Qed.

Lemma get_or_create_wallet_eq (c : string) (self : PortfolioService) (db : Database) :
  on_portfolio (_get_or_create_wallet c) (self, db) =
  (Ok (upper c), (with_wallet c self, db)).
Proof.
  unfold on_portfolio, _get_or_create_wallet, get_wallet, with_wallet, add_currency.
  destruct (_wallets (_portfolio self) !! upper c); reflexivity.
Qed.

Lemma portfolio_insert_id (p : Portfolio) (k : string) (wl : Wallet) :
  _wallets p !! k = Some wl →
  {| _owner_id := _owner_id p; _wallets := <[k := wl]> (_wallets p) |} = p.
Proof. intros Hk. destruct p. simpl in *. by rewrite insert_id. Qed.

Lemma read_balance_eq (k : string) (self : PortfolioService) (db : Database) :
  is_Some (_wallets (_portfolio self) !! k) →
  on_portfolio (on_wallet k read_balance) (self, db) =
  (Ok (balance_or_zero self k), (self, db)).
Proof.
  intros [wl Hk]. unfold on_portfolio, on_wallet, read_balance.
  unfold balance_or_zero, wallet_balance. rewrite Hk. simpl.
  rewrite (portfolio_insert_id _ _ _ Hk). by destruct self.
Qed.

Section prepare.
Context `{Env}.
Variables (now : clock) (c amount base_currency : string).
Variables (self : PortfolioService) (db : Database).
Variables (a : float) (cur : Currency) (r : json) (t : datetime).
Hypothesis Hamount : validate_amount amount = Ok a.
Hypothesis Hcur : get_currency c = Ok cur.
Hypothesis Hrate :
  _get_cached_rate db now (code cur) base_currency = Ok (r, Some t, true).

(** With a fresh rate, [_prepare_transaction] for a purchase creates the two
    wallets and compares the balance of the base wallet with the cost. *)
Lemma prepare_buy (required : float) :
  float_mul a r = Ok required →
  _prepare_transaction now c amount base_currency "buy" (self, db) =
  let self' := with_wallet (code cur) (with_wallet base_currency self) in
  let available := balance_or_zero self (upper base_currency) in
  if (available <? required)%float
  then (Raise (InsufficientFundsError available required base_currency), (self', db))
  else (Ok (a, r, upper base_currency, code cur, true), (self', db)).
Proof.
  intros Hmul. pose proof (cached_rate_truthy _ _ _ _ _ _ _ Hrate) as Hr.
  destruct (get_currency_code _ _ Hcur) as [_ Hup].
  unfold _prepare_transaction.
  rewrite (bind_ok _ _ (self, db) (self, db) a) by (unfold lift; by rewrite Hamount).
  rewrite (bind_ok _ _ (self, db) (self, db) cur) by (unfold lift; by rewrite Hcur).
  rewrite (bind_ok _ _ (self, db) (self, db) db) by reflexivity.
  rewrite (bind_ok _ _ (self, db) (self, db) (r, Some t, true))
    by (unfold lift; simpl; by rewrite Hrate).
  rewrite (truthy_not_none _ Hr). simpl.
  rewrite (bind_ok _ _ _ _ _ (get_or_create_wallet_eq _ _ _)).
  rewrite (bind_ok _ _ _ _ _ (get_or_create_wallet_eq _ _ _)).
  rewrite (bind_ok _ _ _ (with_wallet (code cur) (with_wallet base_currency self), db)
             required) by (unfold lift; by rewrite Hmul).
  assert (is_Some (_wallets (_portfolio
            (with_wallet (code cur) (with_wallet base_currency self)))
            !! upper base_currency)) as Hhas.
  { rewrite with_wallet_lookup.
    destruct (with_wallet_has base_currency self) as [? ->]. eauto. }
  rewrite (bind_ok _ _ _ _ _ (read_balance_eq _ _ db Hhas)).
  rewrite !with_wallet_balance, Hup.
  by destruct (PrimFloat.ltb _ _).
Qed.

(** For a sale the balance of the wallet sold from is compared with the
    amount. *)
Lemma prepare_sell :
  _prepare_transaction now c amount base_currency "sell" (self, db) =
  let self' := with_wallet base_currency (with_wallet (code cur) self) in
  let available := balance_or_zero self (code cur) in
  if (available <? a)%float
  then (Raise (InsufficientFundsError available a (code cur)), (self', db))
  else (Ok (a, r, code cur, upper base_currency, true), (self', db)).
Proof.
  pose proof (cached_rate_truthy _ _ _ _ _ _ _ Hrate) as Hr.
  destruct (get_currency_code _ _ Hcur) as [_ Hup].
  unfold _prepare_transaction.
  rewrite (bind_ok _ _ (self, db) (self, db) a) by (unfold lift; by rewrite Hamount).
  rewrite (bind_ok _ _ (self, db) (self, db) cur) by (unfold lift; by rewrite Hcur).
  rewrite (bind_ok _ _ (self, db) (self, db) db) by reflexivity.
  rewrite (bind_ok _ _ (self, db) (self, db) (r, Some t, true))
    by (unfold lift; simpl; by rewrite Hrate).
  rewrite (truthy_not_none _ Hr). simpl.
  rewrite (bind_ok _ _ _ _ _ (get_or_create_wallet_eq _ _ _)).
  rewrite (bind_ok _ _ _ _ _ (get_or_create_wallet_eq _ _ _)).
  assert (is_Some (_wallets (_portfolio
            (with_wallet base_currency (with_wallet (code cur) self)))
            !! upper (code cur))) as Hhas.
  { rewrite with_wallet_lookup.
    destruct (with_wallet_has (code cur) self) as [? ->]. eauto. }
  rewrite (bind_ok _ _ _ _ _ (read_balance_eq _ _ db Hhas)).
  rewrite Hup, !with_wallet_balance.
  by destruct (PrimFloat.ltb _ _).
Qed.
End prepare.

(** C3: with a fresh rate, a purchase whose cost exceeds the balance of the
    base wallet, and a sale whose amount exceeds the balance of the wallet sold
    from, end in [InsufficientFundsError] with the balance found, the amount
    required and the currency; no wallet of the service has changed (a wallet
    the user never held may have been created with balance 0.0) and the data
    directory is as it was. *)
Theorem insufficient_funds_aborts `{Env} (now : clock)
    (c amount base_currency : string) (self : PortfolioService) (db : Database)
    (a : float) (cur : Currency) (r : json) (t : datetime) :
  validate_amount amount = Ok a →
  get_currency c = Ok cur →
  _get_cached_rate db now (code cur) base_currency = Ok (r, Some t, true) →
  (∀ required : float,
   float_mul a r = Ok required →
   let available := balance_or_zero self (upper base_currency) in
   (available <? required)%float = true →
   ∃ self',
     buy_currency now c amount base_currency (self, db) =
       (Raise (InsufficientFundsError available required base_currency), (self', db)) ∧
     balances_kept self self') ∧
  (let available := balance_or_zero self (code cur) in
   (available <? a)%float = true →
   ∃ self',
     sell_currency now c amount base_currency (self, db) =
       (Raise (InsufficientFundsError available a (code cur)), (self', db)) ∧
     balances_kept self self').
Proof.
  intros Hamount Hcur Hrate. split.
  - intros required Hmul available Hlow.
    exists (with_wallet (code cur) (with_wallet base_currency self)). split.
    + apply bind_raise.
      rewrite (prepare_buy _ _ _ _ _ _ _ _ _ _ Hamount Hcur Hrate _ Hmul).
      cbv zeta. fold available. by rewrite Hlow.
    + do 2 apply with_wallet_kept. apply balances_kept_refl.
  - intros available Hlow.
    exists (with_wallet base_currency (with_wallet (code cur) self)). split.
    + apply bind_raise.
      rewrite (prepare_sell _ _ _ _ _ _ _ _ _ _ Hamount Hcur Hrate).
      cbv zeta. fold available. by rewrite Hlow.
    + do 2 apply with_wallet_kept. apply balances_kept_refl.
Qed.

(** Buying 5 BTC at 60000.0 with 1000.00 USD, and selling 0.01 BTC without a
    BTC wallet. *)
Lemma insufficient_funds_aborts_witness :
  let db := demo_db (JFloat 60000) in
  (∃ self',
     buy_currency (H := demo_env) (clock_at 10) "btc" "5" "USD" (demo_service, db) =
       (Raise (InsufficientFundsError 1000 300000 "USD"), (self', db)) ∧
     balances_kept demo_service self') ∧
  (∃ self',
     sell_currency (H := demo_env) (clock_at 10) "btc" "0.01" "USD" (demo_service, db) =
       (Raise (InsufficientFundsError 0 0.01 "BTC"), (self', db)) ∧
     balances_kept demo_service self').
Proof.
  intros db.
  pose (btc := CryptoCurrency "BTC" "Bitcoin" "SHA-256" 1.12e12).
  pose (t := {| micros := 1704067200000000; aware := false |}).
  split.
  - exact (proj1 (insufficient_funds_aborts (H := demo_env) (clock_at 10)
                    "btc" "5" "USD" demo_service db 5%float btc (JFloat 60000) t
                    eq_refl eq_refl eq_refl)
             300000%float eq_refl eq_refl).
  - exact (proj2 (insufficient_funds_aborts (H := demo_env) (clock_at 10)
                    "btc" "0.01" "USD" demo_service db 0.01%float btc (JFloat 60000) t
                    eq_refl eq_refl eq_refl)
             eq_refl).
Defined.

(** ** The purchase *)

Lemma bind_never_ok {S A B : Type} (c : Py S A) (k : A → Py S B) (s : S) :
  (∀ a s' b, fst (k a s') ≠ Ok b) → ∀ b, fst (bind c k s) ≠ Ok b.
Proof.
  intros Hk b. unfold bind. destruct (c s) as [[a|e] s']; [apply Hk|discriminate].
Qed.

(** [buy_currency] has no normal return: whatever passes the checks and is
    written to portfolios.json, the dictionary of the [return] statement is
    never built. *)
Lemma buy_currency_never_returns `{Env} (now : clock) (c amount base_currency : string)
    (w : World) (d : gmap string json) :
  fst (buy_currency now c amount base_currency w) ≠ Ok d.
Proof.
  unfold buy_currency. revert d. apply bind_never_ok.
  intros [[[[amount_float rate] base_wallet] target_wallet] is_fresh] w1.
  do 4 (apply bind_never_ok; intros ? ?).
  unfold bind, lift, str_code. discriminate.
Qed.

(** C2, at the scenario of the specification (alice holds 1000.00 USD, BTC_USD
    is cached at 60000.0 and fresh, she buys 0.01 BTC): the call debits 600.00
    from the USD wallet, credits 0.01 to the BTC wallet and writes the
    portfolio, and then ends in the [AttributeError] of [currency_code.code]
    instead of returning the transaction. *)
Theorem buy_scenario_raises_after_commit :
  let db := demo_db (JFloat 60000) in
  PortfolioService_init alice db = (Ok demo_service, db) ∧
  ∃ (self' : PortfolioService) (db' : Database),
    buy_currency (H := demo_env) (clock_at 0) "BTC" "0.01" "USD" (demo_service, db) =
      (Raise (AttributeError "str" "code"), (self', db')) ∧
    (0.01 * 60000 = 600)%float ∧
    wallet_balance self' "USD" = Some 400%float ∧
    wallet_balance self' "BTC" = Some 0.01%float ∧
    load_portfolios db' =
      [ {| owner_id := 1;
           wallets := <["BTC" := {| balance := 0.01 |}]>
                        {[ "USD" := {| balance := 400 |} ]} |} ].
Proof.
  split; [reflexivity|].
  eexists _, _. split; [vm_compute; reflexivity|].
  repeat split; vm_compute; reflexivity.
Qed.

(** ** Wallets *)

(** A deposit or a withdrawal of an amount that is not positive is rejected
    and the wallet is as it was. *)
Lemma nonpositive_amount_rejected (amount : float) (w : Wallet) :
  (amount <=? 0)%float = true →
  deposit amount w = (Raise (ValueError DepositNotPositive), w) ∧
  withdraw amount w = (Raise (ValueError WithdrawalNotPositive), w).
Proof. intros Hle. unfold deposit, withdraw. by rewrite Hle. Qed.

(** A withdrawal of more than the balance is rejected and the wallet is as it
    was. *)
Lemma overdraft_rejected (amount : float) (w : Wallet) :
  (amount <=? 0)%float = false →
  (_balance w <? amount)%float = true →
  withdraw amount w =
  (Raise (InsufficientFundsError (_balance w) amount (currency_code w)), w).
Proof. intros Hpos Hlow. unfold withdraw. by rewrite Hpos, Hlow. Qed.

(** *** Binary64 arithmetic on balances *)

#[local] Open Scope Z_scope.

Lemma SFltb_zero x : SFltb x (S754_zero false) = false ↔ not_negative x.
Proof. destruct x as [s| [] | | [] m e]; cbn; intuition congruence. Qed.

Lemma Prim2SF_zero : Prim2SF 0%float = S754_zero false.
Proof. reflexivity. Qed.

Lemma binary_round_aux_sign s m e l :
  match binary_round_aux prec emax s m e l with
  | S754_zero s' | S754_infinity s' | S754_finite s' _ _ => s' = s
  | S754_nan => True
  end.
Proof.
  unfold binary_round_aux.
  destruct (shr_fexp prec emax m e l) as [mrs' e'].
  destruct (shr_fexp prec emax _ e' loc_Exact) as [mrs'' e''].
  destruct (shr_m mrs''); [reflexivity| |exact I].
  destruct (e'' <=? emax - prec); reflexivity.
Qed.

Lemma binary_round_sign s m e :
  match binary_round prec emax s m e with
  | S754_zero s' | S754_infinity s' | S754_finite s' _ _ => s' = s
  | S754_nan => True
  end.
Proof.
  unfold binary_round. destruct (shl_align _ _ _) as [mz ez].
  apply binary_round_aux_sign.
Qed.

Lemma binary_normalize_not_negative m e :
  0 <= m → not_negative (binary_normalize prec emax m e false).
Proof.
  intros Hm. destruct m as [|p|p]; [exact I| |lia].
  simpl. pose proof (binary_round_sign false p e) as H.
  destruct (binary_round prec emax false p e) as [s|s| |s ? ?]; subst; exact I.
Qed.

Lemma SFleb_zero x : SFleb x (S754_zero false) = false ↔ positive_or_nan x.
Proof. destruct x as [s| [] | | [] m e]; cbn; intuition congruence. Qed.

Lemma SFadd_not_negative x a :
  not_negative x → positive_or_nan a → not_negative (SF64add x a).
Proof.
  destruct x as [sx|[]| |[] mx ex]; destruct a as [sa|[]| |[] ma ea];
    cbn [not_negative positive_or_nan]; try tauto; intros _ _;
    lazy beta iota delta [SF64add SFadd]; try exact I.
  apply binary_normalize_not_negative. cbn [cond_Zopp]. lia.
Qed.

Lemma iter_xO_pow (m d : positive) : Zpos (Pos.iter xO m d) = Zpos m * 2 ^ Zpos d.
Proof.
  induction d as [|d IH] using Pos.peano_ind.
  - cbn. lia.
  - rewrite Pos.iter_succ, Pos2Z.inj_succ, Z.pow_succ_r by lia.
    rewrite Pos2Z.inj_xO, IH. lia.
Qed.

Lemma shl_align_value m e e' :
  e' <= e → Zpos (fst (shl_align m e e')) = Zpos m * 2 ^ (e - e').
Proof.
  intros Hle. unfold shl_align.
  destruct (e' - e) as [|d|d] eqn:E.
  - replace (e - e') with 0 by lia. cbn. lia.
  - lia.
  - cbn [fst]. rewrite iter_xO_pow. f_equal. f_equal. lia.
Qed.

Lemma digits2_pos_bounds (m : positive) :
  2 ^ (Zpos (digits2_pos m) - 1) <= Zpos m < 2 ^ Zpos (digits2_pos m).
Proof.
  induction m as [m IH|m IH|]; cbn [digits2_pos].
  - rewrite Pos2Z.inj_succ.
    replace (Z.succ (Zpos (digits2_pos m)) - 1) with (Z.succ (Zpos (digits2_pos m) - 1)) by lia.
    rewrite !Z.pow_succ_r by lia. lia.
  - rewrite Pos2Z.inj_succ.
    replace (Z.succ (Zpos (digits2_pos m)) - 1) with (Z.succ (Zpos (digits2_pos m) - 1)) by lia.
    rewrite !Z.pow_succ_r by lia. lia.
  - cbn. lia.
Qed.

Lemma bounded_mantissa m e :
  bounded prec emax m e = true →
  Zpos m < 2 ^ 53 /\ (-1074 < e → 2 ^ 52 <= Zpos m).
Proof.
  unfold bounded, canonical_mantissa, fexp, emin, prec, emax.
  intros H. apply andb_prop in H as [H _]. apply Z.eqb_eq in H.
  pose proof (digits2_pos_bounds m) as [Hlo Hhi].
  set (d := Zpos (digits2_pos m)) in *.
  split.
  - assert (d <= 53) by lia.
    apply Z.lt_le_trans with (2 ^ d); [exact Hhi|].
    apply Z.pow_le_mono_r; lia.
  - intros He. assert (d = 53) as Hd by lia. rewrite Hd in Hlo. exact Hlo.
Qed.

Lemma aligned_order mx ex ma ea :
  bounded prec emax mx ex = true → bounded prec emax ma ea = true →
  SFltb (S754_finite false mx ex) (S754_finite false ma ea) = false →
  Zpos (fst (shl_align ma ea (Z.min ex ea))) <= Zpos (fst (shl_align mx ex (Z.min ex ea))).
Proof.
  intros Hx Ha Hlt.
  apply bounded_mantissa in Hx as [Hxhi Hxlo].
  pose proof Ha as Ha'. apply bounded_mantissa in Ha as [Hahi Halo].
  assert (-1074 <= ea) as Hea.
  { unfold bounded, canonical_mantissa, fexp, emin, prec, emax in Ha'.
    apply andb_prop in Ha' as [Ha' _]. apply Z.eqb_eq in Ha'. lia. }
  rewrite !shl_align_value by lia.
  unfold SFltb, SFcompare in Hlt.
  destruct (Z.compare_spec ex ea) as [Heq|Hlt'|Hgt].
  - subst. rewrite Z.min_id, Z.sub_diag. cbn.
    destruct (Pos.compare_cont Eq mx ma) eqn:E; try discriminate.
    + apply Pos.compare_eq in E. subst. lia.
    + change (Pos.compare mx ma = Gt) in E. apply Pos.compare_gt_iff in E. lia.
  - discriminate.
  - rewrite Z.min_r by lia. rewrite Z.sub_diag. cbn [Z.pow].
    assert (2 ^ 1 <= 2 ^ (ex - ea)) as Hp by (apply Z.pow_le_mono_r; lia).
    specialize (Hxlo ltac:(lia)).
    change (2 ^ 1) with 2 in Hp. nia.
Qed.

Lemma SFsub_not_negative x a :
  valid_binary x = true → valid_binary a = true →
  not_negative x → positive_or_nan a → SFltb x a = false →
  not_negative (SF64sub x a).
Proof.
  destruct x as [sx|[]| |[] mx ex]; destruct a as [sa|[]| |[] ma ea];
    cbn [not_negative positive_or_nan]; try tauto; intros Hx Ha _ _ Hlt;
    lazy beta iota delta [SF64sub SFsub]; try exact I; try discriminate.
  apply binary_normalize_not_negative.
  cbn [cond_Zopp]. pose proof (aligned_order _ _ _ _ Hx Ha Hlt). lia.
Qed.

Lemma shr_1_nonneg mrs : 0 <= shr_m mrs → 0 <= shr_m (shr_1 mrs).
Proof.
  destruct mrs as [m r s]. cbn. destruct m as [|[p|p|]|[p|p|]]; cbn; lia.
Qed.

Lemma iter_shr_1_nonneg p mrs : 0 <= shr_m mrs → 0 <= shr_m (SpecFloat.iter_pos shr_1 p mrs).
Proof.
  revert mrs. induction p as [p IH|p IH|]; intros mrs H; cbn.
  - apply IH, IH, shr_1_nonneg, H.
  - apply IH, IH, H.
  - apply shr_1_nonneg, H.
Qed.

Lemma shr_fexp_nonneg m e l :
  0 <= m → 0 <= shr_m (fst (shr_fexp prec emax m e l)).
Proof.
  intros H. unfold shr_fexp, shr.
  assert (0 <= shr_m (shr_record_of_loc m l)) as H0
    by (destruct l as [|[]]; exact H).
  destruct (fexp prec emax (Zdigits2 m + e) - e); cbn [fst]; try exact H0.
  apply iter_shr_1_nonneg, H0.
Qed.

Lemma round_nearest_even_nonneg m l : 0 <= m → 0 <= round_nearest_even m l.
Proof.
  intros H. destruct l as [|[]]; cbn; try lia. destruct (Z.even m); lia.
Qed.

Lemma binary_round_aux_not_nan s m e l :
  0 <= m → binary_round_aux prec emax s m e l <> S754_nan.
Proof.
  intros H. unfold binary_round_aux.
  pose proof (shr_fexp_nonneg m e l H) as H1.
  destruct (shr_fexp prec emax m e l) as [mrs' e']. cbn [fst] in H1.
  pose proof (shr_fexp_nonneg _ e' loc_Exact
                (round_nearest_even_nonneg _ (loc_of_shr_record mrs') H1)) as H2.
  destruct (shr_fexp prec emax _ e' loc_Exact) as [mrs'' e'']. cbn [fst] in H2.
  destruct (shr_m mrs''); [discriminate| |lia].
  destruct (e'' <=? emax - prec); discriminate.
Qed.

Lemma SFleb_zero_le x : SFleb (S754_zero false) x = true ↔ at_least_zero x.
Proof. destruct x as [s| [] | | [] m e]; cbn; intuition congruence. Qed.

Lemma binary_normalize_at_least_zero m e :
  0 <= m → at_least_zero (binary_normalize prec emax m e false).
Proof.
  intros Hm. destruct m as [|p|p]; [exact I| |lia].
  cbn [binary_normalize]. unfold binary_round.
  destruct (shl_align _ _ _) as [mz ez].
  pose proof (binary_round_aux_sign false (Zpos mz) ez loc_Exact) as Hs.
  pose proof (binary_round_aux_not_nan false (Zpos mz) ez loc_Exact ltac:(lia)) as Hn.
  destruct (binary_round_aux prec emax false (Zpos mz) ez loc_Exact) as [s|s| |s ? ?];
    subst; try exact I. congruence.
Qed.

Lemma SFadd_at_least_zero x a :
  at_least_zero x → positive_finite a → at_least_zero (SF64add x a).
Proof.
  destruct x as [sx|[]| |[] mx ex]; destruct a as [sa|[]| |[] ma ea];
    cbn [at_least_zero positive_finite]; try tauto; intros _ _;
    lazy beta iota delta [SF64add SFadd]; try exact I.
  apply binary_normalize_at_least_zero. cbn [cond_Zopp]. lia.
Qed.

Lemma SFsub_at_least_zero x a :
  valid_binary x = true → valid_binary a = true →
  at_least_zero x → positive_finite a → SFltb x a = false →
  at_least_zero (SF64sub x a).
Proof.
  destruct x as [sx|[]| |[] mx ex]; destruct a as [sa|[]| |[] ma ea];
    cbn [at_least_zero positive_finite]; try tauto; intros Hx Ha _ _ Hlt;
    lazy beta iota delta [SF64sub SFsub]; try exact I; try discriminate.
  apply binary_normalize_at_least_zero.
  cbn [cond_Zopp]. pose proof (aligned_order _ _ _ _ Hx Ha Hlt). lia.
Qed.

Lemma positive_finite_spec (a : float) :
  (a <=? 0)%float = false → is_finite a = true → positive_finite (Prim2SF a).
Proof.
  rewrite FloatAxioms.leb_spec. change (Prim2SF 0) with (S754_zero false).
  unfold is_finite, is_nan, is_infinity.
  rewrite !FloatAxioms.eqb_spec, FloatAxioms.abs_spec. change (Prim2SF infinity) with (S754_infinity false).
  destruct (Prim2SF a) as [s|[]| |[] m e]; cbn; try discriminate; try tauto.
Qed.

#[local] Open Scope string_scope.

(** [balance < 0] never holds: whatever the amounts, [nan] and the infinities
    included, no sequence of deposits and withdrawals makes a balance
    negative. *)
Lemma apply_op_not_negative (op : wallet_op) (w : Wallet) :
  (_balance w <? 0)%float = false →
  (_balance (apply_op op w) <? 0)%float = false.
Proof.
  rewrite !FloatAxioms.ltb_spec. change (Prim2SF 0) with (S754_zero false).
  rewrite !SFltb_zero. intros Hw.
  destruct op as [a|a]; unfold apply_op, deposit, withdraw.
  - destruct (a <=? 0)%float eqn:Ha; [exact Hw|]. cbn [snd _balance].
    rewrite FloatAxioms.leb_spec in Ha.
    rewrite FloatAxioms.add_spec. apply SFadd_not_negative; [exact Hw|].
    by apply SFleb_zero.
  - destruct (a <=? 0)%float eqn:Ha; [exact Hw|].
    destruct (_balance w <? a)%float eqn:Hlow; [exact Hw|]. cbn [snd _balance].
    rewrite FloatAxioms.leb_spec in Ha. rewrite FloatAxioms.ltb_spec in Hlow.
    rewrite FloatAxioms.sub_spec. apply SFsub_not_negative; try apply Prim2SF_valid.
    + exact Hw.
    + by apply SFleb_zero.
    + exact Hlow.
Qed.

Lemma balance_never_negative (ops : list wallet_op) (w : Wallet) :
  (_balance w <? 0)%float = false →
  (_balance (apply_ops ops w) <? 0)%float = false.
Proof.
  revert w. induction ops as [|op ops IH]; intros w Hw; [exact Hw|].
  apply IH, apply_op_not_negative, Hw.
Qed.

(** With amounts that are numbers (neither [nan] nor infinite), a balance
    that is [>= 0] stays [>= 0]. *)
Lemma apply_op_at_least_zero (op : wallet_op) (w : Wallet) :
  is_finite (op_amount op) = true →
  (0 <=? _balance w)%float = true →
  (0 <=? _balance (apply_op op w))%float = true.
Proof.
  rewrite !FloatAxioms.leb_spec. change (Prim2SF 0) with (S754_zero false).
  rewrite !SFleb_zero_le. intros Hfin Hw.
  destruct op as [a|a]; unfold apply_op, deposit, withdraw; cbn [op_amount] in Hfin.
  - destruct (a <=? 0)%float eqn:Ha; [exact Hw|]. cbn [snd _balance].
    rewrite FloatAxioms.add_spec. apply SFadd_at_least_zero; [exact Hw|].
    by apply positive_finite_spec.
  - destruct (a <=? 0)%float eqn:Ha; [exact Hw|].
    destruct (_balance w <? a)%float eqn:Hlow; [exact Hw|]. cbn [snd _balance].
    rewrite FloatAxioms.ltb_spec in Hlow.
    rewrite FloatAxioms.sub_spec. apply SFsub_at_least_zero; try apply Prim2SF_valid.
    + exact Hw.
    + by apply positive_finite_spec.
    + exact Hlow.
Qed.

Lemma balance_at_least_zero (ops : list wallet_op) (w : Wallet) :
  Forall (λ op, is_finite (op_amount op) = true) ops →
  (0 <=? _balance w)%float = true →
  (0 <=? _balance (apply_ops ops w))%float = true.
Proof.
  intros Hops. revert w. induction Hops as [|op ops Hop Hops IH]; intros w Hw;
    [exact Hw|].
  apply IH. by apply apply_op_at_least_zero.
Qed.

(** C4, at the failing inputs: [deposit] accepts the amount [nan], which is
    not [<= 0], and the balance becomes [nan], which is not [>= 0]; the same
    balance is reached by depositing and then withdrawing [infinity]. The
    amount ["nan"] passes [validate_amount], so a sale of ["nan"] BTC reaches
    the wallets and portfolios.json. *)
Theorem nan_amount_breaks_balance :
  let w := {| currency_code := "USD"; _balance := 1000 |} in
  (0 <=? _balance w)%float = true ∧
  deposit nan w = (Ok tt, {| currency_code := "USD"; _balance := nan |}) ∧
  (0 <=? _balance (apply_ops [Deposit nan] w))%float = false ∧
  (0 <=? _balance (apply_ops [Deposit infinity; Withdraw infinity] w))%float = false ∧
  let after_sale :=
    snd (sell_currency (H := demo_env) (clock_at 10) "BTC" "nan" "USD"
           (demo_service, demo_db (JFloat 60000))) in
  wallet_balance (fst after_sale) "USD" = Some nan ∧
  (wallets <$> load_portfolios (snd after_sale)) =
    [ <["BTC" := {| balance := nan |}]> {[ "USD" := {| balance := nan |} ]} ].
Proof. repeat split; vm_compute; reflexivity. Qed.

(** ** The rate cache lookup: the specification of its results *)

(** C5, as the code has it: for a cache whose pairs are a dictionary, the
    lookup returns nothing when the pair is absent, when its entry has no
    rate or a rate that is falsy (null, zero), when the entry has no
    [updated_at], and when [updated_at] is a string that
    [datetime.fromisoformat] rejects; for an entry with a truthy rate,
    whatever its sign, and an [updated_at] that parses, it returns the stored
    rate, the parsed time and the freshness of that time. *)
Theorem cached_rate_lookup `{Env} (db : Database) (now : clock)
    (from_cur to_cur : string) (pairs : gmap string json) :
  cached_pairs db = Some pairs →
  let nothing := Ok (JNull, None, false) in
  let found := _get_cached_rate db now from_cur to_cur in
  (pairs !! pair_key from_cur to_cur = None → found = nothing) ∧
  (∀ entry : gmap string json,
   pairs !! pair_key from_cur to_cur = Some (JDict entry) →
   (entry !! "rate" = None → found = nothing) ∧
   (∀ r, entry !! "rate" = Some r → truthy r = false → found = nothing) ∧
   (entry !! "updated_at" = None → found = nothing) ∧
   (∀ s, entry !! "updated_at" = Some (JStr s) →
         fromisoformat (replace_Z s) = None → found = nothing) ∧
   (∀ r s t, entry !! "rate" = Some r → truthy r = true →
             entry !! "updated_at" = Some (JStr s) → s ≠ "" →
             fromisoformat (replace_Z s) = Some t →
             found = Ok (r, Some t, is_fresh_at now t))).
Proof.
  intros Hpairs nothing found. split.
  - by apply cached_rate_absent.
  - intros entry Hentry. repeat split.
    + intros Hr. eapply cached_rate_no_rate; eauto.
    + intros r Hr Hf. eapply cached_rate_no_rate; eauto.
    + by eapply cached_rate_no_updated_at.
    + intros s Hu Hparse. by eapply cached_rate_unparseable.
    + intros r s t Hr Hrt Hu Hs Hparse. by eapply cached_rate_stored.
Qed.

(** An entry with the rate -1.0: it is returned. *)
Lemma cached_rate_lookup_witness :
  _get_cached_rate (H := demo_env) (demo_db (JFloat (-1))) (clock_at 10) "btc" "usd" =
  Ok (JFloat (-1), Some {| micros := 1704067200000000; aware := false |}, true).
Proof.
  pose (entry := new_pair "coingecko" "2024-01-01T00:00:00" (JFloat (-1))).
  destruct (cached_rate_lookup (H := demo_env) (demo_db (JFloat (-1))) (clock_at 10)
              "btc" "usd" {[ "BTC_USD" := entry ]} eq_refl) as [_ Hentry].
  destruct (Hentry _ eq_refl) as (_ & _ & _ & _ & Hstored).
  refine (Hstored (JFloat (-1)) "2024-01-01T00:00:00" _ eq_refl eq_refl eq_refl _ eq_refl).
  discriminate.
Defined.

(** Outside these cases the lookup can raise: an [updated_at] that is a
    number has no method [replace], and the [except] clause catches
    [ValueError] only. *)
Lemma numeric_updated_at_raises :
  let entry := JDict (<["updated_at" := JInt 1704067200]> {[ "rate" := JFloat 60000 ]}) in
  let db := {| users_json := FileNotFound;
               portfolios_json := FileNotFound;
               rates_json := Stored (JDict {[ "pairs" := JDict {[ "BTC_USD" := entry ]} ]});
               exchange_rates_json := FileNotFound |} in
  _get_cached_rate (H := demo_env) db (clock_at 10) "BTC" "USD" =
  Raise (AttributeError "int" "replace").
Proof. vm_compute. reflexivity. Qed.

(** C5 as it was stated fails: the stored rate -1.0 is not positive, and the
    lookup returns it instead of nothing. *)
Lemma negative_rate_is_returned :
  let db := demo_db (JFloat (-1)) in
  let found := _get_cached_rate (H := demo_env) db (clock_at 10) "BTC" "USD" in
  cached_pairs db =
    Some {[ "BTC_USD" := new_pair "coingecko" "2024-01-01T00:00:00" (JFloat (-1)) ]} ∧
  (-1 <=? 0)%float = true ∧
  found = Ok (JFloat (-1), Some {| micros := 1704067200000000; aware := false |}, true) ∧
  found ≠ Ok (JNull, None, false).
Proof. repeat split; try (vm_compute; reflexivity). vm_compute. discriminate. Qed.

(** ** The rate cache: committing new rates *)

Lemma merged_pairs (rates old : gmap string json) (source_name current_time : string) :
  let new := (new_pair source_name current_time <$> rates) ∪ old in
  dom new = dom old ∪ dom rates ∧
  (∀ k, rates !! k = None → new !! k = old !! k) ∧
  (∀ k r, rates !! k = Some r →
          new !! k = Some (JDict (list_to_map
                             [ ("rate", r);
                               ("updated_at", JStr current_time);
                               ("source", JStr source_name) ]))).
Proof.
  intros new. repeat apply conj.
  - unfold new. rewrite dom_union_L, dom_fmap_L. apply (comm_L (∪)).
  - intros k Hk. unfold new. apply lookup_union_r. by rewrite lookup_fmap, Hk.
  - intros k r Hk. unfold new. apply lookup_union_Some_l.
    by rewrite lookup_fmap, Hk.
Qed.

(** What a commit writes when the old pairs can be read. *)
Lemma commit_writes (rates : gmap string json) (source_name current_time : string)
    (db : Database) (old kept : gmap string json) :
  holds_pairs (rates_json db) old kept →
  ∃ cache' : gmap string json,
    save_current_rates rates source_name current_time db =
      (Ok tt, {| users_json := users_json db;
                 portfolios_json := portfolios_json db;
                 rates_json := Stored (JDict cache');
                 exchange_rates_json := exchange_rates_json db |}) ∧
    cache' !! "pairs" =
      Some (JDict ((new_pair source_name current_time <$> rates) ∪ old)) ∧
    cache' !! "last_refresh" = Some (JStr current_time) ∧
    (∀ k, k ≠ "pairs" → k ≠ "last_refresh" → cache' !! k = kept !! k).
Proof.
  intros Hold. unfold save_current_rates, bind, get, lift, load_rates_cache.
  inversion Hold as [Hf|Hf|cache old' Hp Hf|cache Hp Hf|l Hl Hf|text Ht Hf]; subst;
    cbn [loaded contains_pairs].
  - eexists. split; [reflexivity|]. repeat apply conj.
    + by rewrite lookup_insert_ne, lookup_insert_eq.
    + by rewrite lookup_insert_eq.
    + intros k Hk1 Hk2. by rewrite !lookup_insert_ne.
  - eexists. split; [reflexivity|]. repeat apply conj.
    + by rewrite lookup_insert_ne, lookup_insert_eq.
    + by rewrite lookup_insert_eq.
    + intros k Hk1 Hk2. by rewrite !lookup_insert_ne.
  - rewrite bool_decide_eq_true_2 by (rewrite Hp; eauto).
    cbn [negb get_pairs]. rewrite Hp. cbn [py_update py_setitem].
    eexists. split; [reflexivity|]. repeat apply conj.
    + by rewrite lookup_insert_ne, lookup_insert_eq.
    + by rewrite lookup_insert_eq.
    + intros k Hk1 Hk2. by rewrite !lookup_insert_ne.
  - rewrite bool_decide_eq_false_2 by (rewrite Hp; by intros [? ?]).
    cbn [negb get_pairs]. rewrite lookup_insert_eq. cbn [py_update py_setitem].
    eexists. split; [reflexivity|]. repeat apply conj.
    + by rewrite lookup_insert_ne, lookup_insert_eq.
    + by rewrite lookup_insert_eq.
    + intros k Hk1 Hk2. by rewrite !lookup_insert_ne.
  - rewrite Hl. cbn [negb get_pairs]. rewrite lookup_insert_eq.
    cbn [py_update py_setitem].
    eexists. split; [reflexivity|]. repeat apply conj.
    + by rewrite lookup_insert_ne, lookup_insert_eq.
    + by rewrite lookup_insert_eq.
    + intros k Hk1 Hk2. by rewrite !lookup_insert_ne.
  - rewrite Ht. cbn [negb get_pairs]. rewrite lookup_insert_eq.
    cbn [py_update py_setitem].
    eexists. split; [reflexivity|]. repeat apply conj.
    + by rewrite lookup_insert_ne, lookup_insert_eq.
    + by rewrite lookup_insert_eq.
    + intros k Hk1 Hk2. by rewrite !lookup_insert_ne.
Qed.

(** What a commit does when the old pairs cannot be read: it raises before
    rates.json is written. *)
Lemma commit_refused (rates : gmap string json) (source_name current_time : string)
    (db : Database) :
  (∀ old kept, ¬ holds_pairs (rates_json db) old kept) →
  ∃ e, save_current_rates rates source_name current_time db = (Raise e, db).
Proof.
  intros Hnone. unfold save_current_rates, bind, get, lift, load_rates_cache.
  destruct (rates_json db) as [| |v] eqn:Hfile.
  - destruct (Hnone ∅ ∅). constructor.
  - destruct (Hnone ∅ ∅). constructor.
  - cbn [loaded]. destruct v as [|b|z|f|text|l|cache]; cbn [contains_pairs];
      try (eexists; reflexivity).
    + destruct (str_contains "pairs" text) eqn:Ht; [eexists; reflexivity|].
      destruct (Hnone ∅ ∅). by constructor.
    + destruct (existsb is_pairs_str l) eqn:Hl; [eexists; reflexivity|].
      destruct (Hnone ∅ ∅). by constructor.
    + destruct (cache !! "pairs") as [v|] eqn:Hp.
      * rewrite bool_decide_eq_true_2 by eauto. cbn [negb get_pairs]. rewrite Hp.
        destruct v as [| | | | | |old]; try (eexists; reflexivity).
        destruct (Hnone old cache). by constructor.
      * destruct (Hnone cache ∅). by constructor.
Qed.

(** C7, as amended: for every content of rates.json from which the old pairs
    can be read (a missing file or one that is not JSON, an object with an
    object under ["pairs"], an object in the old flat format, a list or a
    string without ["pairs"]) and every new rates, the commit returns and
    rates.json holds an object whose pairs have the old and the new keys: a
    key the new rates do not have keeps its entry, a key they have holds the
    new rate, the time of the write and the source, [last_refresh] is the
    time of the write, the other keys of the cache stay, and no other file
    changes. For every other content the commit raises and writes nothing. *)
Theorem save_current_rates_merges (rates : gmap string json)
    (source_name current_time : string) (db : Database) :
  (∀ old kept : gmap string json,
   holds_pairs (rates_json db) old kept →
   ∃ (db' : Database) (cache' new : gmap string json),
     save_current_rates rates source_name current_time db = (Ok tt, db') ∧
     rates_json db' = Stored (JDict cache') ∧
     cache' !! "pairs" = Some (JDict new) ∧
     dom new = dom old ∪ dom rates ∧
     (∀ k, rates !! k = None → new !! k = old !! k) ∧
     (∀ k r, rates !! k = Some r →
             new !! k = Some (JDict (list_to_map
                                [ ("rate", r);
                                  ("updated_at", JStr current_time);
                                  ("source", JStr source_name) ]))) ∧
     cache' !! "last_refresh" = Some (JStr current_time) ∧
     (∀ k, k ≠ "pairs" → k ≠ "last_refresh" → cache' !! k = kept !! k) ∧
     users_json db' = users_json db ∧
     portfolios_json db' = portfolios_json db ∧
     exchange_rates_json db' = exchange_rates_json db) ∧
  ((∀ old kept, ¬ holds_pairs (rates_json db) old kept) →
   ∃ e, save_current_rates rates source_name current_time db = (Raise e, db)).
Proof.
  split; [|apply commit_refused].
  intros old kept Hold.
  destruct (commit_writes rates source_name current_time db old kept Hold)
    as (cache' & Hrun & Hpairs & Hrefresh & Hkept).
  destruct (merged_pairs rates old source_name current_time) as (Hdom & Hkeep & Hnew).
  eexists _, cache', _. split; [exact Hrun|]. cbn [rates_json users_json
    portfolios_json exchange_rates_json].
  split; [reflexivity|]. split; [exact Hpairs|]. split; [exact Hdom|].
  split; [exact Hkeep|]. split; [exact Hnew|]. split; [exact Hrefresh|].
  split; [exact Hkept|]. by repeat apply conj.
Qed.

(** ETH_USD is committed to the cache of the scenario, which holds BTC_USD:
    the entry of BTC_USD stays and ETH_USD gets its rate, time and source;
    and a cache in the old flat format keeps its entries as pairs. *)
Lemma save_current_rates_merges_witness :
  (∃ (db' : Database) (cache' new : gmap string json),
     save_current_rates {[ "ETH_USD" := JFloat 3000 ]}
       "coingecko" "2024-01-01T00:10:00" (demo_db (JFloat 60000)) = (Ok tt, db') ∧
     rates_json db' = Stored (JDict cache') ∧
     cache' !! "pairs" = Some (JDict new) ∧
     new !! "BTC_USD" =
       Some (JDict (list_to_map
               [ ("rate", JFloat 60000);
                 ("updated_at", JStr "2024-01-01T00:00:00");
                 ("source", JStr "coingecko") ])) ∧
     new !! "ETH_USD" =
       Some (JDict (list_to_map
               [ ("rate", JFloat 3000);
                 ("updated_at", JStr "2024-01-01T00:10:00");
                 ("source", JStr "coingecko") ]))) ∧
  (∃ (db' : Database) (cache' new : gmap string json),
     save_current_rates {[ "ETH_USD" := JFloat 3000 ]}
       "coingecko" "2024-01-01T00:10:00"
       {| users_json := FileNotFound;
          portfolios_json := FileNotFound;
          rates_json := Stored (JDict {[ "BTC_USD" := JFloat 60000 ]});
          exchange_rates_json := FileNotFound |} = (Ok tt, db') ∧
     rates_json db' = Stored (JDict cache') ∧
     cache' !! "pairs" = Some (JDict new) ∧
     new !! "BTC_USD" = Some (JFloat 60000)).
Proof.
  split.
  - assert (holds_pairs (rates_json (demo_db (JFloat 60000)))
              {[ "BTC_USD" := new_pair "coingecko" "2024-01-01T00:00:00" (JFloat 60000) ]}
              (<["pairs" := JDict {[ "BTC_USD" :=
                   new_pair "coingecko" "2024-01-01T00:00:00" (JFloat 60000) ]}]>
                 (<["last_refresh" := JStr "2024-01-01T00:00:00"]> ∅))) as Hold
      by (apply pairs_of_cache; reflexivity).
    destruct (proj1 (save_current_rates_merges {[ "ETH_USD" := JFloat 3000 ]}
                       "coingecko" "2024-01-01T00:10:00" (demo_db (JFloat 60000)))
                _ _ Hold)
      as (db' & cache' & new & Hrun & Hfile & Hpairs & _ & Hkeep & Hnew & _).
    exists db', cache', new. repeat apply conj; try assumption.
    + rewrite Hkeep; reflexivity.
    + apply Hnew. reflexivity.
  - set (db := {| users_json := FileNotFound;
                  portfolios_json := FileNotFound;
                  rates_json := Stored (JDict {[ "BTC_USD" := JFloat 60000 ]});
                  exchange_rates_json := FileNotFound |}).
    assert (holds_pairs (rates_json db) {[ "BTC_USD" := JFloat 60000 ]} ∅) as Hold
      by (apply pairs_of_flat_cache; reflexivity).
    destruct (proj1 (save_current_rates_merges {[ "ETH_USD" := JFloat 3000 ]}
                       "coingecko" "2024-01-01T00:10:00" db) _ _ Hold)
      as (db' & cache' & new & Hrun & Hfile & Hpairs & _ & Hkeep & _).
    exists db', cache', new. repeat apply conj; try assumption.
    rewrite Hkeep; reflexivity.
Defined.

(** C7, where the claim fails: rates.json holds an object whose ["pairs"] is
    a list. The commit raises [AttributeError] at [update] and rates.json is
    as it was: no cache with the new rate results. *)
Lemma commit_on_malformed_pairs_raises :
  let db := {| users_json := FileNotFound;
               portfolios_json := FileNotFound;
               rates_json := Stored (JDict {[ "pairs" := JList [] ]});
               exchange_rates_json := FileNotFound |} in
  let run := save_current_rates {[ "BTC_USD" := JFloat 61000 ]}
               "coingecko" "2024-01-01T00:10:00" db in
  run = (Raise (AttributeError "list" "update"), db) ∧
  (∀ db', run ≠ (Ok tt, db')) ∧
  cached_pairs (snd run) = None.
Proof.
  intros db run. assert (run = (Raise (AttributeError "list" "update"), db)) as ->
    by reflexivity.
  repeat apply conj; [reflexivity|discriminate|reflexivity].
Qed.

(** A cache in the old flat format, a dictionary without the key ["pairs"],
    becomes the pairs of the new cache. *)
Lemma save_current_rates_flat_cache (rates : gmap string json)
    (source_name current_time : string) (db : Database)
    (cache : gmap string json) :
  load_rates_cache db = JDict cache →
  cache !! "pairs" = None →
  rates_json (snd (save_current_rates rates source_name current_time db)) =
  Stored (JDict (<["last_refresh" := JStr current_time]>
                   (<["pairs" := JDict ((new_pair source_name current_time <$> rates)
                                        ∪ cache)]>
                      (<["pairs" := JDict cache]> (<["last_refresh" := JNull]> ∅))))).
Proof.
  intros Hload Hnone.
  unfold save_current_rates, bind, get, lift. rewrite Hload. simpl.
  rewrite bool_decide_eq_false_2 by (rewrite Hnone; by intros [? ?]).
  simpl. by rewrite lookup_insert_eq.
Qed.

(** A cache whose ["pairs"] is not a dictionary makes [update] raise, and
    rates.json is not written. *)
Lemma save_current_rates_bad_pairs (rates : gmap string json)
    (source_name current_time : string) (db : Database)
    (cache : gmap string json) (v : json) :
  load_rates_cache db = JDict cache →
  cache !! "pairs" = Some v →
  (∀ d, v ≠ JDict d) →
  save_current_rates rates source_name current_time db =
  (Raise (AttributeError (type_name v) "update"), db).
Proof.
  intros Hload Hv Hnd.
  unfold save_current_rates, bind, get, lift. rewrite Hload. simpl.
  rewrite bool_decide_eq_true_2 by (rewrite Hv; eauto).
  simpl. rewrite Hv. destruct v; try reflexivity. by destruct (Hnd d).
Qed.

(** ** The rate history *)

Lemma last_entries_length (history : list json) :
  (history_cap < length history)%nat →
  length (last_entries history) = history_cap.
Proof. unfold last_entries. rewrite length_drop. lia. Qed.

(** C8: [save_exchange_rate] always succeeds and leaves at most 1000 records,
    the last of which is the new one; a history of fewer than 1000 records
    grows by it, and a history of 1000 records loses its oldest record. *)
Theorem history_is_capped (data : rate_data) (stamp now_iso : string)
    (db : Database) :
  let record :=
    exchange_rate_record data (_generate_rate_id data stamp) now_iso in
  let old := load_exchange_rates_history db in
  ∃ db' : Database,
    save_exchange_rate data stamp now_iso db = (Ok tt, db') ∧
    let new := load_exchange_rates_history db' in
    (length new ≤ 1000)%nat ∧
    last new = Some record ∧
    ((length old < 1000)%nat → new = (old ++ [record])%list) ∧
    ((length old = 1000)%nat → new = (tail old ++ [record])%list) ∧
    new = (drop (length old + 1 - 1000) old ++ [record])%list ∧
    users_json db' = users_json db ∧
    portfolios_json db' = portfolios_json db ∧
    rates_json db' = rates_json db.
Proof.
  intros record old.
  set (h := (old ++ [record])%list).
  set (new := if (history_cap <? length h)%nat then last_entries h else h).
  exists {| users_json := users_json db;
            portfolios_json := portfolios_json db;
            rates_json := rates_json db;
            exchange_rates_json := Stored new |}.
  split; [reflexivity|].
  change (load_exchange_rates_history _) with new. cbv zeta.
  assert (new = (drop (length old + 1 - 1000) old ++ [record])%list) as ->.
  { unfold new, h, last_entries, history_cap. rewrite length_app. simpl.
    destruct (Nat.ltb_spec 1000 (length old + 1)) as [Hbig|Hsmall].
    - by rewrite drop_app_le by lia.
    - by replace (length old + 1 - 1000)%nat with 0%nat by lia. }
  repeat split.
  - rewrite length_app, length_drop. simpl. lia.
  - apply last_snoc.
  - intros Hlen. by replace (length old + 1 - 1000)%nat with 0%nat by lia.
  - intros Hlen. rewrite Hlen. simpl. by destruct old.
Qed.

(** ** Registration *)

Lemma username_taken_iff (uname : string) (users : list user_dict) :
  existsb (λ u, String.eqb (username u) uname) users = true ↔
  ∃ u, u ∈ users ∧ username u = uname.
Proof.
  rewrite existsb_exists. split.
  - intros (u & Hin & Heq). exists u. split; [by apply list_elem_of_In|].
    by apply String.eqb_eq.
  - intros (u & Hin & Heq). exists u. split; [by apply list_elem_of_In|].
    by apply String.eqb_eq.
Qed.

Lemma foldr_max_bound (ids : list Z) (x0 y : Z) :
  y = x0 ∨ y ∈ ids → (y ≤ foldr Z.max x0 ids)%Z.
Proof.
  induction ids as [|x ids IH]; intros Hy; cbn [foldr].
  - destruct Hy as [->|Hy]; [lia|]. by apply elem_of_nil in Hy.
  - destruct Hy as [->|Hy].
    + specialize (IH (or_introl eq_refl)). lia.
    + apply elem_of_cons in Hy as [->|Hy]; [lia|].
      specialize (IH (or_intror Hy)). lia.
Qed.

Lemma max_id_bound (users : list user_dict) (u : user_dict) :
  u ∈ users → (user_id u ≤ py_max (user_id <$> users) 0)%Z.
Proof.
  intros Hin. destruct users as [|v users]; [by apply elem_of_nil in Hin|].
  rewrite fmap_cons. cbn [py_max]. apply foldr_max_bound.
  apply elem_of_cons in Hin as [->|Hin]; [by left|right].
  by apply list_elem_of_fmap_2.
Qed.

Lemma strip_nonempty (s : string) : strip_is_empty s = false → str_is_empty s = false.
Proof. by destruct s. Qed.

(** [len] and [strip] work on characters, not on bytes: a password of three
    Cyrillic letters, six bytes long, is too short for [register] and for
    [change_password], and a name made of one no-break space (U+00A0, two
    bytes) is blank. *)
Lemma characters_are_counted :
  let nbsp := String (ascii_of_nat 194) (String (ascii_of_nat 160) EmptyString) in
  let db := demo_db (JFloat 60000) in
  String.length "пар" = 6%nat ∧ py_len "пар" = 3%nat ∧
  register (H := demo_env) "bob" "пар" "00ff" "2024-01-02T00:00:00" db =
    (Raise (ValueError ShortPassword), db) ∧
  change_password (H := demo_env) "пар" alice =
    (Raise (ValueError UserPasswordTooShort), alice) ∧
  register (H := demo_env) nbsp "secret" "00ff" "2024-01-02T00:00:00" db =
    (Raise (ValueError EmptyUsername), db).
Proof. repeat split. Qed.

(** C9: for a user name that is not blank and a password of four characters
    or more, registering a name that a stored user has ends in the
    [ValueError] for a name that is taken and leaves users.json and
    portfolios.json as they were; registering a new name appends one user,
    whose id is greater than every stored id, and one empty portfolio. *)
Theorem register_checks_username `{Env} (uname password urandom_hex now_iso : string)
    (db : Database) :
  strip_is_empty uname = false →
  (4 ≤ py_len password)%nat →
  ((∃ u, u ∈ load_users db ∧ username u = uname) →
   register uname password urandom_hex now_iso db =
   (Raise (ValueError (UsernameTaken uname)), db)) ∧
  ((∀ u, u ∈ load_users db → username u ≠ uname) →
   ∃ (new_user : User) (db' : Database),
     register uname password urandom_hex now_iso db = (Ok new_user, db') ∧
     _username new_user = uname ∧
     (∀ u, u ∈ load_users db → (user_id u < _user_id new_user)%Z) ∧
     load_users db' = (load_users db ++ [User_to_dict new_user])%list ∧
     load_portfolios db' =
       (load_portfolios db ++
        [Portfolio_to_dict (Portfolio_new (_user_id new_user))])%list ∧
     rates_json db' = rates_json db ∧
     exchange_rates_json db' = exchange_rates_json db).
Proof.
  intros Hname Hpw.
  pose proof (strip_nonempty _ Hname) as Hne.
  assert ((py_len password <? 4)%nat = false) as Hlen by (apply Nat.ltb_ge; lia).
  split.
  - intros Htaken. apply username_taken_iff in Htaken.
    unfold register. rewrite Hne, Hname, Hlen. simpl.
    unfold bind, get. by rewrite Htaken.
  - intros Hfree.
    assert (existsb (λ u, String.eqb (username u) uname) (load_users db) = false)
      as Hnot.
    { apply not_true_is_false. intros Hex. apply username_taken_iff in Hex.
      destruct Hex as (u & Hin & Heq). by apply (Hfree u). }
    set (new_id := (py_max (user_id <$> load_users db) 0 + 1)%Z).
    set (new_user := {| _user_id := new_id;
                        _username := uname;
                        _hashed_password := hash_password password urandom_hex;
                        _salt := urandom_hex;
                        _registration_date := now_iso |}).
    exists new_user.
    exists {| users_json := Stored (load_users db ++ [User_to_dict new_user])%list;
              portfolios_json :=
                Stored (load_portfolios db ++
                        [Portfolio_to_dict (Portfolio_new new_id)])%list;
              rates_json := rates_json db;
              exchange_rates_json := exchange_rates_json db |}.
    split; [|repeat split].
    + unfold register. rewrite Hne, Hname, Hlen. simpl.
      unfold bind, get, lift. rewrite Hnot.
      unfold User_init. rewrite Hne, Hlen. reflexivity.
    + intros u Hin. pose proof (max_id_bound _ _ Hin). simpl. lia.
Qed.

(** alice is stored: a second alice is refused, and bob gets the id 2; so
    does a user with a Cyrillic name and a password of four Cyrillic
    letters. *)
Lemma register_checks_username_witness :
  let db := demo_db (JFloat 60000) in
  register (H := demo_env) "alice" "secret" "00ff" "2024-01-02T00:00:00" db =
    (Raise (ValueError (UsernameTaken "alice")), db) ∧
  (∃ (new_user : User) (db' : Database),
     register (H := demo_env) "bob" "secret" "00ff" "2024-01-02T00:00:00" db =
       (Ok new_user, db') ∧
     (∀ u, u ∈ load_users db → (user_id u < _user_id new_user)%Z)) ∧
  (∃ (new_user : User) (db' : Database),
     register (H := demo_env) "боб" "пара" "00ff" "2024-01-02T00:00:00" db =
       (Ok new_user, db') ∧
     _user_id new_user = 2).
Proof.
  intros db. split; [|split].
  - refine (proj1 (register_checks_username (H := demo_env) "alice" "secret" "00ff"
                     "2024-01-02T00:00:00" db eq_refl _) _).
    + vm_compute. lia.
    + exists (User_to_dict alice). split; [apply list_elem_of_here|reflexivity].
  - destruct (proj2 (register_checks_username (H := demo_env) "bob" "secret" "00ff"
                       "2024-01-02T00:00:00" db eq_refl
                       ltac:(vm_compute; lia)))
      as (new_user & db' & Hrun & _ & Hid & _).
    + intros u Hin. apply list_elem_of_singleton in Hin. subst u. discriminate.
    + exists new_user, db'. by split.
  - destruct (proj2 (register_checks_username (H := demo_env) "боб" "пара" "00ff"
                       "2024-01-02T00:00:00" db eq_refl
                       ltac:(vm_compute; lia)))
      as (new_user & db' & Hrun & _ & _ & _).
    + intros u Hin. apply list_elem_of_singleton in Hin. subst u. discriminate.
    + exists new_user, db'. split; [exact Hrun|].
      injection Hrun as <- _. reflexivity.
Defined.

(** ** Loading the stores *)




(** ** A purchase followed by a sale *)

Lemma validate_amount_positive `{Env} (amount : string) (a : float) :
  validate_amount amount = Ok a → (a <=? 0)%float = false.
Proof.
  unfold validate_amount. destruct (py_float amount); [|discriminate].
  destruct (f <=? 0)%float eqn:E; [discriminate|]. by intros [= <-].
Qed.

Lemma insert_as_alter {A : Type} (f : A → A) (k : string) (x : A) (m : gmap string A) :
  m !! k = Some x → <[k := f x]> m = alter f k m.
Proof.
  intros Hk. apply map_eq. intros i. destruct (decide (k = i)) as [->|Hne].
  - by rewrite lookup_insert_eq, lookup_alter_eq, Hk.
  - by rewrite lookup_insert_ne, lookup_alter_ne.
Qed.

Lemma map_balance_lookup (f : float → float) (k i : string) (self : PortfolioService) :
  wallet_balance (map_balance f k self) i =
  if decide (k = i) then f <$> wallet_balance self i else wallet_balance self i.
Proof.
  unfold wallet_balance, map_balance. simpl. case_decide as Hk.
  - subst i. rewrite lookup_alter_eq. by destruct (_ !! k).
  - by rewrite lookup_alter_ne.
Qed.

Lemma wallet_balance_is_Some (self : PortfolioService) (k : string) :
  is_Some (_wallets (_portfolio self) !! k) ↔ is_Some (wallet_balance self k).
Proof. unfold wallet_balance. by rewrite fmap_is_Some. Qed.

Lemma map_balance_has (f : float → float) (k i : string) (self : PortfolioService) :
  is_Some (_wallets (_portfolio self) !! i) →
  is_Some (_wallets (_portfolio (map_balance f k self)) !! i).
Proof.
  rewrite !wallet_balance_is_Some, map_balance_lookup.
  case_decide; [|done]. by rewrite fmap_is_Some.
Qed.

Lemma map_balance_eq (f : float → float) (k : string) (self : PortfolioService) :
  is_Some (_wallets (_portfolio self) !! k) →
  balance_or_zero (map_balance f k self) k = f (balance_or_zero self k).
Proof.
  intros Hk. apply wallet_balance_is_Some in Hk as [b Hb].
  unfold balance_or_zero. rewrite map_balance_lookup, decide_True by done.
  by rewrite Hb.
Qed.

Lemma map_balance_ne (f : float → float) (k i : string) (self : PortfolioService) :
  k ≠ i → balance_or_zero (map_balance f k self) i = balance_or_zero self i.
Proof.
  intros Hne. unfold balance_or_zero. by rewrite map_balance_lookup, decide_False.
Qed.

Lemma withdraw_eq (k : string) (x : float) (self : PortfolioService) (db : Database) :
  is_Some (_wallets (_portfolio self) !! k) →
  (x <=? 0)%float = false →
  (balance_or_zero self k <? x)%float = false →
  on_portfolio (on_wallet k (withdraw x)) (self, db) =
  (Ok tt, (map_balance (λ b, b - x)%float k self, db)).
Proof.
  intros [wl Hk] Hpos Hfunds.
  unfold balance_or_zero, wallet_balance in Hfunds. rewrite Hk in Hfunds.
  simpl in Hfunds.
  unfold on_portfolio, on_wallet, withdraw, map_balance. rewrite Hk, Hpos, Hfunds.
  do 4 f_equal.
  exact (insert_as_alter
           (λ wl, {| currency_code := currency_code wl;
                     _balance := (_balance wl - x)%float |}) _ _ _ Hk).
Qed.

Lemma deposit_eq (k : string) (x : float) (self : PortfolioService) (db : Database) :
  is_Some (_wallets (_portfolio self) !! k) →
  (x <=? 0)%float = false →
  on_portfolio (on_wallet k (deposit x)) (self, db) =
  (Ok tt, (map_balance (λ b, b + x)%float k self, db)).
Proof.
  intros [wl Hk] Hpos.
  unfold on_portfolio, on_wallet, deposit, map_balance. rewrite Hk, Hpos.
  do 4 f_equal.
  exact (insert_as_alter
           (λ wl, {| currency_code := currency_code wl;
                     _balance := (_balance wl + x)%float |}) _ _ _ Hk).
Qed.

Lemma save_portfolio_eq (self : PortfolioService) (db : Database) :
  _save_portfolio (self, db) = (Ok tt, (self, persist self db)).
Proof. reflexivity. Qed.

Lemma persist_rates (self : PortfolioService) (db : Database) :
  rates_json (persist self db) = rates_json db.
Proof. reflexivity. Qed.

Lemma cached_rate_depends_on_rates `{Env} (db db' : Database) (now : clock)
    (from_cur to_cur : string) :
  rates_json db' = rates_json db →
  _get_cached_rate db' now from_cur to_cur = _get_cached_rate db now from_cur to_cur.
Proof.
  intros Hr. unfold _get_cached_rate, load_rates_cache. by rewrite Hr.
Qed.

Section commit.
Context `{Env}.
Variables (now : clock) (c amount base_currency : string).
Variables (self : PortfolioService) (db : Database).
Variables (a : float) (cur : Currency) (r : json) (t : datetime) (value : float).
Hypothesis Hamount : validate_amount amount = Ok a.
Hypothesis Hcur : get_currency c = Ok cur.
Hypothesis Hrate :
  _get_cached_rate db now (code cur) base_currency = Ok (r, Some t, true).
Hypothesis Hmul : float_mul a r = Ok value.
Hypothesis Hvalue : (value <=? 0)%float = false.

(** A purchase that passes the checks: the cost leaves the base wallet, the
    amount enters the wallet of the currency, the portfolio is written, and
    the call ends in the [AttributeError]. *)
Lemma buy_commit :
  (balance_or_zero self (upper base_currency) <? value)%float = false →
  let self' :=
    map_balance (λ b, b + a)%float (code cur)
      (map_balance (λ b, b - value)%float (upper base_currency)
         (with_wallet (code cur) (with_wallet base_currency self))) in
  buy_currency now c amount base_currency (self, db) =
  (Raise (AttributeError "str" "code"), (self', persist self' db)).
Proof.
  intros Hfunds self'.
  destruct (get_currency_code _ _ Hcur) as [_ Hup].
  pose proof (validate_amount_positive _ _ Hamount) as Hpos.
  set (self2 := with_wallet (code cur) (with_wallet base_currency self)).
  assert (is_Some (_wallets (_portfolio self2) !! upper base_currency)) as Hbase.
  { unfold self2. rewrite with_wallet_lookup.
    destruct (with_wallet_has base_currency self) as [? ->]. eauto. }
  assert (is_Some (_wallets (_portfolio self2) !! code cur)) as Htarget.
  { rewrite <- Hup. apply with_wallet_has. }
  unfold buy_currency.
  rewrite (bind_ok _ _ _ (self2, db) (a, r, upper base_currency, code cur, true)).
  2:{ rewrite (prepare_buy _ _ _ _ _ _ _ _ _ _ Hamount Hcur Hrate _ Hmul).
      cbv zeta. by rewrite Hfunds. }
  rewrite (bind_ok _ _ _ (self2, db) value) by (unfold lift; by rewrite Hmul).
  erewrite bind_ok.
  2:{ apply withdraw_eq; [done|done|].
      unfold self2. by rewrite !with_wallet_balance. }
  erewrite bind_ok.
  2:{ apply deposit_eq; [|done]. by apply map_balance_has. }
  erewrite bind_ok by apply save_portfolio_eq.
  reflexivity.
Qed.

(** A sale that passes the checks: the amount leaves the wallet of the
    currency, the proceeds enter the base wallet, the portfolio is written and
    the transaction is returned. *)
Lemma sell_commit :
  (balance_or_zero self (code cur) <? a)%float = false →
  let self' :=
    map_balance (λ b, b + value)%float (upper base_currency)
      (map_balance (λ b, b - a)%float (code cur)
         (with_wallet base_currency (with_wallet (code cur) self))) in
  sell_currency now c amount base_currency (self, db) =
  (Ok (list_to_map
         [ ("currency", JStr (upper c));
           ("amount", JFloat a);
           ("rate", r);
           ("proceeds", JFloat value);
           ("base_currency", JStr base_currency);
           ("new_balance", JFloat (balance_or_zero self' (code cur)));
           ("base_balance", JFloat (balance_or_zero self' (upper base_currency)));
           ("rate_fresh", JBool true) ]),
   (self', persist self' db)).
Proof.
  intros Hfunds self'.
  destruct (get_currency_code _ _ Hcur) as [_ Hup].
  pose proof (validate_amount_positive _ _ Hamount) as Hpos.
  set (self2 := with_wallet base_currency (with_wallet (code cur) self)).
  assert (is_Some (_wallets (_portfolio self2) !! upper base_currency)) as Hbase.
  { apply with_wallet_has. }
  assert (is_Some (_wallets (_portfolio self2) !! code cur)) as Htarget.
  { unfold self2. rewrite with_wallet_lookup.
    destruct (with_wallet_has (code cur) self) as [? Hw].
    rewrite Hup in Hw. rewrite Hw. eauto. }
  unfold sell_currency.
  rewrite (bind_ok _ _ _ (self2, db) (a, r, code cur, upper base_currency, true)).
  2:{ rewrite (prepare_sell _ _ _ _ _ _ _ _ _ _ Hamount Hcur Hrate).
      cbv zeta. by rewrite Hfunds. }
  rewrite (bind_ok _ _ _ (self2, db) value) by (unfold lift; by rewrite Hmul).
  erewrite bind_ok.
  2:{ apply withdraw_eq; [done|done|].
      unfold self2. by rewrite !with_wallet_balance. }
  erewrite bind_ok.
  2:{ apply deposit_eq; [|done]. by apply map_balance_has. }
  erewrite bind_ok by apply save_portfolio_eq.
  erewrite bind_ok.
  2:{ apply read_balance_eq. by do 2 apply map_balance_has. }
  erewrite bind_ok.
  2:{ apply read_balance_eq. by do 2 apply map_balance_has. }
  reflexivity.
Qed.
End commit.

Lemma with_wallet_keeps (c k : string) (self : PortfolioService) :
  is_Some (_wallets (_portfolio self) !! k) →
  is_Some (_wallets (_portfolio (with_wallet c self)) !! k).
Proof. intros [wl Hk]. rewrite with_wallet_lookup, Hk. eauto. Qed.

(** C6, as the code has it: when a purchase and then a sale of the same
    amount of a currency other than the base pass their checks at the same
    cached rate, the base wallet ends at [(b - cost) + cost] and the wallet of
    the currency at [(x + amount) - amount], computed in binary64, where [b]
    and [x] are the balances before the purchase and [cost] is
    [amount * rate]. *)
Theorem buy_then_sell_balances `{Env} (now now' : clock)
    (c amount base_currency : string) (self : PortfolioService) (db : Database)
    (a : float) (cur : Currency) (r : json) (t : datetime) (cost : float) :
  validate_amount amount = Ok a →
  get_currency c = Ok cur →
  _get_cached_rate db now (code cur) base_currency = Ok (r, Some t, true) →
  _get_cached_rate db now' (code cur) base_currency = Ok (r, Some t, true) →
  float_mul a r = Ok cost →
  code cur ≠ upper base_currency →
  let b := balance_or_zero self (upper base_currency) in
  let x := balance_or_zero self (code cur) in
  (cost <=? 0)%float = false →
  (b <? cost)%float = false →
  (x + a <? a)%float = false →
  ∃ (result : gmap string json) (self' : PortfolioService) (db' : Database),
    sell_currency now' c amount base_currency
      (snd (buy_currency now c amount base_currency (self, db))) =
      (Ok result, (self', db')) ∧
    balance_or_zero self' (upper base_currency) = (b - cost + cost)%float ∧
    balance_or_zero self' (code cur) = (x + a - a)%float.
Proof.
  intros Hamount Hcur Hrate Hrate' Hmul Hne b x Hcost Hbuy Hsell.
  destruct (get_currency_code _ _ Hcur) as [_ Hup].
  rewrite (buy_commit _ _ _ _ _ _ _ _ _ _ _ Hamount Hcur Hrate Hmul Hcost Hbuy).
  cbv zeta. simpl snd.
  set (self0 := with_wallet (code cur) (with_wallet base_currency self)).
  set (self1 := map_balance (λ b0, b0 - cost)%float (upper base_currency) self0).
  set (self2 := map_balance (λ b0, b0 + a)%float (code cur) self1).
  assert (is_Some (_wallets (_portfolio self0) !! upper base_currency)) as Hbase0.
  { apply with_wallet_keeps, with_wallet_has. }
  assert (is_Some (_wallets (_portfolio self0) !! code cur)) as Hcur0.
  { rewrite <- Hup. apply with_wallet_has. }
  assert (balance_or_zero self2 (code cur) = (x + a)%float) as Hx2.
  { unfold self2. rewrite map_balance_eq by by apply map_balance_has.
    unfold self1. rewrite map_balance_ne by done.
    unfold self0. by rewrite !with_wallet_balance. }
  assert (balance_or_zero self2 (upper base_currency) = (b - cost)%float) as Hb2.
  { unfold self2. rewrite map_balance_ne by done.
    unfold self1. rewrite map_balance_eq by done.
    unfold self0. by rewrite !with_wallet_balance. }
  assert (_get_cached_rate (persist self2 db) now' (code cur) base_currency =
          Ok (r, Some t, true)) as Hrate2.
  { rewrite <- Hrate'. apply cached_rate_depends_on_rates, persist_rates. }
  assert ((balance_or_zero self2 (code cur) <? a)%float = false) as Hfunds
    by by rewrite Hx2.
  rewrite (sell_commit _ _ _ _ _ _ _ _ _ _ _ Hamount Hcur Hrate2 Hmul Hcost Hfunds).
  cbv zeta.
  set (self3 := with_wallet base_currency (with_wallet (code cur) self2)).
  assert (is_Some (_wallets (_portfolio self3) !! upper base_currency)) as Hbase3.
  { apply with_wallet_has. }
  assert (is_Some (_wallets (_portfolio self3) !! code cur)) as Hcur3.
  { apply with_wallet_keeps.
    pose proof (with_wallet_has (code cur) self2) as Hw. by rewrite Hup in Hw. }
  eexists _, _, _. split; [reflexivity|]. split.
  - rewrite map_balance_eq by by apply map_balance_has.
    rewrite map_balance_ne by done.
    unfold self3. by rewrite !with_wallet_balance, Hb2.
  - rewrite map_balance_ne by done.
    rewrite map_balance_eq by done.
    unfold self3. by rewrite !with_wallet_balance, Hx2.
Qed.

(** The scenario of the specification, bought and sold back: 1000.00 USD and
    no BTC before, and the same after. *)
Lemma buy_then_sell_balances_witness :
  ∃ (result : gmap string json) (self' : PortfolioService) (db' : Database),
    sell_currency (H := demo_env) (clock_at 20) "BTC" "0.01" "USD"
      (snd (buy_currency (H := demo_env) (clock_at 10) "BTC" "0.01" "USD"
              (demo_service, demo_db (JFloat 60000)))) =
      (Ok result, (self', db')) ∧
    balance_or_zero self' "USD" = 1000%float ∧
    balance_or_zero self' "BTC" = 0%float.
Proof.
  pose (btc := CryptoCurrency "BTC" "Bitcoin" "SHA-256" 1.12e12).
  pose (t := {| micros := 1704067200000000; aware := false |}).
  exact (buy_then_sell_balances (H := demo_env) (clock_at 10) (clock_at 20)
           "BTC" "0.01" "USD" demo_service (demo_db (JFloat 60000))
           0.01%float btc (JFloat 60000) t 600%float
           eq_refl eq_refl eq_refl eq_refl eq_refl ltac:(discriminate)
           eq_refl eq_refl eq_refl).
Defined.

(** C6 as it was stated fails: alice holds 0.1 BTC, buys 0.2 BTC and sells
    0.2 BTC at the same rate 60000.0, and her BTC wallet ends at
    0.10000000000000003. *)
Lemma round_trip_is_not_neutral :
  let db := rich_db (JFloat 60000) in
  let after_buy :=
    snd (buy_currency (H := demo_env) (clock_at 10) "BTC" "0.2" "USD" (rich_service, db)) in
  let after_sell :=
    sell_currency (H := demo_env) (clock_at 20) "BTC" "0.2" "USD" after_buy in
  PortfolioService_init alice db = (Ok rich_service, db) ∧
  wallet_balance rich_service "BTC" = Some 0.1%float ∧
  wallet_balance (fst after_buy) "BTC" = Some 0.30000000000000004%float ∧
  (∃ result, fst after_sell = Ok result) ∧
  wallet_balance (fst (snd after_sell)) "BTC" = Some 0.10000000000000003%float ∧
  wallet_balance (fst (snd after_sell)) "BTC" ≠ wallet_balance rich_service "BTC".
Proof.
  repeat split; try (vm_compute; reflexivity).
  - eexists. vm_compute. reflexivity.
  - vm_compute. discriminate.
Qed.

(** * More properties of the code *)

(** ** Wallets and portfolios *)

(** [Wallet.deposit] and [Wallet.withdraw], called in any order with any
    amounts, each call applied or refused: a balance that is not below zero
    never gets below zero; and when every amount is a finite number, a
    balance that is [>= 0] stays [>= 0]. *)
Theorem wallet_balance_invariant (ops : list wallet_op) (w : Wallet) :
  ((_balance w <? 0)%float = false →
   (_balance (apply_ops ops w) <? 0)%float = false) ∧
  (Forall (λ op, is_finite (op_amount op) = true) ops →
   (0 <=? _balance w)%float = true →
   (0 <=? _balance (apply_ops ops w))%float = true).
Proof.
  split.
  - apply balance_never_negative.
  - apply balance_at_least_zero.
Qed.

(** A deposit of [nan] and a withdrawal leave a balance that is not below
    zero; two deposits and a withdrawal that is refused leave one that is
    [>= 0]. *)
Lemma wallet_balance_invariant_witness :
  (_balance (apply_ops [Deposit nan; Withdraw 5]
               {| currency_code := "USD"; _balance := 1000 |}) <? 0)%float = false ∧
  (0 <=? _balance (apply_ops [Deposit 5; Deposit 0.01; Withdraw 2000]
                     {| currency_code := "USD"; _balance := 1000 |}))%float = true.
Proof.
  split.
  - apply (proj1 (wallet_balance_invariant _ _)). reflexivity.
  - apply (proj2 (wallet_balance_invariant _ _)); [|reflexivity].
    repeat constructor.
Defined.

(** [Portfolio.add_currency] never raises and never replaces a wallet: the
    wallets of the portfolio stay as they are, the currency has a wallet
    afterwards under any spelling of its code, a wallet that was missing
    starts at 0.0, and a second call changes nothing. *)
Theorem add_currency_keeps_wallets (c : string) (p : Portfolio) :
  let p' := snd (add_currency c p) in
  fst (add_currency c p) = Ok tt ∧
  _owner_id p' = _owner_id p ∧
  (∀ k w, _wallets p !! k = Some w → _wallets p' !! k = Some w) ∧
  (∀ c', upper c' = upper c → is_Some (get_wallet p' c')) ∧
  (get_wallet p c = None →
   get_wallet p' c = Some {| currency_code := upper c; _balance := 0 |}) ∧
  (∀ k, k ≠ upper c → _wallets p' !! k = _wallets p !! k) ∧
  add_currency c p' = (Ok tt, p').
Proof.
  unfold add_currency, get_wallet. cbv zeta.
  destruct (_wallets p !! upper c) as [w|] eqn:E; cbn [fst snd _wallets _owner_id].
  - repeat split; try done.
    + intros c' ->. rewrite E. eauto.
    + by rewrite E.
  - repeat split; try done.
    + intros k w Hk. rewrite lookup_insert_ne; [done|]. intros <-. congruence.
    + intros c' ->. rewrite lookup_insert_eq. eauto.
    + intros _. rewrite lookup_insert_eq. unfold Wallet_new. by rewrite upper_idem.
    + intros k Hk. by rewrite lookup_insert_ne.
    + by rewrite lookup_insert_eq.
Qed.

(** What the loop of [Portfolio.from_dict] gives: the wallets rebuilt when no
    stored balance is below zero, and the [ValueError] of [Wallet.__init__]
    otherwise. *)
Lemma from_dict_wallets (ws : gmap string wallet_dict) :
  let r := map_fold
             (λ c wdata acc,
                bindR acc (λ ws',
                bindR (Wallet_from_dict c wdata) (λ w, Ok (<[c := w]> ws'))))
             (Ok ∅) ws in
  (map_Forall (λ _ wdata, (balance wdata <? 0)%float = false) ws →
   r = Ok (map_imap (λ k wdata, Some (stored_wallet k wdata)) ws)) ∧
  (¬ map_Forall (λ _ wdata, (balance wdata <? 0)%float = false) ws →
   r = Raise (ValueError NegativeInitialBalance)).
Proof.
  cbv zeta. apply (map_fold_weak_ind (λ r ws,
    (map_Forall (λ _ wdata, (balance wdata <? 0)%float = false) ws →
     r = Ok (map_imap (λ k wdata, Some (stored_wallet k wdata)) ws)) ∧
    (¬ map_Forall (λ _ wdata, (balance wdata <? 0)%float = false) ws →
     r = Raise (ValueError NegativeInitialBalance)))).
  - split; [|intros Hn; destruct Hn; apply map_Forall_empty].
    intros _. by rewrite map_imap_empty.
  - intros k wdata m r Hk [IHok IHbad]. split.
    + intros Hall. apply map_Forall_insert in Hall as [Hx Hm]; [|done].
      rewrite (IHok Hm). simpl. unfold Wallet_from_dict, Wallet_init.
      rewrite Hx. simpl. f_equal. by rewrite map_imap_insert.
    + intros Hnot.
      destruct (decide (map_Forall
                  (λ _ wd, (balance wd <? 0)%float = false) m)) as [Hm|Hm].
      * rewrite (IHok Hm). simpl. unfold Wallet_from_dict, Wallet_init.
        destruct (balance wdata <? 0)%float eqn:Hx; [done|].
        destruct Hnot. by apply map_Forall_insert.
      * by rewrite (IHbad Hm).
Qed.

Lemma portfolio_round_trip (p : Portfolio) :
  well_kept p → Portfolio_from_dict (Portfolio_to_dict p) = Ok p.
Proof.
  intros Hp. unfold Portfolio_from_dict, Portfolio_to_dict. cbn [wallets owner_id].
  destruct (from_dict_wallets (Wallet_to_dict <$> _wallets p)) as [Hok _].
  cbv zeta in Hok. rewrite Hok.
  - simpl. destruct p as [uid ws]. cbn [_owner_id _wallets] in *. do 2 f_equal.
    apply map_eq. intros k. rewrite map_lookup_imap, lookup_fmap.
    destruct (ws !! k) as [w|] eqn:E; [|done]. simpl.
    destruct (Hp k w E) as [Hcode _]. destruct w as [cc b]. simpl in *.
    unfold stored_wallet. simpl. by rewrite Hcode.
  - intros k wd. rewrite lookup_fmap.
    destruct (_wallets p !! k) as [w|] eqn:E; [|done]. intros [= <-].
    by destruct (Hp k w E).
Qed.

(** [Portfolio.from_dict] undoes [Portfolio.to_dict] on a portfolio whose
    wallets carry the upper-case form of their keys and no balance below
    zero. *)
Theorem portfolio_dict_round_trip (p : Portfolio) :
  well_kept p → Portfolio_from_dict (Portfolio_to_dict p) = Ok p.
Proof. apply portfolio_round_trip. Qed.

Lemma well_kept_demo : well_kept (_portfolio rich_service).
Proof.
  intros k w Hk. cbn [rich_service _portfolio _wallets] in Hk.
  apply lookup_insert_Some in Hk as [[<- <-]|[_ Hk]]; [done|].
  apply lookup_singleton_Some in Hk as [<- <-]. done.
Qed.

Lemma portfolio_dict_round_trip_witness :
  Portfolio_from_dict (Portfolio_to_dict (_portfolio rich_service)) =
  Ok (_portfolio rich_service).
Proof. apply portfolio_dict_round_trip. apply well_kept_demo. Defined.

(** A stored portfolio with one balance below zero cannot be loaded:
    [Portfolio.from_dict] raises the [ValueError] of [Wallet.__init__],
    whatever the other wallets hold. *)
Theorem negative_stored_balance_rejected (data : portfolio_dict) (k : string)
    (wdata : wallet_dict) :
  wallets data !! k = Some wdata →
  (balance wdata <? 0)%float = true →
  Portfolio_from_dict data = Raise (ValueError NegativeInitialBalance).
Proof.
  intros Hk Hneg. unfold Portfolio_from_dict.
  destruct (from_dict_wallets (wallets data)) as [_ Hbad]. cbv zeta in Hbad.
  rewrite Hbad; [done|]. intros Hall. specialize (Hall k wdata Hk).
  simpl in Hall. congruence.
Qed.

Lemma negative_stored_balance_rejected_witness :
  Portfolio_from_dict
    {| owner_id := 1;
       wallets := <["BTC" := {| balance := -1 |}]> {[ "USD" := {| balance := 1000 |} ]} |} =
  Raise (ValueError NegativeInitialBalance).
Proof.
  apply (negative_stored_balance_rejected _ "BTC" {| balance := -1 |});
    reflexivity.
Defined.

(** ** Users *)

Lemma login_loop_skips `{Env} (before after : list user_dict) (uname password : string) :
  (∀ u, u ∈ before → username u ≠ uname) →
  login_loop (before ++ after) uname password = login_loop after uname password.
Proof.
  induction before as [|u before IH]; intros Hfree; [done|].
  cbn [app login_loop].
  rewrite (proj2 (String.eqb_neq _ _)) by (apply Hfree; left).
  apply IH. intros v Hv. apply Hfree. by right.
Qed.

(** A user who has just registered can log in with the same name and
    password, and [login] returns the user [register] returned. *)
Theorem register_then_login `{Env} (uname password urandom_hex now_iso : string)
    (db : Database) :
  strip_is_empty uname = false →
  (4 ≤ py_len password)%nat →
  (∀ u, u ∈ load_users db → username u ≠ uname) →
  ∃ (new_user : User) (db' : Database),
    register uname password urandom_hex now_iso db = (Ok new_user, db') ∧
    login uname password db' = inr new_user.
Proof.
  intros Hname Hpw Hfree.
  pose proof (strip_nonempty _ Hname) as Hne.
  assert ((py_len password <? 4)%nat = false) as Hlen by (apply Nat.ltb_ge; lia).
  assert (existsb (λ u, String.eqb (username u) uname) (load_users db) = false)
    as Hnot.
  { apply not_true_is_false. intros Hex. apply username_taken_iff in Hex.
    destruct Hex as (u & Hin & Heq). by apply (Hfree u). }
  eexists _, _. split.
  - unfold register. rewrite Hne, Hname, Hlen. simpl.
    unfold bind, get, lift. rewrite Hnot.
    unfold User_init. rewrite Hne, Hlen. reflexivity.
  - unfold login. cbn [load_users loaded users_json _save_json].
    rewrite login_loop_skips by exact Hfree.
    cbn [login_loop User_to_dict username _username].
    rewrite String.eqb_refl. unfold verify_password. cbn.
    by rewrite String.eqb_refl.
Qed.

Lemma register_then_login_witness :
  ∃ (new_user : User) (db' : Database),
    register (H := demo_env) "bob" "secret" "00ff" "2024-01-02T00:00:00"
      (demo_db (JFloat 60000)) = (Ok new_user, db') ∧
    login (H := demo_env) "bob" "secret" db' = inr new_user.
Proof.
  apply (register_then_login (H := demo_env)); [reflexivity|vm_compute; lia|].
  intros u Hin. apply list_elem_of_singleton in Hin. subst u. discriminate.
Defined.

(** [login] reports a name that no stored user has, and decides on the first
    stored user of the name: when the password does not hash to what that
    record holds, it is refused without looking at later records. *)
Theorem login_refusals `{Env} (uname password : string) (db : Database) :
  ((∀ u, u ∈ load_users db → username u ≠ uname) →
   login uname password db = inl (UserNotFound uname)) ∧
  (∀ (before after : list user_dict) (u : user_dict),
   load_users db = (before ++ u :: after)%list →
   (∀ v, v ∈ before → username v ≠ uname) →
   username u = uname →
   hashed_password u ≠ hash_password password (salt u) →
   login uname password db = inl WrongPassword).
Proof.
  split.
  - intros Hfree. unfold login.
    rewrite <- (app_nil_r (load_users db)).
    rewrite login_loop_skips by exact Hfree. reflexivity.
  - intros before after u Hload Hfree Hu Hhash. unfold login. rewrite Hload.
    rewrite login_loop_skips by exact Hfree.
    cbn [login_loop]. rewrite Hu, String.eqb_refl.
    unfold verify_password. cbn.
    by rewrite (proj2 (String.eqb_neq _ _)).
Qed.

(** [change_password] refuses a password of fewer than four characters and
    leaves the user as it was; otherwise the new password verifies, and the
    identity, the salt and the registration date of the user are kept. *)
Theorem change_password_verifies `{Env} (new_password : string) (self : User) :
  ((py_len new_password < 4)%nat →
   change_password new_password self =
   (Raise (ValueError UserPasswordTooShort), self)) ∧
  ((4 ≤ py_len new_password)%nat →
   ∃ self',
     change_password new_password self = (Ok tt, self') ∧
     verify_password self' new_password = true ∧
     _user_id self' = _user_id self ∧
     _username self' = _username self ∧
     _salt self' = _salt self ∧
     _registration_date self' = _registration_date self).
Proof.
  unfold change_password. split.
  - intros Hshort. by rewrite (proj2 (Nat.ltb_lt _ _) Hshort).
  - intros Hlong. rewrite (proj2 (Nat.ltb_ge _ _) Hlong).
    eexists. split; [reflexivity|]. repeat split.
    unfold verify_password. cbn. apply String.eqb_refl.
Qed.

(** alice changes her password to ["hunter2"], and is refused ["éé"], two
    characters in four bytes. *)
Lemma change_password_verifies_witness :
  change_password (H := demo_env) "éé" alice =
    (Raise (ValueError UserPasswordTooShort), alice) ∧
  ∃ self',
    change_password (H := demo_env) "hunter2" alice = (Ok tt, self') ∧
    verify_password (H := demo_env) self' "hunter2" = true.
Proof.
  destruct (change_password_verifies (H := demo_env) "éé" alice) as [Hshort _].
  destruct (change_password_verifies (H := demo_env) "hunter2" alice) as [_ Hlong].
  split.
  - apply Hshort. vm_compute. lia.
  - destruct Hlong as (self' & Hchange & Hverify & _); [vm_compute; lia|].
    exists self'. by split.
Defined.

Lemma login_refusals_witness :
  login (H := demo_env) "carol" "secret" (demo_db (JFloat 60000)) =
    inl (UserNotFound "carol") ∧
  login (H := demo_env) "alice" "guess" (demo_db (JFloat 60000)) = inl WrongPassword.
Proof.
  destruct (login_refusals (H := demo_env) "carol" "secret" (demo_db (JFloat 60000)))
    as [Hunknown _].
  destruct (login_refusals (H := demo_env) "alice" "guess" (demo_db (JFloat 60000)))
    as [_ Hwrong].
  split.
  - apply Hunknown. intros u Hin. apply list_elem_of_singleton in Hin.
    subst u. discriminate.
  - apply (Hwrong [] [] (User_to_dict alice)); [reflexivity| |reflexivity|discriminate].
    intros v Hv. by apply elem_of_nil in Hv.
Defined.

(** ** The portfolio of a service and portfolios.json *)

Lemma find_replace_same (uid : Z) (d : portfolio_dict) (l : list portfolio_dict) :
  owner_id d = uid → find_portfolio uid (replace_portfolio uid d l) = Some d.
Proof.
  intros Hd. induction l as [|p l IH]; cbn [replace_portfolio find_portfolio].
  - by rewrite (proj2 (Z.eqb_eq _ _) Hd).
  - destruct (owner_id p =? uid)%Z eqn:E; cbn [find_portfolio].
    + by rewrite (proj2 (Z.eqb_eq _ _) Hd).
    + by rewrite E.
Qed.

Lemma find_replace_other (uid uid' : Z) (d : portfolio_dict) (l : list portfolio_dict) :
  uid' ≠ uid → owner_id d = uid →
  find_portfolio uid' (replace_portfolio uid d l) = find_portfolio uid' l.
Proof.
  intros Hne Hd. induction l as [|p l IH]; cbn [replace_portfolio find_portfolio].
  - rewrite Hd. by rewrite (proj2 (Z.eqb_neq _ _)) by done.
  - destruct (owner_id p =? uid)%Z eqn:E; cbn [find_portfolio].
    + apply Z.eqb_eq in E. rewrite Hd, E.
      by rewrite (proj2 (Z.eqb_neq uid uid')) by done.
    + by rewrite IH.
Qed.

Lemma load_after_persist (self : PortfolioService) (db : Database) :
  load_portfolios (persist self db) =
  replace_portfolio (_user_id (user self)) (Portfolio_to_dict (_portfolio self))
    (load_portfolios db).
Proof. reflexivity. Qed.

Lemma init_after_persist (self : PortfolioService) (db : Database) :
  _owner_id (_portfolio self) = _user_id (user self) →
  well_kept (_portfolio self) →
  PortfolioService_init (user self) (persist self db) = (Ok self, persist self db).
Proof.
  intros Howner Hkept.
  unfold PortfolioService_init, _load_portfolio, bind, get.
  rewrite load_after_persist, find_replace_same by exact Howner.
  unfold lift. rewrite (portfolio_round_trip _ Hkept). unfold ret.
  by destruct self.
Qed.

(** What [_save_portfolio] writes is what the next [PortfolioService] of the
    user loads: for a service whose portfolio belongs to its user and is built
    as the package builds it, [__init__] after [_save_portfolio] returns the
    same portfolio and writes nothing. *)
Theorem saved_portfolio_is_reloaded (self : PortfolioService) (db : Database) :
  _owner_id (_portfolio self) = _user_id (user self) →
  well_kept (_portfolio self) →
  ∃ db',
    _save_portfolio (self, db) = (Ok tt, (self, db')) ∧
    PortfolioService_init (user self) db' = (Ok self, db').
Proof.
  intros Howner Hkept. exists (persist self db). split; [reflexivity|].
  by apply init_after_persist.
Qed.

Lemma saved_portfolio_is_reloaded_witness :
  ∃ db',
    _save_portfolio (rich_service, demo_db (JFloat 60000)) =
      (Ok tt, (rich_service, db')) ∧
    PortfolioService_init alice db' = (Ok rich_service, db').
Proof.
  apply (saved_portfolio_is_reloaded rich_service); [reflexivity|].
  apply well_kept_demo.
Defined.

(** [_save_portfolio] touches the portfolio of its own user only: the
    portfolio stored for any other user, users.json, rates.json and the
    history are as they were, and the list grows by one entry exactly when
    the user had none. *)
Theorem save_portfolio_keeps_other_users (self : PortfolioService) (db : Database) :
  _owner_id (_portfolio self) = _user_id (user self) →
  let db' := snd (snd (_save_portfolio (self, db))) in
  (∀ uid, uid ≠ _user_id (user self) →
          find_portfolio uid (load_portfolios db') =
          find_portfolio uid (load_portfolios db)) ∧
  length (load_portfolios db') =
    (match find_portfolio (_user_id (user self)) (load_portfolios db) with
     | Some _ => length (load_portfolios db)
     | None => S (length (load_portfolios db))
     end) ∧
  users_json db' = users_json db ∧
  rates_json db' = rates_json db ∧
  exchange_rates_json db' = exchange_rates_json db.
Proof.
  intros Howner db'. split; [|split; [|done]].
  - intros uid Hne. subst db'. change (snd (snd (_save_portfolio (self, db))))
      with (persist self db).
    rewrite load_after_persist. by apply find_replace_other.
  - subst db'. change (snd (snd (_save_portfolio (self, db))))
      with (persist self db).
    rewrite load_after_persist.
    induction (load_portfolios db) as [|p l IH];
      cbn [replace_portfolio find_portfolio length]; [done|].
    destruct (owner_id p =? _user_id (user self))%Z; cbn [length]; [done|].
    rewrite IH. by destruct (find_portfolio _ l).
Qed.

Lemma save_portfolio_keeps_other_users_witness :
  let db := demo_db (JFloat 60000) in
  let db' := snd (snd (_save_portfolio (rich_service, db))) in
  find_portfolio 2 (load_portfolios db') = find_portfolio 2 (load_portfolios db) ∧
  length (load_portfolios db') = 1%nat.
Proof.
  intros db db'.
  destruct (save_portfolio_keeps_other_users rich_service db eq_refl)
    as (Hother & Hlen & _).
  split; [by apply Hother|exact Hlen].
Defined.

(** The first [PortfolioService] of a user without a stored portfolio gets an
    empty portfolio and appends it to portfolios.json; the next one loads it
    and writes nothing. *)
Theorem portfolio_created_on_first_use (u : User) (db : Database) :
  find_portfolio (_user_id u) (load_portfolios db) = None →
  let self := {| user := u; _portfolio := Portfolio_new (_user_id u) |} in
  ∃ db',
    PortfolioService_init u db = (Ok self, db') ∧
    load_portfolios db' =
      (load_portfolios db ++ [Portfolio_to_dict (Portfolio_new (_user_id u))])%list ∧
    users_json db' = users_json db ∧
    rates_json db' = rates_json db ∧
    exchange_rates_json db' = exchange_rates_json db ∧
    PortfolioService_init u db' = (Ok self, db').
Proof.
  intros Hnone self.
  exists {| users_json := users_json db;
            portfolios_json :=
              Stored (load_portfolios db ++
                      [Portfolio_to_dict (Portfolio_new (_user_id u))])%list;
            rates_json := rates_json db;
            exchange_rates_json := exchange_rates_json db |}.
  split; [|repeat split].
  - unfold PortfolioService_init, _load_portfolio, bind, get. rewrite Hnone.
    reflexivity.
  - unfold PortfolioService_init, _load_portfolio, bind, get.
    cbn [load_portfolios loaded portfolios_json _save_json snd].
    assert (∀ l d, owner_id d = _user_id u → find_portfolio (_user_id u) l = None →
                   find_portfolio (_user_id u) (l ++ [d]) = Some d) as Hfind.
    { intros l d Hd. induction l as [|p l IH]; cbn [app find_portfolio].
      - by rewrite (proj2 (Z.eqb_eq _ _) Hd).
      - destruct (owner_id p =? _user_id u)%Z; [discriminate|exact IH]. }
    rewrite (Hfind _ (Portfolio_to_dict (Portfolio_new (_user_id u))) eq_refl Hnone).
    reflexivity.
Qed.

(** bob, the user of id 2, has no portfolio in the data directory of the
    scenario. *)
Lemma portfolio_created_on_first_use_witness :
  let bob := {| _user_id := 2; _username := "bob"; _hashed_password := "";
                _salt := ""; _registration_date := "" |} in
  ∃ db',
    PortfolioService_init bob (demo_db (JFloat 60000)) =
      (Ok {| user := bob; _portfolio := Portfolio_new 2 |}, db') ∧
    length (load_portfolios db') = 2%nat.
Proof.
  intros bob.
  destruct (portfolio_created_on_first_use bob (demo_db (JFloat 60000)) eq_refl)
    as (db' & Hinit & Hload & _).
  exists db'. split; [exact Hinit|]. by rewrite Hload.
Defined.

(** ** Sales and purchases *)

Lemma deposit_refused_eq (k : string) (x : float) (self : PortfolioService)
    (db : Database) :
  is_Some (_wallets (_portfolio self) !! k) →
  (x <=? 0)%float = true →
  on_portfolio (on_wallet k (deposit x)) (self, db) =
  (Raise (ValueError DepositNotPositive), (self, db)).
Proof.
  intros [wl Hk] Hle. unfold on_portfolio, on_wallet, deposit. rewrite Hk, Hle.
  rewrite (portfolio_insert_id _ _ _ Hk). by destruct self.
Qed.

Lemma withdraw_refused_eq (k : string) (x : float) (self : PortfolioService)
    (db : Database) :
  is_Some (_wallets (_portfolio self) !! k) →
  (x <=? 0)%float = true →
  on_portfolio (on_wallet k (withdraw x)) (self, db) =
  (Raise (ValueError WithdrawalNotPositive), (self, db)).
Proof.
  intros [wl Hk] Hle. unfold on_portfolio, on_wallet, withdraw. rewrite Hk, Hle.
  rewrite (portfolio_insert_id _ _ _ Hk). by destruct self.
Qed.

Lemma with_wallet_other (c k : string) (self : PortfolioService) :
  k ≠ upper c → wallet_balance (with_wallet c self) k = wallet_balance self k.
Proof.
  intros Hne. unfold wallet_balance. rewrite with_wallet_lookup.
  destruct (_ !! k); [done|]. by rewrite decide_False.
Qed.

(** A sale that passes the checks, of a currency other than the base: the
    amount leaves the wallet of the currency, [amount * rate] enters the base
    wallet, no other wallet changes, the portfolio written to portfolios.json
    is the one in memory, and the dictionary returned reports the amount, the
    rate, the proceeds and the two new balances. *)
Theorem sell_currency_executes `{Env} (now : clock) (c amount base_currency : string)
    (self : PortfolioService) (db : Database)
    (a : float) (cur : Currency) (r : json) (t : datetime) (proceeds : float) :
  validate_amount amount = Ok a →
  get_currency c = Ok cur →
  _get_cached_rate db now (code cur) base_currency = Ok (r, Some t, true) →
  float_mul a r = Ok proceeds →
  (proceeds <=? 0)%float = false →
  code cur ≠ upper base_currency →
  let x := balance_or_zero self (code cur) in
  let b := balance_or_zero self (upper base_currency) in
  (x <? a)%float = false →
  ∃ (result : gmap string json) (self' : PortfolioService) (db' : Database),
    sell_currency now c amount base_currency (self, db) = (Ok result, (self', db')) ∧
    balance_or_zero self' (code cur) = (x - a)%float ∧
    balance_or_zero self' (upper base_currency) = (b + proceeds)%float ∧
    (∀ k, k ≠ code cur → k ≠ upper base_currency →
          wallet_balance self' k = wallet_balance self k) ∧
    load_portfolios db' =
      replace_portfolio (_user_id (user self)) (Portfolio_to_dict (_portfolio self'))
        (load_portfolios db) ∧
    rates_json db' = rates_json db ∧
    result !! "currency" = Some (JStr (upper c)) ∧
    result !! "amount" = Some (JFloat a) ∧
    result !! "rate" = Some r ∧
    result !! "proceeds" = Some (JFloat proceeds) ∧
    result !! "base_currency" = Some (JStr base_currency) ∧
    result !! "new_balance" = Some (JFloat (x - a)) ∧
    result !! "base_balance" = Some (JFloat (b + proceeds)) ∧
    result !! "rate_fresh" = Some (JBool true).
Proof.
  intros Hamount Hcur Hrate Hmul Hpos Hne x b Hfunds.
  destruct (get_currency_code _ _ Hcur) as [_ Hup].
  rewrite (sell_commit _ _ _ _ _ _ _ _ _ _ _ Hamount Hcur Hrate Hmul Hpos Hfunds).
  cbv zeta.
  set (self0 := with_wallet base_currency (with_wallet (code cur) self)).
  set (self1 := map_balance (λ b0, b0 - a)%float (code cur) self0).
  set (self2 := map_balance (λ b0, b0 + proceeds)%float (upper base_currency) self1).
  assert (is_Some (_wallets (_portfolio self0) !! upper base_currency)) as Hbase0
    by apply with_wallet_has.
  assert (is_Some (_wallets (_portfolio self0) !! code cur)) as Hcur0.
  { apply with_wallet_keeps.
    pose proof (with_wallet_has (code cur) self) as Hw. by rewrite Hup in Hw. }
  assert (balance_or_zero self2 (code cur) = (x - a)%float) as Hx.
  { unfold self2. rewrite map_balance_ne by done.
    unfold self1. rewrite map_balance_eq by done.
    unfold self0. by rewrite !with_wallet_balance. }
  assert (balance_or_zero self2 (upper base_currency) = (b + proceeds)%float) as Hb.
  { unfold self2. rewrite map_balance_eq by by apply map_balance_has.
    unfold self1. rewrite map_balance_ne by done.
    unfold self0. by rewrite !with_wallet_balance. }
  eexists _, self2, _. split; [reflexivity|].
  rewrite Hx, Hb. repeat split.
  intros k Hk1 Hk2. unfold self2, self1, self0.
  rewrite !map_balance_lookup, !decide_False by done.
  rewrite !with_wallet_other; [done|by rewrite Hup|done].
Qed.

(** alice, who holds 100000.00 USD and 0.1 BTC, sells 0.01 BTC at 60000.0. *)
Lemma sell_currency_executes_witness :
  ∃ (result : gmap string json) (self' : PortfolioService) (db' : Database),
    sell_currency (H := demo_env) (clock_at 10) "btc" "0.01" "USD"
      (rich_service, rich_db (JFloat 60000)) = (Ok result, (self', db')) ∧
    balance_or_zero self' "BTC" = (0.1 - 0.01)%float ∧
    balance_or_zero self' "USD" = 100600%float ∧
    result !! "proceeds" = Some (JFloat 600).
Proof.
  pose (btc := CryptoCurrency "BTC" "Bitcoin" "SHA-256" 1.12e12).
  pose (t := {| micros := 1704067200000000; aware := false |}).
  destruct (sell_currency_executes (H := demo_env) (clock_at 10) "btc" "0.01" "USD"
              rich_service (rich_db (JFloat 60000)) 0.01%float btc (JFloat 60000) t
              600%float eq_refl eq_refl eq_refl eq_refl eq_refl
              ltac:(discriminate) eq_refl)
    as (result & self' & db' & Hrun & Hx & Hb & _ & _ & _ & _ & _ & _ & Hp & _).
  exists result, self', db'. repeat split; assumption.
Defined.

(** A sale whose proceeds are not positive (a negative cached rate, or a
    product that underflows to zero) is half done: the amount has left the
    wallet of the currency in memory when [deposit] raises its [ValueError],
    and nothing is written, so portfolios.json still holds the old
    balances. *)
Theorem sell_without_proceeds_debits_memory `{Env} (now : clock)
    (c amount base_currency : string) (self : PortfolioService) (db : Database)
    (a : float) (cur : Currency) (r : json) (t : datetime) (proceeds : float) :
  validate_amount amount = Ok a →
  get_currency c = Ok cur →
  _get_cached_rate db now (code cur) base_currency = Ok (r, Some t, true) →
  float_mul a r = Ok proceeds →
  (proceeds <=? 0)%float = true →
  let x := balance_or_zero self (code cur) in
  (x <? a)%float = false →
  ∃ self' : PortfolioService,
    sell_currency now c amount base_currency (self, db) =
      (Raise (ValueError DepositNotPositive), (self', db)) ∧
    balance_or_zero self' (code cur) = (x - a)%float.
Proof.
  intros Hamount Hcur Hrate Hmul Hle x Hfunds.
  destruct (get_currency_code _ _ Hcur) as [_ Hup].
  pose proof (validate_amount_positive _ _ Hamount) as Hpos.
  set (self0 := with_wallet base_currency (with_wallet (code cur) self)).
  assert (is_Some (_wallets (_portfolio self0) !! upper base_currency)) as Hbase0
    by apply with_wallet_has.
  assert (is_Some (_wallets (_portfolio self0) !! code cur)) as Hcur0.
  { apply with_wallet_keeps.
    pose proof (with_wallet_has (code cur) self) as Hw. by rewrite Hup in Hw. }
  exists (map_balance (λ b0, b0 - a)%float (code cur) self0). split.
  - unfold sell_currency.
    rewrite (bind_ok _ _ _ (self0, db) (a, r, code cur, upper base_currency, true)).
    2:{ rewrite (prepare_sell _ _ _ _ _ _ _ _ _ _ Hamount Hcur Hrate).
        cbv zeta. fold x. by rewrite Hfunds. }
    rewrite (bind_ok _ _ _ (self0, db) proceeds) by (unfold lift; by rewrite Hmul).
    erewrite bind_ok.
    2:{ apply withdraw_eq; [done|done|].
        unfold self0. rewrite !with_wallet_balance. exact Hfunds. }
    apply bind_raise. apply deposit_refused_eq; [|done].
    by apply map_balance_has.
  - rewrite map_balance_eq by done. unfold self0. by rewrite !with_wallet_balance.
Qed.

(** The cached rate of BTC_USD is -1.0 and alice sells 0.01 of her 0.1 BTC. *)
Lemma sell_without_proceeds_debits_memory_witness :
  ∃ self' : PortfolioService,
    sell_currency (H := demo_env) (clock_at 10) "btc" "0.01" "USD"
      (rich_service, rich_db (JFloat (-1))) =
      (Raise (ValueError DepositNotPositive), (self', rich_db (JFloat (-1)))) ∧
    balance_or_zero self' "BTC" = (0.1 - 0.01)%float.
Proof.
  pose (btc := CryptoCurrency "BTC" "Bitcoin" "SHA-256" 1.12e12).
  pose (t := {| micros := 1704067200000000; aware := false |}).
  exact (sell_without_proceeds_debits_memory (H := demo_env) (clock_at 10)
           "btc" "0.01" "USD" rich_service (rich_db (JFloat (-1))) 0.01%float btc
           (JFloat (-1)) t (-0.01)%float eq_refl eq_refl eq_refl eq_refl eq_refl
           eq_refl).
Defined.

(** A purchase whose cost is not positive passes the funds check and is then
    refused by [withdraw]: the [ValueError] leaves every wallet and the data
    directory as they were. *)
Theorem buy_without_cost_is_refused `{Env} (now : clock)
    (c amount base_currency : string) (self : PortfolioService) (db : Database)
    (a : float) (cur : Currency) (r : json) (t : datetime) (cost : float) :
  validate_amount amount = Ok a →
  get_currency c = Ok cur →
  _get_cached_rate db now (code cur) base_currency = Ok (r, Some t, true) →
  float_mul a r = Ok cost →
  (cost <=? 0)%float = true →
  (balance_or_zero self (upper base_currency) <? cost)%float = false →
  ∃ self' : PortfolioService,
    buy_currency now c amount base_currency (self, db) =
      (Raise (ValueError WithdrawalNotPositive), (self', db)) ∧
    balances_kept self self'.
Proof.
  intros Hamount Hcur Hrate Hmul Hle Hfunds.
  set (self0 := with_wallet (code cur) (with_wallet base_currency self)).
  exists self0. split.
  - unfold buy_currency.
    rewrite (bind_ok _ _ _ (self0, db) (a, r, upper base_currency, code cur, true)).
    2:{ rewrite (prepare_buy _ _ _ _ _ _ _ _ _ _ Hamount Hcur Hrate _ Hmul).
        cbv zeta. by rewrite Hfunds. }
    rewrite (bind_ok _ _ _ (self0, db) cost) by (unfold lift; by rewrite Hmul).
    apply bind_raise. apply withdraw_refused_eq; [|done].
    apply with_wallet_keeps, with_wallet_has.
  - do 2 apply with_wallet_kept. apply balances_kept_refl.
Qed.

Lemma buy_without_cost_is_refused_witness :
  ∃ self' : PortfolioService,
    buy_currency (H := demo_env) (clock_at 10) "btc" "0.01" "USD"
      (demo_service, demo_db (JFloat (-1))) =
      (Raise (ValueError WithdrawalNotPositive), (self', demo_db (JFloat (-1)))) ∧
    balances_kept demo_service self'.
Proof.
  pose (btc := CryptoCurrency "BTC" "Bitcoin" "SHA-256" 1.12e12).
  pose (t := {| micros := 1704067200000000; aware := false |}).
  exact (buy_without_cost_is_refused (H := demo_env) (clock_at 10)
           "btc" "0.01" "USD" demo_service (demo_db (JFloat (-1))) 0.01%float btc
           (JFloat (-1)) t (-0.01)%float eq_refl eq_refl eq_refl eq_refl eq_refl
           eq_refl).
Defined.

Lemma sub_not_negative (x a : float) :
  (x <? 0)%float = false → (a <=? 0)%float = false → (x <? a)%float = false →
  (x - a <? 0)%float = false.
Proof.
  intros Hx Ha Hlow.
  pose proof (apply_op_not_negative (Withdraw a)
                {| currency_code := ""; _balance := x |} Hx) as Hop.
  unfold apply_op, withdraw in Hop. cbn [_balance] in Hop.
  by rewrite Ha, Hlow in Hop.
Qed.

Lemma add_not_negative (x a : float) :
  (x <? 0)%float = false → (a <=? 0)%float = false → (x + a <? 0)%float = false.
Proof.
  intros Hx Ha.
  pose proof (apply_op_not_negative (Deposit a)
                {| currency_code := ""; _balance := x |} Hx) as Hop.
  unfold apply_op, deposit in Hop. cbn [_balance] in Hop.
  by rewrite Ha in Hop.
Qed.

Lemma with_wallet_well_kept (c : string) (self : PortfolioService) :
  well_kept (_portfolio self) → well_kept (_portfolio (with_wallet c self)).
Proof.
  intros Hkept k w. rewrite with_wallet_lookup.
  destruct (_wallets (_portfolio self) !! k) as [w0|] eqn:E.
  - intros [= <-]. by apply Hkept.
  - case_decide as Hk; [|done]. intros [= <-]. subst k.
    unfold Wallet_new. cbn. done.
Qed.

Lemma map_balance_well_kept (f : float → float) (k : string) (self : PortfolioService) :
  well_kept (_portfolio self) →
  (∀ w, _wallets (_portfolio self) !! k = Some w → (f (_balance w) <? 0)%float = false) →
  well_kept (_portfolio (map_balance f k self)).
Proof.
  intros Hkept Hf i w. unfold map_balance. cbn [_portfolio _wallets].
  destruct (decide (k = i)) as [->|Hne].
  - rewrite lookup_alter_eq.
    destruct (_wallets (_portfolio self) !! i) as [w0|] eqn:E; [|done].
    intros [= <-]. cbn. split; [by apply (Hkept i w0)|by apply Hf].
  - rewrite lookup_alter_ne by done. apply Hkept.
Qed.

Lemma with_wallet_owner (c : string) (self : PortfolioService) :
  _owner_id (_portfolio (with_wallet c self)) = _owner_id (_portfolio self) ∧
  user (with_wallet c self) = user self.
Proof.
  unfold with_wallet, add_currency. cbn. by destruct (_ !! upper c).
Qed.

(** A sale that has returned is on disk: the next [PortfolioService] of the
    user loads the portfolio the sale left in memory. *)
Theorem sale_survives_reload `{Env} (now : clock) (c amount base_currency : string)
    (self : PortfolioService) (db : Database)
    (a : float) (cur : Currency) (r : json) (t : datetime) (proceeds : float) :
  _owner_id (_portfolio self) = _user_id (user self) →
  well_kept (_portfolio self) →
  validate_amount amount = Ok a →
  get_currency c = Ok cur →
  _get_cached_rate db now (code cur) base_currency = Ok (r, Some t, true) →
  float_mul a r = Ok proceeds →
  (proceeds <=? 0)%float = false →
  (balance_or_zero self (code cur) <? a)%float = false →
  ∃ (result : gmap string json) (self' : PortfolioService) (db' : Database),
    sell_currency now c amount base_currency (self, db) = (Ok result, (self', db')) ∧
    PortfolioService_init (user self) db' = (Ok self', db').
Proof.
  intros Howner Hkept Hamount Hcur Hrate Hmul Hpos Hfunds.
  destruct (get_currency_code _ _ Hcur) as [_ Hup].
  pose proof (validate_amount_positive _ _ Hamount) as Ha.
  rewrite (sell_commit _ _ _ _ _ _ _ _ _ _ _ Hamount Hcur Hrate Hmul Hpos Hfunds).
  cbv zeta.
  set (self0 := with_wallet base_currency (with_wallet (code cur) self)).
  set (self1 := map_balance (λ b0, b0 - a)%float (code cur) self0).
  set (self2 := map_balance (λ b0, b0 + proceeds)%float (upper base_currency) self1).
  assert (well_kept (_portfolio self0)) as Hk0
    by (do 2 apply with_wallet_well_kept; exact Hkept).
  assert (well_kept (_portfolio self1)) as Hk1.
  { apply map_balance_well_kept; [exact Hk0|]. intros w Hw.
    apply sub_not_negative; [by apply (Hk0 _ _ Hw)|exact Ha|].
    assert (balance_or_zero self0 (code cur) = _balance w) as <-
      by (unfold balance_or_zero, wallet_balance; by rewrite Hw).
    unfold self0. by rewrite !with_wallet_balance. }
  assert (well_kept (_portfolio self2)) as Hk2.
  { apply map_balance_well_kept; [exact Hk1|]. intros w Hw.
    apply add_not_negative; [by apply (Hk1 _ _ Hw)|exact Hpos]. }
  assert (user self2 = user self ∧
          _owner_id (_portfolio self2) = _user_id (user self)) as [Hu Ho].
  { unfold self2, self1, map_balance. cbn [user _portfolio _owner_id].
    unfold self0.
    destruct (with_wallet_owner base_currency (with_wallet (code cur) self))
      as [-> ->].
    destruct (with_wallet_owner (code cur) self) as [-> ->]. by split. }
  eexists _, self2, _. split; [reflexivity|].
  rewrite <- Hu. apply init_after_persist; [|exact Hk2]. by rewrite Hu.
Qed.

Lemma sale_survives_reload_witness :
  ∃ (result : gmap string json) (self' : PortfolioService) (db' : Database),
    sell_currency (H := demo_env) (clock_at 10) "btc" "0.01" "USD"
      (rich_service, rich_db (JFloat 60000)) = (Ok result, (self', db')) ∧
    PortfolioService_init alice db' = (Ok self', db').
Proof.
  pose (btc := CryptoCurrency "BTC" "Bitcoin" "SHA-256" 1.12e12).
  pose (t := {| micros := 1704067200000000; aware := false |}).
  exact (sale_survives_reload (H := demo_env) (clock_at 10) "btc" "0.01" "USD"
           rich_service (rich_db (JFloat 60000)) 0.01%float btc (JFloat 60000) t
           600%float eq_refl well_kept_demo eq_refl eq_refl eq_refl eq_refl eq_refl
           eq_refl).
Defined.

(** ** Validation of the arguments of a trade *)

(** A trade checks the amount first and the currency code second: an amount
    that is not a number, or not positive, is reported whatever the code is,
    an unknown code is reported with its upper-case form, and in both cases
    nothing has been read from the cache or changed. *)
Theorem trade_validates_arguments `{Env} (now : clock)
    (c amount base_currency : string) (w : World) :
  (py_float amount = None →
   buy_currency now c amount base_currency w = (Raise (ValueError AmountNotNumber), w) ∧
   sell_currency now c amount base_currency w = (Raise (ValueError AmountNotNumber), w)) ∧
  (∀ v, py_float amount = Some v → (v <=? 0)%float = true →
   buy_currency now c amount base_currency w = (Raise (ValueError AmountNotPositive), w) ∧
   sell_currency now c amount base_currency w = (Raise (ValueError AmountNotPositive), w)) ∧
  (∀ v, py_float amount = Some v → (v <=? 0)%float = false →
   _currencies !! upper c = None →
   buy_currency now c amount base_currency w =
     (Raise (CurrencyNotFoundError (upper c)), w) ∧
   sell_currency now c amount base_currency w =
     (Raise (CurrencyNotFoundError (upper c)), w)).
Proof.
  split; [|split].
  - intros Hnone. split; apply bind_raise;
      unfold _prepare_transaction, bind, lift, validate_amount; by rewrite Hnone.
  - intros v Hv Hle. split; apply bind_raise;
      unfold _prepare_transaction, bind, lift, validate_amount; by rewrite Hv, Hle.
  - intros v Hv Hpos Hcode. split; apply bind_raise;
      unfold _prepare_transaction, bind, lift, validate_amount, get_currency;
      by rewrite Hv, Hpos, Hcode.
Qed.

Lemma trade_validates_arguments_witness :
  let w := (demo_service, demo_db (JFloat 60000)) in
  sell_currency (H := demo_env) (clock_at 10) "xyz" "abc" "USD" w =
    (Raise (ValueError AmountNotNumber), w) ∧
  buy_currency (H := demo_env) (clock_at 10) "xyz" "5" "USD" w =
    (Raise (CurrencyNotFoundError "XYZ"), w).
Proof.
  intros w.
  destruct (trade_validates_arguments (H := demo_env) (clock_at 10) "xyz" "abc" "USD" w)
    as (Hnumber & _ & _).
  destruct (trade_validates_arguments (H := demo_env) (clock_at 10) "xyz" "5" "USD" w)
    as (_ & _ & Hcode).
  split.
  - exact (proj2 (Hnumber eq_refl)).
  - exact (proj1 (Hcode 5%float eq_refl eq_refl eq_refl)).
Defined.

(** ** The currency registry *)

(** On a code that is ASCII text, where [upper] is [str.upper()],
    [get_currency] ignores the case: it finds the currency whose code is the
    upper-case form of the argument, or raises [CurrencyNotFoundError] with
    that form; the eleven codes of the registry are found in either case. *)
Theorem get_currency_ignores_case (c : string) :
  is_ascii c = true →
  get_currency (upper c) = get_currency c ∧
  (∀ cur, get_currency c = Ok cur → code cur = upper c) ∧
  (∀ e, get_currency c = Raise e → e = CurrencyNotFoundError (upper c)) ∧
  (upper c ∈ (registry_entries.*1) ↔ ∃ cur, get_currency c = Ok cur).
Proof.
  intros _. repeat split.
  - unfold get_currency. by rewrite upper_idem.
  - intros cur Hcur. by destruct (get_currency_code _ _ Hcur).
  - unfold get_currency. destruct (_currencies !! upper c); [discriminate|].
    by intros e [= <-].
  - intros Hin. unfold get_currency.
    destruct (_currencies !! upper c) as [cur|] eqn:E; [eauto|].
    apply not_elem_of_list_to_map in E. done.
  - intros [cur Hcur]. unfold get_currency in Hcur.
    destruct (_currencies !! upper c) as [cur'|] eqn:E; [|discriminate].
    apply elem_of_list_to_map_2 in E.
    apply list_elem_of_fmap. by exists (upper c, cur').
Qed.

(** ["Eth"] is found as ETH, and ["xrp"] is refused as XRP. *)
Lemma get_currency_ignores_case_witness :
  get_currency "ETH" = get_currency "Eth" ∧
  (∃ cur, get_currency "Eth" = Ok cur ∧ code cur = "ETH") ∧
  get_currency "xrp" = Raise (CurrencyNotFoundError "XRP").
Proof.
  destruct (get_currency_ignores_case "Eth" eq_refl) as (Hcase & Hcode & _ & Hfound).
  destruct (get_currency_ignores_case "xrp" eq_refl) as (_ & _ & Hrefused & _).
  split; [exact Hcase|]. split.
  - destruct (proj1 Hfound) as [cur Hcur]; [compute_done|].
    exists cur. split; [exact Hcur|]. by apply Hcode.
  - destruct (get_currency "xrp") as [cur|e] eqn:Hget; [discriminate Hget|].
    by rewrite (Hrefused e eq_refl).
Defined.

(** ** Reading a rate *)

Lemma cached_rate_fresh `{Env} (db : Database) (now : clock)
    (from_cur to_cur : string) (r : json) (u : option datetime) :
  _get_cached_rate db now from_cur to_cur = Ok (r, u, true) →
  ∃ t, u = Some t ∧ is_fresh_at now t = true.
Proof.
  unfold _get_cached_rate.
  destruct (py_get (load_rates_cache db) "pairs" (JDict ∅)) as [ps|]; [|discriminate].
  simpl. destruct (py_get ps _ JNull) as [pi|]; [|discriminate].
  simpl. destruct (negb (truthy pi)); [discriminate|].
  destruct (py_get pi "rate" JNull) as [rate|]; [|discriminate].
  simpl. destruct (py_get pi "updated_at" JNull) as [ua|]; [|discriminate].
  simpl. destruct (negb (truthy rate) || negb (truthy ua))%bool; [discriminate|].
  destruct (py_replace_Z ua) as [text|]; [|discriminate].
  simpl. destruct (fromisoformat text) as [t|]; [|discriminate].
  intros [= _ <- Hf]. eauto.
Qed.

(** [get_rate] returns exactly when both codes are in the registry and the
    cache has a fresh rate for the pair of their upper-case forms; the rate it
    returns is then non-zero and younger than the TTL. *)
Theorem get_rate_returns_fresh_rates `{Env} (db : Database) (now : clock)
    (from_code to_code : string) (r : json) (u : option datetime) :
  get_rate db now from_code to_code = inr (r, u) ↔
  ∃ (from_cur to_cur : Currency) (t : datetime),
    get_currency from_code = Ok from_cur ∧
    get_currency to_code = Ok to_cur ∧
    _get_cached_rate db now (upper from_code) (upper to_code) = Ok (r, Some t, true) ∧
    u = Some t ∧
    truthy r = true ∧
    (age now t < RATES_TTL * 1000000)%Z.
Proof.
  unfold get_rate. split.
  - destruct (get_currency from_code) as [from_cur|] eqn:Hfrom; [|discriminate].
    destruct (get_currency to_code) as [to_cur|] eqn:Hto; [|discriminate].
    destruct (get_currency_code _ _ Hfrom) as [-> _].
    destruct (get_currency_code _ _ Hto) as [-> _].
    destruct (_get_cached_rate db now (upper from_code) (upper to_code))
      as [[[rate ua] fresh]|] eqn:Hrate; [|discriminate].
    destruct (is_none rate); [discriminate|].
    destruct fresh; [|discriminate]. intros [= -> ->].
    destruct (cached_rate_fresh _ _ _ _ _ _ Hrate) as (t & -> & Hfresh).
    exists from_cur, to_cur, t. repeat split.
    + by apply (cached_rate_truthy _ _ _ _ _ _ _ Hrate).
    + by apply Z.ltb_lt.
  - intros (from_cur & to_cur & t & Hfrom & Hto & Hrate & -> & Hr & _).
    rewrite Hfrom, Hto.
    destruct (get_currency_code _ _ Hfrom) as [-> _].
    destruct (get_currency_code _ _ Hto) as [-> _].
    rewrite Hrate. by rewrite (truthy_not_none _ Hr).
Qed.

Lemma get_rate_returns_fresh_rates_witness :
  get_rate (H := demo_env) (demo_db (JFloat 60000)) (clock_at 10) "btc" "usd" =
  inr (JFloat 60000, Some {| micros := 1704067200000000; aware := false |}).
Proof.
  apply (get_rate_returns_fresh_rates (H := demo_env)).
  exists (CryptoCurrency "BTC" "Bitcoin" "SHA-256" 1.12e12),
         (FiatCurrency "USD" "US Dollar" "United States"),
         {| micros := 1704067200000000; aware := false |}.
  repeat split; vm_compute; reflexivity.
Defined.

(** The refusals of [get_rate] for a known first code: a second code that is
    not in the registry is a [CurrencyNotFoundError] with its upper-case form,
    and a pair that is not in the cache and a rate as old as the TTL are
    reported with the codes as they were passed. *)
Theorem get_rate_refusals `{Env} (db : Database) (now : clock)
    (from_code to_code : string) (from_cur to_cur : Currency) :
  get_currency from_code = Ok from_cur →
  (_currencies !! upper to_code = None →
   get_rate db now from_code to_code =
   inl (Raised (CurrencyNotFoundError (upper to_code)))) ∧
  (get_currency to_code = Ok to_cur →
   (_get_cached_rate db now (upper from_code) (upper to_code) = Ok (JNull, None, false) →
    get_rate db now from_code to_code = inl (RateNotCached from_code to_code)) ∧
   (∀ r t, _get_cached_rate db now (upper from_code) (upper to_code) =
           Ok (r, Some t, false) →
    get_rate db now from_code to_code =
    inl (Raised (ApiRequestError (RateStale from_code to_code))))).
Proof.
  intros Hfrom. destruct (get_currency_code _ _ Hfrom) as [Hcf _].
  unfold get_rate. rewrite Hfrom. split.
  - intros Hnone. unfold get_currency at 1. by rewrite Hnone.
  - intros Hto. destruct (get_currency_code _ _ Hto) as [Hct _].
    rewrite Hto, Hcf, Hct. split.
    + by intros ->.
    + intros r t Hrate. rewrite Hrate.
      by rewrite (truthy_not_none _ (cached_rate_truthy _ _ _ _ _ _ _ Hrate)).
Qed.

Lemma get_rate_refusals_witness :
  get_rate (H := demo_env) (demo_db (JFloat 60000)) (clock_at 10) "btc" "xyz" =
    inl (Raised (CurrencyNotFoundError "XYZ")) ∧
  get_rate (H := demo_env) (demo_db (JFloat 60000)) (clock_at 10) "btc" "eur" =
    inl (RateNotCached "btc" "eur") ∧
  get_rate (H := demo_env) (demo_db (JFloat 60000)) (clock_at 600) "btc" "usd" =
    inl (Raised (ApiRequestError (RateStale "btc" "usd"))).
Proof.
  pose (btc := CryptoCurrency "BTC" "Bitcoin" "SHA-256" 1.12e12).
  split; [|split].
  - exact (proj1 (get_rate_refusals (H := demo_env) (demo_db (JFloat 60000))
                    (clock_at 10) "btc" "xyz" btc btc eq_refl) eq_refl).
  - exact (proj1 (proj2 (get_rate_refusals (H := demo_env) (demo_db (JFloat 60000))
                           (clock_at 10) "btc" "eur" btc
                           (FiatCurrency "EUR" "Euro" "Eurozone") eq_refl) eq_refl)
             eq_refl).
  - exact (proj2 (proj2 (get_rate_refusals (H := demo_env) (demo_db (JFloat 60000))
                           (clock_at 600) "btc" "usd" btc
                           (FiatCurrency "USD" "US Dollar" "United States") eq_refl)
                    eq_refl)
             (JFloat 60000) {| micros := 1704067200000000; aware := false |} eq_refl).
Defined.

(** ** Committed rates and the lookup *)

Lemma save_current_rates_eq (rates : gmap string json)
    (source_name current_time : string) (db : Database)
    (cache old : gmap string json) :
  load_rates_cache db = JDict cache →
  cache !! "pairs" = Some (JDict old) →
  save_current_rates rates source_name current_time db =
  (Ok tt,
   {| users_json := users_json db;
      portfolios_json := portfolios_json db;
      rates_json :=
        Stored (JDict (<["last_refresh" := JStr current_time]>
                  (<["pairs" := JDict ((new_pair source_name current_time <$> rates)
                                       ∪ old)]> cache)));
      exchange_rates_json := exchange_rates_json db |}).
Proof.
  intros Hload Hold.
  unfold save_current_rates, bind, get, lift. rewrite Hload. simpl.
  rewrite bool_decide_eq_true_2 by (rewrite Hold; eauto).
  simpl. by rewrite Hold.
Qed.

Lemma cached_pairs_after_commit (rates : gmap string json)
    (source_name current_time : string) (db : Database)
    (cache old : gmap string json) :
  load_rates_cache db = JDict cache →
  cache !! "pairs" = Some (JDict old) →
  cached_pairs (snd (save_current_rates rates source_name current_time db)) =
  Some ((new_pair source_name current_time <$> rates) ∪ old).
Proof.
  intros Hload Hold. rewrite (save_current_rates_eq _ _ _ _ _ _ Hload Hold).
  unfold cached_pairs. cbn [snd load_rates_cache rates_json loaded].
  by rewrite lookup_insert_ne, lookup_insert_eq.
Qed.

Lemma cached_rate_same_entry `{Env} (db db' : Database) (now : clock)
    (from_cur to_cur : string) (pairs pairs' : gmap string json) :
  cached_pairs db = Some pairs →
  cached_pairs db' = Some pairs' →
  pairs' !! pair_key from_cur to_cur = pairs !! pair_key from_cur to_cur →
  _get_cached_rate db' now from_cur to_cur = _get_cached_rate db now from_cur to_cur.
Proof.
  intros Hp Hp' Hsame. unfold _get_cached_rate.
  rewrite (cached_pairs_get _ _ Hp), (cached_pairs_get _ _ Hp'). simpl.
  by rewrite Hsame.
Qed.

(** What [save_current_rates] commits is what [_get_cached_rate] finds: a
    non-zero rate committed under the key of a pair is returned for that pair
    with the time of the commit, a zero rate committed is reported as no rate,
    and the lookup of a pair that was not committed gives what it gave
    before. *)
Theorem committed_rate_is_found `{Env} (rates : gmap string json)
    (source_name current_time : string) (db : Database)
    (cache old : gmap string json) :
  load_rates_cache db = JDict cache →
  cache !! "pairs" = Some (JDict old) →
  let db' := snd (save_current_rates rates source_name current_time db) in
  (∀ now from_cur to_cur r t,
     rates !! pair_key from_cur to_cur = Some r → truthy r = true →
     current_time ≠ "" → fromisoformat (replace_Z current_time) = Some t →
     _get_cached_rate db' now from_cur to_cur = Ok (r, Some t, is_fresh_at now t)) ∧
  (∀ now from_cur to_cur r,
     rates !! pair_key from_cur to_cur = Some r → truthy r = false →
     _get_cached_rate db' now from_cur to_cur = Ok (JNull, None, false)) ∧
  (∀ now from_cur to_cur,
     rates !! pair_key from_cur to_cur = None →
     _get_cached_rate db' now from_cur to_cur =
     _get_cached_rate db now from_cur to_cur).
Proof.
  intros Hload Hold db'.
  pose proof (cached_pairs_after_commit rates source_name current_time _ _ _ Hload Hold)
    as Hpairs'. fold db' in Hpairs'.
  assert (cached_pairs db = Some old) as Hpairs
    by (unfold cached_pairs; by rewrite Hload, Hold).
  assert (∀ k r, rates !! k = Some r →
            ((new_pair source_name current_time <$> rates) ∪ old) !! k =
            Some (new_pair source_name current_time r)) as Hnew.
  { intros k r Hk. apply lookup_union_Some_l. by rewrite lookup_fmap, Hk. }
  split; [|split].
  - intros now from_cur to_cur r t Hk Hr Hne Hparse.
    eapply (cached_rate_stored db' now from_cur to_cur _ Hpairs'
              _ (Hnew _ _ Hk) r current_time t); try done.
  - intros now from_cur to_cur r Hk Hr.
    eapply (cached_rate_no_rate db' now from_cur to_cur _ Hpairs' _ (Hnew _ _ Hk)).
    right. exists r. by split.
  - intros now from_cur to_cur Hk.
    apply (cached_rate_same_entry _ _ _ _ _ _ _ Hpairs Hpairs').
    apply lookup_union_r. by rewrite lookup_fmap, Hk.
Qed.

(** ETH_USD is committed at 3000.0 ten minutes after midnight, to the cache of
    the scenario: it is fresh a minute later, and BTC_USD is as it was. *)
Lemma committed_rate_is_found_witness :
  let db := demo_db (JFloat 60000) in
  let db' := snd (save_current_rates {[ "ETH_USD" := JFloat 3000 ]}
                    "coingecko" "2024-01-01T00:10:00" db) in
  _get_cached_rate (H := demo_env) db' (clock_at 660) "eth" "usd" =
    Ok (JFloat 3000, Some {| micros := 1704067800000000; aware := false |}, true) ∧
  _get_cached_rate (H := demo_env) db' (clock_at 660) "btc" "usd" =
    _get_cached_rate (H := demo_env) db (clock_at 660) "btc" "usd".
Proof.
  intros db db'.
  destruct (committed_rate_is_found (H := demo_env) {[ "ETH_USD" := JFloat 3000 ]}
              "coingecko" "2024-01-01T00:10:00" db _ _ eq_refl eq_refl)
    as (Hfound & _ & Hother).
  split.
  - apply (Hfound (clock_at 660) "eth" "usd" (JFloat 3000)
             {| micros := 1704067800000000; aware := false |});
      try reflexivity. discriminate.
  - apply Hother. reflexivity.
Defined.

(** Two commits in a row give the union of the old pairs and of both sets of
    rates, each key holding what was written to it last, and [last_refresh]
    is the time of the second commit. *)
Theorem commits_compose (rates1 rates2 : gmap string json)
    (source1 time1 source2 time2 : string) (db : Database)
    (cache old : gmap string json) :
  load_rates_cache db = JDict cache →
  cache !! "pairs" = Some (JDict old) →
  let run1 := save_current_rates rates1 source1 time1 db in
  let run2 := save_current_rates rates2 source2 time2 (snd run1) in
  fst run1 = Ok tt ∧ fst run2 = Ok tt ∧
  ∃ pairs : gmap string json,
    cached_pairs (snd run2) = Some pairs ∧
    dom pairs = dom old ∪ dom rates1 ∪ dom rates2 ∧
    (∀ k r, rates2 !! k = Some r → pairs !! k = Some (new_pair source2 time2 r)) ∧
    (∀ k r, rates2 !! k = None → rates1 !! k = Some r →
            pairs !! k = Some (new_pair source1 time1 r)) ∧
    (∀ k, rates2 !! k = None → rates1 !! k = None → pairs !! k = old !! k) ∧
    py_get (load_rates_cache (snd run2)) "last_refresh" JNull = Ok (JStr time2).
Proof.
  intros Hload Hold run1 run2.
  pose proof (save_current_rates_eq rates1 source1 time1 _ _ _ Hload Hold) as H1.
  fold run1 in H1.
  set (pairs1 := (new_pair source1 time1 <$> rates1) ∪ old) in *.
  set (cache1 := <["last_refresh" := JStr time1]> (<["pairs" := JDict pairs1]> cache)) in *.
  assert (load_rates_cache (snd run1) = JDict cache1) as Hload1 by (by rewrite H1).
  assert (cache1 !! "pairs" = Some (JDict pairs1)) as Hold1
    by (unfold cache1; by rewrite lookup_insert_ne, lookup_insert_eq).
  pose proof (save_current_rates_eq rates2 source2 time2 _ _ _ Hload1 Hold1) as H2.
  fold run2 in H2.
  split; [by rewrite H1|]. split; [by rewrite H2|].
  exists ((new_pair source2 time2 <$> rates2) ∪ pairs1). repeat split.
  - rewrite H2. unfold cached_pairs. cbn [snd load_rates_cache rates_json loaded].
    by rewrite lookup_insert_ne, lookup_insert_eq.
  - unfold pairs1. rewrite !dom_union_L, !dom_fmap_L.
    apply set_eq. intros x. rewrite !elem_of_union. tauto.
  - intros k r Hk. apply lookup_union_Some_l. by rewrite lookup_fmap, Hk.
  - intros k r Hk2 Hk1. rewrite lookup_union_r by (by rewrite lookup_fmap, Hk2).
    apply lookup_union_Some_l. by rewrite lookup_fmap, Hk1.
  - intros k Hk2 Hk1. rewrite lookup_union_r by (by rewrite lookup_fmap, Hk2).
    apply lookup_union_r. by rewrite lookup_fmap, Hk1.
  - rewrite H2. cbn [snd load_rates_cache rates_json loaded py_get].
    by rewrite lookup_insert_eq.
Qed.

Lemma commits_compose_witness :
  let run1 := save_current_rates {[ "ETH_USD" := JFloat 3000 ]}
                "coingecko" "2024-01-01T00:00:00" (demo_db (JFloat 60000)) in
  let run2 := save_current_rates {[ "ETH_USD" := JFloat 3100 ]}
                "coingecko" "2024-01-01T00:10:00" (snd run1) in
  ∃ pairs : gmap string json,
    cached_pairs (snd run2) = Some pairs ∧
    pairs !! "ETH_USD" =
      Some (new_pair "coingecko" "2024-01-01T00:10:00" (JFloat 3100)) ∧
    pairs !! "BTC_USD" =
      Some (new_pair "coingecko" "2024-01-01T00:00:00" (JFloat 60000)).
Proof.
  intros run1 run2.
  destruct (commits_compose {[ "ETH_USD" := JFloat 3000 ]} {[ "ETH_USD" := JFloat 3100 ]}
              "coingecko" "2024-01-01T00:00:00" "coingecko" "2024-01-01T00:10:00"
              (demo_db (JFloat 60000)) _ _ eq_refl eq_refl)
    as (_ & _ & pairs & Hpairs & _ & Hsecond & _ & Hold & _).
  exists pairs. split; [exact Hpairs|]. split.
  - by apply Hsecond.
  - by rewrite Hold.
Defined.

(** ** A run of the updater *)

Lemma save_exchange_rate_eq (data : rate_data) (stamp0 now_iso : string) (db : Database) :
  save_exchange_rate data stamp0 now_iso db =
  (Ok tt,
   {| users_json := users_json db;
      portfolios_json := portfolios_json db;
      rates_json := rates_json db;
      exchange_rates_json :=
        Stored (let history :=
                  (load_exchange_rates_history db ++
                   [exchange_rate_record data (_generate_rate_id data stamp0) now_iso])%list in
                if (history_cap <? length history)%nat then last_entries history
                else history) |}).
Proof. reflexivity. Qed.

Lemma capped_append_length (history : list json) (record : json) :
  (length history ≤ history_cap)%nat →
  length (let h := (history ++ [record])%list in
          if (history_cap <? length h)%nat then last_entries h else h) =
  Nat.min history_cap (S (length history)).
Proof.
  intros Hlen. cbv zeta. rewrite length_app. cbn [length].
  destruct (Nat.ltb_spec history_cap (length history + 1)) as [Hbig|Hsmall].
  - rewrite last_entries_length by (rewrite length_app; cbn [length]; lia). lia.
  - rewrite length_app. cbn [length]. lia.
Qed.

Lemma recorded_cons (item : string * json) (items : list (string * json)) :
  recorded (item :: items) =
  ((if decide (length (split_on "_" (fst item)) = 2%nat) then 1 else 0) +
   recorded items)%nat.
Proof.
  unfold recorded. rewrite filter_cons.
  destruct (decide (length (split_on "_" (fst item)) = 2%nat)); reflexivity.
Qed.

Lemma record_pairs_effect (clk : nat → time_reading) (source_name : string)
    (items : list (string * json)) (db : Database) (n : nat) :
  (length (load_exchange_rates_history db) ≤ history_cap)%nat →
  ∃ db',
    record_pairs clk source_name items (db, n) =
      (Ok tt, (db', n + 3 * recorded items)%nat) ∧
    length (load_exchange_rates_history db') =
      Nat.min history_cap (length (load_exchange_rates_history db) + recorded items) ∧
    users_json db' = users_json db ∧
    portfolios_json db' = portfolios_json db ∧
    rates_json db' = rates_json db.
Proof.
  revert db n. induction items as [|item items IH]; intros db n Hlen.
  - exists db. unfold recorded. cbn [filter list_filter length record_pairs ret Nat.mul].
    rewrite !Nat.add_0_r, Nat.min_r by exact Hlen. by repeat apply conj.
  - cbn [record_pairs]. unfold bind, record_pair. rewrite recorded_cons.
    destruct (split_on "_" (fst item)) as [|p1 [|p2 [|p3 ps]]] eqn:Hsplit.
    + rewrite decide_False by (cbn; lia). apply IH. exact Hlen.
    + rewrite decide_False by (cbn; lia). apply IH. exact Hlen.
    + rewrite decide_True by reflexivity. rewrite save_exchange_rate_eq.
      match goal with
      | |- context [record_pairs _ _ _ (?d, _)] => set (db1 := d)
      end.
      assert (length (load_exchange_rates_history db1) =
              Nat.min history_cap (S (length (load_exchange_rates_history db)))) as Hlen1
        by (apply capped_append_length; exact Hlen).
      destruct (IH db1 (S (S (S n))) ltac:(rewrite Hlen1; lia))
        as (db' & Hrun & Hhist & Hu & Hp & Hr).
      exists db'. split; [|repeat apply conj; try assumption].
      * rewrite Hrun. do 2 f_equal. lia.
      * rewrite Hhist, Hlen1. lia.
    + rewrite decide_False by (cbn; lia). apply IH. exact Hlen.
Qed.

Lemma update_rates_nil (all_rates : gmap string json) :
  update_rates all_rates [] = all_rates.
Proof. reflexivity. Qed.

Lemma update_rates_nonempty (all_rates : gmap string json) (items : list (string * json)) :
  items ≠ [] → update_rates all_rates items ≠ ∅.
Proof.
  intros Hne. destruct (exists_last Hne) as (front & item & ->).
  unfold update_rates. rewrite foldl_app. cbn [foldl].
  apply insert_non_empty.
Qed.

Lemma update_rates_keeps_nonempty (all_rates : gmap string json)
    (items : list (string * json)) :
  all_rates ≠ ∅ → update_rates all_rates items ≠ ∅.
Proof.
  intros Hne. destruct items as [|item items]; [exact Hne|].
  by apply update_rates_nonempty.
Qed.

(** One client of the loop over the sources: a client that raised or returned
    nothing is passed over; the pairs of another go to the history and into
    [all_rates]. *)
Lemma update_sources_step (clk : nat → time_reading) (cl : clients)
    (source_name : string) (rest : list string) (all_rates : gmap string json)
    (successful : list string) (db : Database) (n : nat)
    (r : result (list (string * json))) :
  client_named cl source_name = Some r →
  (length (load_exchange_rates_history db) ≤ history_cap)%nat →
  ∃ db',
    update_sources clk cl (source_name :: rest) all_rates successful (db, n) =
      update_sources clk cl rest (update_rates all_rates (fetched r))
        (successful ++ (if fetched r is [] then [] else [source_name]))%list
        (db', n + 3 * recorded (fetched r))%nat ∧
    length (load_exchange_rates_history db') =
      Nat.min history_cap
        (length (load_exchange_rates_history db) + recorded (fetched r)) ∧
    users_json db' = users_json db ∧
    portfolios_json db' = portfolios_json db ∧
    rates_json db' = rates_json db.
Proof.
  intros Hc Hlen. cbn [update_sources]. rewrite Hc.
  assert (∀ l : list string, (l ++ [])%list = l) as Hnil by apply app_nil_r.
  destruct r as [[|item items]|e]; cbn [fetched].
  - exists db. unfold recorded.
    cbn [filter list_filter length Nat.mul update_rates foldl].
    rewrite Hnil, !Nat.add_0_r, Nat.min_r by exact Hlen. by repeat apply conj.
  - destruct (record_pairs_effect clk source_name (item :: items) db n Hlen)
      as (db' & Hrun & Hrest).
    exists db'. split; [|exact Hrest].
    unfold bind at 1. by rewrite Hrun.
  - exists db. unfold recorded.
    cbn [filter list_filter length Nat.mul update_rates foldl].
    rewrite Hnil, !Nat.add_0_r, Nat.min_r by exact Hlen. by repeat apply conj.
Qed.

(** The loop over both clients. *)
Lemma update_sources_all (clk : nat → time_reading) (cl : clients)
    (db : Database) (n : nat) :
  (length (load_exchange_rates_history db) ≤ history_cap)%nat →
  let count := (recorded (fetched (coingecko cl)) +
                recorded (fetched (exchangerate cl)))%nat in
  ∃ db',
    update_sources clk cl client_names ∅ [] (db, n) =
      (Ok (update_rates (update_rates ∅ (fetched (coingecko cl)))
             (fetched (exchangerate cl)),
           sources_with_rates cl),
       (db', n + 3 * count)%nat) ∧
    length (load_exchange_rates_history db') =
      Nat.min history_cap (length (load_exchange_rates_history db) + count) ∧
    users_json db' = users_json db ∧
    portfolios_json db' = portfolios_json db ∧
    rates_json db' = rates_json db.
Proof.
  intros Hlen count. unfold client_names, sources_with_rates.
  destruct (update_sources_step clk cl "coingecko" ["exchangerate"] ∅ [] db n
              (coingecko cl) eq_refl Hlen)
    as (db1 & Hrun1 & Hh1 & Hu1 & Hp1 & Hr1).
  assert (length (load_exchange_rates_history db1) ≤ history_cap)%nat as Hlen1
    by (rewrite Hh1; lia).
  destruct (update_sources_step clk cl "exchangerate" []
              (update_rates ∅ (fetched (coingecko cl)))
              ([] ++ (if fetched (coingecko cl) is [] then [] else ["coingecko"]))%list
              db1 (n + 3 * recorded (fetched (coingecko cl)))%nat
              (exchangerate cl) eq_refl Hlen1)
    as (db2 & Hrun2 & Hh2 & Hu2 & Hp2 & Hr2).
  exists db2. split; [|repeat apply conj; try congruence].
  - rewrite Hrun1, Hrun2. cbn [update_sources ret app]. do 2 f_equal.
    subst count. lia.
  - rewrite Hh2, Hh1. subst count. lia.
Qed.

Lemma update_sources_nothing (clk : nat → time_reading) (cl : clients)
    (sources : list string) (st : Run) :
  fetched (coingecko cl) = [] →
  fetched (exchangerate cl) = [] →
  update_sources clk cl sources ∅ [] st = (Ok (∅, []), st).
Proof.
  intros Hcg Her. induction sources as [|source_name rest IH]; [reflexivity|].
  cbn [update_sources]. unfold client_named.
  destruct (String.eqb source_name "coingecko").
  - destruct (coingecko cl) as [[|item items]|e]; try exact IH. discriminate.
  - destruct (String.eqb source_name "exchangerate"); [|exact IH].
    destruct (exchangerate cl) as [[|item items]|e]; try exact IH. discriminate.
Qed.

Lemma fetched_rates_nonempty (cl : clients) :
  sources_with_rates cl ≠ [] →
  update_rates (update_rates ∅ (fetched (coingecko cl))) (fetched (exchangerate cl)) ≠ ∅.
Proof.
  unfold sources_with_rates. intros Hsrc.
  destruct (fetched (coingecko cl)) as [|i1 l1] eqn:F1.
  - destruct (fetched (exchangerate cl)) as [|i2 l2] eqn:F2; [done|].
    by apply update_rates_nonempty.
  - by apply update_rates_keeps_nonempty, update_rates_nonempty.
Qed.

(** A run over both clients that fetched something: the loop, then the commit
    of everything fetched at the next reading of the clock. *)
Lemma run_update_all (clk : nat → time_reading) (cl : clients)
    (db : Database) (n : nat) :
  (length (load_exchange_rates_history db) ≤ history_cap)%nat →
  sources_with_rates cl ≠ [] →
  let all_rates := update_rates (update_rates ∅ (fetched (coingecko cl)))
                     (fetched (exchangerate cl)) in
  let count := (recorded (fetched (coingecko cl)) +
                recorded (fetched (exchangerate cl)))%nat in
  ∃ db1,
    run_update clk cl None (db, n) =
      (let '(r, db') :=
         save_current_rates all_rates (join "," (sources_with_rates cl))
           (iso (clk (n + 3 * count)%nat)) db1 in
       (match r with Ok _ => Ok all_rates | Raise e => Raise e end,
        (db', S (n + 3 * count)))) ∧
    length (load_exchange_rates_history db1) =
      Nat.min history_cap (length (load_exchange_rates_history db) + count) ∧
    users_json db1 = users_json db ∧
    portfolios_json db1 = portfolios_json db ∧
    rates_json db1 = rates_json db.
Proof.
  intros Hlen Hsrc all_rates count.
  destruct (update_sources_all clk cl db n Hlen) as (db1 & Hloop & Hrest).
  exists db1. split; [|exact Hrest].
  unfold run_update, bind at 1. rewrite Hloop.
  fold all_rates. fold count.
  rewrite bool_decide_eq_false_2 by (by apply fetched_rates_nonempty).
  cbn [negb]. unfold bind.
  destruct (save_current_rates all_rates (join "," (sources_with_rates cl))
              (iso (clk (n + 3 * count)%nat)) db1) as [[[]|e] db']; reflexivity.
Qed.

(** [run_update]: a run in which no client returns a rate (each one raises or
    returns an empty dictionary) returns the empty dictionary and leaves every
    file as it was, whatever source was asked for; the clock is not read. *)
Theorem run_without_rates_changes_nothing (clk : nat → time_reading) (cl : clients)
    (source : option string) (st : Run) :
  fetched (coingecko cl) = [] →
  fetched (exchangerate cl) = [] →
  run_update clk cl source st = (Ok ∅, st).
Proof.
  intros Hcg Her. unfold run_update, bind.
  by rewrite (update_sources_nothing clk cl _ st Hcg Her).
Qed.

(** CoinGecko raises and ExchangeRate-API returns an empty dictionary. *)
Lemma run_without_rates_changes_nothing_witness :
  run_update demo_clock
    {| coingecko := Raise (TypeError "unexpected response"); exchangerate := Ok [] |}
    (Some "coingecko") (demo_db (JFloat 60000), 0%nat) =
  (Ok ∅, (demo_db (JFloat 60000), 0%nat)).
Proof.
  apply run_without_rates_changes_nothing; reflexivity.
Defined.

(** [run_update] with the name of a source that is not a client: the name is
    passed over, no client is asked, and the run returns the empty dictionary
    without writing anything, although the clients have rates. *)
Theorem unknown_source_is_passed_over (clk : nat → time_reading) (cl : clients)
    (source_name : string) (st : Run) :
  source_name ≠ "" →
  source_name ≠ "coingecko" →
  source_name ≠ "exchangerate" →
  run_update clk cl (Some source_name) st = (Ok ∅, st).
Proof.
  intros Hne Hcg Her. unfold run_update.
  destruct source_name as [|ch rest]; [done|]. cbn [str_is_empty].
  unfold bind. cbn [update_sources]. unfold client_named.
  apply String.eqb_neq in Hcg, Her. by rewrite Hcg, Her.
Qed.

Lemma unknown_source_is_passed_over_witness :
  run_update demo_clock demo_clients (Some "CoinGecko") (demo_db (JFloat 60000), 0%nat) =
  (Ok ∅, (demo_db (JFloat 60000), 0%nat)).
Proof.
  apply unknown_source_is_passed_over; discriminate.
Defined.

(** [run_update] over both clients, on a cache with a dictionary under
    ["pairs"] and a history of at most 1000 records, when some client returned
    rates: the run returns the rates of CoinGecko updated with those of
    ExchangeRate-API; rates.json holds the old pairs overwritten by an entry
    for every returned rate, all with the time of one reading of the clock and
    the names of the clients that returned rates, joined by a comma; a client
    that raised or returned nothing does not stop the other; the history grows
    by one record for each key of two parts, up to 1000; users.json and
    portfolios.json are not touched. *)
Theorem run_commits_fetched_rates (clk : nat → time_reading) (cl : clients)
    (db : Database) (n : nat) (cache old : gmap string json) :
  (length (load_exchange_rates_history db) ≤ history_cap)%nat →
  load_rates_cache db = JDict cache →
  cache !! "pairs" = Some (JDict old) →
  sources_with_rates cl ≠ [] →
  let all_rates := update_rates (update_rates ∅ (fetched (coingecko cl)))
                     (fetched (exchangerate cl)) in
  let count := (recorded (fetched (coingecko cl)) +
                recorded (fetched (exchangerate cl)))%nat in
  let current_time := iso (clk (n + 3 * count)%nat) in
  ∃ db',
    run_update clk cl None (db, n) = (Ok all_rates, (db', S (n + 3 * count))) ∧
    rates_json db' =
      Stored (JDict (<["last_refresh" := JStr current_time]>
                (<["pairs" :=
                     JDict ((new_pair (join "," (sources_with_rates cl)) current_time
                               <$> all_rates) ∪ old)]> cache))) ∧
    length (load_exchange_rates_history db') =
      Nat.min history_cap (length (load_exchange_rates_history db) + count) ∧
    users_json db' = users_json db ∧
    portfolios_json db' = portfolios_json db.
Proof.
  intros Hlen Hload Hold Hsrc all_rates count current_time.
  destruct (run_update_all clk cl db n Hlen Hsrc)
    as (db1 & Hrun & Hhist & Hu & Hp & Hr).
  fold all_rates count current_time in Hrun.
  assert (load_rates_cache db1 = JDict cache) as Hload1
    by (unfold load_rates_cache in *; by rewrite Hr).
  rewrite (save_current_rates_eq _ _ _ _ _ _ Hload1 Hold) in Hrun.
  eexists. split; [exact Hrun|]. cbn [rates_json users_json portfolios_json].
  split; [reflexivity|]. split; [exact Hhist|]. by split.
Qed.

(** CoinGecko returns BTC_USD and ETH_USD, ExchangeRate-API raises: both rates
    are returned and committed under the source ["coingecko"], after seven
    readings of the clock. *)
Lemma run_commits_fetched_rates_witness :
  ∃ db',
    run_update demo_clock demo_clients None (demo_db (JFloat 60000), 0%nat) =
      (Ok (<["ETH_USD" := JFloat 3000]> (<["BTC_USD" := JFloat 61000]> ∅)),
       (db', 7%nat)) ∧
    cached_pairs db' =
      Some ((new_pair "coingecko" "2024-01-01T00:10:00"
               <$> <["ETH_USD" := JFloat 3000]> (<["BTC_USD" := JFloat 61000]> ∅))
            ∪ {[ "BTC_USD" := new_pair "coingecko" "2024-01-01T00:00:00" (JFloat 60000) ]}) ∧
    length (load_exchange_rates_history db') = 2%nat.
Proof.
  destruct (run_commits_fetched_rates demo_clock demo_clients
              (demo_db (JFloat 60000)) 0 _ _
              ltac:(cbn; unfold history_cap; lia) eq_refl eq_refl ltac:(discriminate))
    as (db' & Hrun & Hrates & Hhist & _).
  exists db'. split; [exact Hrun|]. split; [|exact Hhist].
  unfold cached_pairs, load_rates_cache, loaded. rewrite Hrates.
  by rewrite lookup_insert_ne, lookup_insert_eq.
Defined.

(** [run_update] on a cache whose ["pairs"] is not a dictionary, when some
    client returned rates: the run raises [AttributeError] at the commit, after
    the history was extended with the records of the run; rates.json is as it
    was. *)
Theorem run_fails_at_commit (clk : nat → time_reading) (cl : clients)
    (db : Database) (n : nat) (cache : gmap string json) (v : json) :
  (length (load_exchange_rates_history db) ≤ history_cap)%nat →
  load_rates_cache db = JDict cache →
  cache !! "pairs" = Some v →
  (∀ d, v ≠ JDict d) →
  sources_with_rates cl ≠ [] →
  let count := (recorded (fetched (coingecko cl)) +
                recorded (fetched (exchangerate cl)))%nat in
  ∃ db',
    run_update clk cl None (db, n) =
      (Raise (AttributeError (type_name v) "update"), (db', S (n + 3 * count))) ∧
    length (load_exchange_rates_history db') =
      Nat.min history_cap (length (load_exchange_rates_history db) + count) ∧
    rates_json db' = rates_json db.
Proof.
  intros Hlen Hload Hv Hnd Hsrc count.
  destruct (run_update_all clk cl db n Hlen Hsrc)
    as (db1 & Hrun & Hhist & Hu & Hp & Hr).
  fold count in Hrun.
  assert (load_rates_cache db1 = JDict cache) as Hload1
    by (unfold load_rates_cache in *; by rewrite Hr).
  rewrite (save_current_rates_bad_pairs _ _ _ _ _ _ Hload1 Hv Hnd) in Hrun.
  exists db1. by repeat apply conj.
Qed.

(** rates.json holds a list under ["pairs"]; the two records of CoinGecko are
    in the history when the commit raises. *)
Lemma run_fails_at_commit_witness :
  let db := {| users_json := FileNotFound;
               portfolios_json := FileNotFound;
               rates_json := Stored (JDict {[ "pairs" := JList [] ]});
               exchange_rates_json := FileNotFound |} in
  ∃ db',
    run_update demo_clock demo_clients None (db, 0%nat) =
      (Raise (AttributeError (type_name (JList [])) "update"), (db', 7%nat)) ∧
    length (load_exchange_rates_history db') = 2%nat ∧
    rates_json db' = rates_json db.
Proof.
  intros db.
  apply (run_fails_at_commit demo_clock demo_clients db 0
           {[ "pairs" := JList [] ]} (JList [])).
  - cbn. unfold history_cap. lia.
  - reflexivity.
  - reflexivity.
  - discriminate.
  - discriminate.
Defined.

Lemma update_rates_lookup (all_rates : gmap string json) (items : list (string * json))
    (k : string) :
  (k ∉ items.*1 → update_rates all_rates items !! k = all_rates !! k) ∧
  (∀ v, NoDup items.*1 → (k, v) ∈ items → update_rates all_rates items !! k = Some v).
Proof.
  revert all_rates. induction items as [|[k0 v0] items IH]; intros all_rates.
  - split; [reflexivity|]. intros v _ Hin. by apply elem_of_nil in Hin.
  - unfold update_rates in *. cbn [foldl fst snd fmap list_fmap].
    destruct (IH (<[k0 := v0]> all_rates)) as [IHout IHin]. split.
    + intros Hout. apply not_elem_of_cons in Hout as [Hne Hout].
      rewrite (IHout Hout). by apply lookup_insert_ne.
    + intros v Hnd Hin. apply NoDup_cons in Hnd as [Hfresh Hnd].
      apply elem_of_cons in Hin as [Heq|Hin].
      * injection Heq as -> ->. rewrite (IHout Hfresh). apply lookup_insert_eq.
      * by apply IHin.
Qed.

(** [run_update] with the name of one client, which returned rates (cache and
    history as above): only this client is asked; its rates are returned and
    committed under its name, and the run is the same whatever the other
    client would have returned. *)
Theorem single_source_run (clk : nat → time_reading) (cl : clients)
    (source_name : string) (r : result (list (string * json)))
    (db : Database) (n : nat) (cache old : gmap string json) :
  client_named cl source_name = Some r →
  fetched r ≠ [] →
  (length (load_exchange_rates_history db) ≤ history_cap)%nat →
  load_rates_cache db = JDict cache →
  cache !! "pairs" = Some (JDict old) →
  let all_rates := update_rates ∅ (fetched r) in
  let current_time := iso (clk (n + 3 * recorded (fetched r))%nat) in
  (∃ db',
     run_update clk cl (Some source_name) (db, n) =
       (Ok all_rates, (db', S (n + 3 * recorded (fetched r)))) ∧
     rates_json db' =
       Stored (JDict (<["last_refresh" := JStr current_time]>
                 (<["pairs" := JDict ((new_pair source_name current_time <$> all_rates)
                                      ∪ old)]> cache))) ∧
     length (load_exchange_rates_history db') =
       Nat.min history_cap
         (length (load_exchange_rates_history db) + recorded (fetched r)) ∧
     users_json db' = users_json db ∧
     portfolios_json db' = portfolios_json db) ∧
  (∀ cl', client_named cl' source_name = Some r →
     run_update clk cl' (Some source_name) (db, n) =
     run_update clk cl (Some source_name) (db, n)).
Proof.
  intros Hc Hf Hlen Hload Hold all_rates current_time.
  assert (str_is_empty source_name = false) as Hname
    by (destruct source_name; [discriminate Hc|reflexivity]).
  split; [|intros cl' Hc'; unfold run_update; rewrite Hname; unfold bind;
           cbn [update_sources]; by rewrite Hc, Hc'].
  destruct (update_sources_step clk cl source_name [] ∅ [] db n r Hc Hlen)
    as (db1 & Hloop & Hhist & Hu & Hp & Hr).
  assert (load_rates_cache db1 = JDict cache) as Hload1
    by (unfold load_rates_cache in *; by rewrite Hr).
  unfold run_update. rewrite Hname. unfold bind at 1. rewrite Hloop.
  cbn [update_sources ret]. fold all_rates.
  rewrite bool_decide_eq_false_2 by (by apply update_rates_nonempty).
  cbn [negb]. unfold bind.
  rewrite (save_current_rates_eq _ _ _ _ _ _ Hload1 Hold).
  destruct (fetched r) as [|item items] eqn:F; [done|]. cbn [app join].
  eexists. split; [reflexivity|]. cbn [rates_json users_json portfolios_json].
  split; [reflexivity|]. split; [exact Hhist|]. by split.
Qed.

(** Only CoinGecko is asked; the run is the same whatever ExchangeRate-API
    would have returned. *)
Lemma single_source_run_witness :
  ∃ db',
    run_update demo_clock demo_clients (Some "coingecko")
      (demo_db (JFloat 60000), 0%nat) =
      (Ok (<["ETH_USD" := JFloat 3000]> (<["BTC_USD" := JFloat 61000]> ∅)),
       (db', 7%nat)) ∧
    length (load_exchange_rates_history db') = 2%nat.
Proof.
  destruct (single_source_run demo_clock demo_clients "coingecko"
              (coingecko demo_clients) (demo_db (JFloat 60000)) 0 _ _
              eq_refl ltac:(discriminate) ltac:(cbn; unfold history_cap; lia)
              eq_refl eq_refl)
    as [(db' & Hrun & _ & Hhist & _) _].
  exists db'. by split.
Defined.

(** [run_update] over both clients: for a pair that both clients return, the
    run returns the rate of ExchangeRate-API, the client asked last; a pair
    that only CoinGecko returns keeps CoinGecko's rate. *)
Theorem last_client_wins (clk : nat → time_reading) (cl : clients)
    (db : Database) (n : nat) (cache old : gmap string json) :
  (length (load_exchange_rates_history db) ≤ history_cap)%nat →
  load_rates_cache db = JDict cache →
  cache !! "pairs" = Some (JDict old) →
  sources_with_rates cl ≠ [] →
  NoDup (fetched (coingecko cl)).*1 →
  NoDup (fetched (exchangerate cl)).*1 →
  ∃ all_rates st',
    run_update clk cl None (db, n) = (Ok all_rates, st') ∧
    (∀ k v, (k, v) ∈ fetched (exchangerate cl) → all_rates !! k = Some v) ∧
    (∀ k v, (k, v) ∈ fetched (coingecko cl) →
            k ∉ (fetched (exchangerate cl)).*1 → all_rates !! k = Some v).
Proof.
  intros Hlen Hload Hold Hsrc Hcg Her.
  destruct (run_update_all clk cl db n Hlen Hsrc)
    as (db1 & Hrun & _ & _ & _ & Hr).
  assert (load_rates_cache db1 = JDict cache) as Hload1
    by (unfold load_rates_cache in *; by rewrite Hr).
  rewrite (save_current_rates_eq _ _ _ _ _ _ Hload1 Hold) in Hrun.
  eexists _, _. split; [exact Hrun|]. split.
  - intros k v Hin. by apply update_rates_lookup.
  - intros k v Hin Hout.
    rewrite (proj1 (update_rates_lookup _ _ k) Hout). by apply update_rates_lookup.
Qed.

(** Both clients return BTC_USD: the run returns the rate of
    ExchangeRate-API. *)
Lemma last_client_wins_witness :
  ∃ all_rates st',
    run_update demo_clock
      {| coingecko := Ok [("BTC_USD", JFloat 61000); ("ETH_USD", JFloat 3000)];
         exchangerate := Ok [("BTC_USD", JFloat 61500)] |}
      None (demo_db (JFloat 60000), 0%nat) = (Ok all_rates, st') ∧
    all_rates !! "BTC_USD" = Some (JFloat 61500) ∧
    all_rates !! "ETH_USD" = Some (JFloat 3000).
Proof.
  destruct (last_client_wins demo_clock
              {| coingecko := Ok [("BTC_USD", JFloat 61000); ("ETH_USD", JFloat 3000)];
                 exchangerate := Ok [("BTC_USD", JFloat 61500)] |}
              (demo_db (JFloat 60000)) 0 _ _
              ltac:(cbn; unfold history_cap; lia) eq_refl eq_refl ltac:(discriminate)
              ltac:(cbn; compute_done) ltac:(cbn; compute_done))
    as (all_rates & st' & Hrun & Her & Hcg).
  exists all_rates, st'. split; [exact Hrun|]. split.
  - apply Her. cbn. apply elem_of_cons. by left.
  - apply Hcg.
    + cbn. apply elem_of_cons. right. apply elem_of_cons. by left.
    + cbn. compute_done.
Defined.

(** ** Currency codes *)

Lemma isspace_upper (c : ascii) : isspace (upper_ascii c) = isspace c.
Proof. destruct c as [[] [] [] [] [] [] [] []]; reflexivity. Qed.

Lemma upper_lstrip (s : string) : upper (lstrip s) = lstrip (upper s).
Proof.
  induction s as [|c s IH]; [reflexivity|]. cbn [lstrip upper].
  rewrite isspace_upper. destruct (isspace c); [exact IH|reflexivity].
Qed.

Lemma upper_rstrip (s : string) : upper (rstrip s) = rstrip (upper s).
Proof.
  induction s as [|c s IH]; [reflexivity|]. cbn [rstrip upper].
  rewrite <- IH, isspace_upper.
  destruct (rstrip s) as [|c' r]; cbn [upper]; [|reflexivity].
  destruct (isspace c); reflexivity.
Qed.

Lemma upper_strip (s : string) : upper (strip s) = strip (upper s).
Proof. unfold strip. by rewrite upper_lstrip, upper_rstrip. Qed.

Lemma registry_code_validates (code : string) :
  code ∈ registry_entries.*1 → validate_currency_code code = Ok code.
Proof.
  intros Hin. unfold registry_entries in Hin. cbn in Hin.
  repeat (apply elem_of_cons in Hin as [->|Hin]; [vm_compute; reflexivity|]).
  by apply elem_of_nil in Hin.
Qed.

Lemma registry_code_found (code : string) :
  code ∈ registry_entries.*1 →
  str_is_empty code = false ∧ ∃ cur, get_currency code = Ok cur.
Proof.
  intros Hin. unfold registry_entries in Hin. cbn in Hin.
  repeat (apply elem_of_cons in Hin as [->|Hin];
          [split; [reflexivity|eexists; vm_compute; reflexivity]|]).
  by apply elem_of_nil in Hin.
Qed.

(** On a code that is ASCII text, where [upper] and [strip] are
    [str.upper()] and [str.strip()], [validate_currency_code] returns the code
    in upper case without the spaces around it, which is then a code of the
    registry, is the code of the currency [get_currency] finds, and validates
    to itself; it accepts every spelling of a registry code; and whatever it
    refuses, it refuses with [CurrencyNotFoundError] on the normalised
    code. *)
Theorem validate_currency_code_normalises (c : string) :
  is_ascii c = true →
  (∀ valid, validate_currency_code c = Ok valid →
     valid = strip (upper c) ∧
     valid ∈ registry_entries.*1 ∧
     (∃ cur, get_currency valid = Ok cur ∧ code cur = valid) ∧
     validate_currency_code valid = Ok valid) ∧
  (strip (upper c) ∈ registry_entries.*1 →
     validate_currency_code c = Ok (strip (upper c))) ∧
  (∀ e, validate_currency_code c = Raise e →
     e = CurrencyNotFoundError (strip (upper c))).
Proof.
  intros _.
  assert (upper (strip (upper c)) = strip (upper c)) as Hup
    by (by rewrite upper_strip, upper_idem).
  unfold validate_currency_code. cbv zeta.
  split; [|split].
  - intros valid Hok.
    destruct (str_is_empty (strip (upper c))); [discriminate|].
    destruct (get_currency (strip (upper c))) as [cur|e] eqn:Hcur; [|discriminate].
    injection Hok as <-.
    assert (strip (upper c) ∈ registry_entries.*1) as Hin.
    { unfold get_currency in Hcur. rewrite Hup in Hcur.
      destruct (_currencies !! strip (upper c)) as [cur'|] eqn:E; [|discriminate].
      apply elem_of_list_to_map_2 in E.
      apply list_elem_of_fmap. by exists (strip (upper c), cur'). }
    split; [reflexivity|]. split; [exact Hin|]. split.
    + exists cur. split; [exact Hcur|].
      destruct (get_currency_code _ _ Hcur) as [-> _]. exact Hup.
    + by apply registry_code_validates.
  - intros Hin. destruct (registry_code_found _ Hin) as (-> & cur & ->).
    reflexivity.
  - intros e Hraise.
    destruct (str_is_empty (strip (upper c))); [by injection Hraise|].
    unfold get_currency in Hraise. rewrite Hup in Hraise.
    destruct (_currencies !! strip (upper c)); [discriminate|].
    by injection Hraise.
Qed.

(** ["  btc "] is validated to ["BTC"], and ["xyz"] is refused. *)
Lemma validate_currency_code_normalises_witness :
  validate_currency_code "  btc " = Ok "BTC" ∧
  validate_currency_code "BTC" = Ok "BTC" ∧
  ∀ e, validate_currency_code "xyz" = Raise e → e = CurrencyNotFoundError "XYZ".
Proof.
  destruct (validate_currency_code_normalises "  btc " eq_refl) as (_ & Haccept & _).
  destruct (validate_currency_code_normalises "xyz" eq_refl) as (_ & _ & Hrefuse).
  split; [|split].
  - apply Haccept. compute_done.
  - destruct (validate_currency_code_normalises "  btc " eq_refl) as (Hnorm & _ & _).
    destruct (Hnorm "BTC") as (_ & _ & _ & Hagain); [|exact Hagain].
    apply Haccept. compute_done.
  - exact Hrefuse.
Defined.

(** ** The arguments of a command *)

Lemma list_pair_ind {A : Type} (P : list A → Prop) :
  P [] → (∀ x, P [x]) → (∀ x y l, P l → P (x :: y :: l)) → ∀ l, P l.
Proof.
  intros Hnil Hone Hstep l.
  assert (P l ∧ ∀ x, P (x :: l)) as [Hl _]; [|exact Hl].
  induction l as [|y l [IHl IHcons]]; [by split|].
  split; [apply IHcons|]. intros x. by apply Hstep.
Qed.

Lemma parse_loop_flatten (kvs : list (string * string)) (result : gmap string string) :
  Forall option_with_value kvs →
  parse_loop (flatten_pairs kvs) result = inr (store_options result kvs).
Proof.
  intros Hkvs. revert result.
  induction Hkvs as [|[k v] kvs [Hk Hv] _ IH]; intros result; [reflexivity|].
  cbn [fst snd] in Hk, Hv. unfold flatten_pairs, store_options in *.
  cbn [fmap list_fmap concat app fst snd parse_loop foldl].
  rewrite Hk, Hv. cbn [negb]. apply IH.
Qed.

Lemma parse_loop_accepts (args : list string) (result result' : gmap string string) :
  parse_loop args result = inr result' →
  ∃ kvs, args = flatten_pairs kvs ∧ Forall option_with_value kvs ∧
         result' = store_options result kvs.
Proof.
  revert result. induction args as [|key|key value args IH] using list_pair_ind;
    intros result Hparse.
  - injection Hparse as <-. by exists [].
  - cbn [parse_loop] in Hparse. by destruct (startswith "--" key).
  - cbn [parse_loop] in Hparse.
    destruct (startswith "--" key) eqn:Hk; [|discriminate].
    destruct (startswith "--" value) eqn:Hv; [discriminate|]. cbn [negb] in Hparse.
    destruct (IH _ Hparse) as (kvs & -> & Hkvs & ->).
    exists ((key, value) :: kvs). split; [reflexivity|]. split; [|reflexivity].
    by constructor.
Qed.

Lemma store_options_lookup (kvs : list (string * string)) (result : gmap string string)
    (k : string) :
  store_options result kvs !! k = None ↔ result !! k = None ∧ k ∉ kvs.*1.
Proof.
  revert result. induction kvs as [|[k0 v0] kvs IH]; intros result.
  - cbn. split; [intros Hk; split; [exact Hk|apply not_elem_of_nil]|by intros [Hk _]].
  - unfold store_options in *. cbn [foldl fst snd fmap list_fmap].
    rewrite IH, not_elem_of_cons, lookup_insert_None.
    split; [intros [[? ?] ?]|intros (? & ? & ?)]; repeat split; auto.
Qed.

Lemma first_missing_none (expected : list string) (result : gmap string string) :
  first_missing expected result = None ↔
  ∀ req, req ∈ expected → result !! req ≠ None.
Proof.
  induction expected as [|req expected IH]; cbn [first_missing].
  - split; [|done]. intros _ req Hin. by apply elem_of_nil in Hin.
  - destruct (decide (result !! req = None)) as [Hnone|Hsome].
    + rewrite bool_decide_eq_true_2 by exact Hnone. split; [discriminate|].
      intros Hall. destruct (Hall req); [by left|exact Hnone].
    + rewrite bool_decide_eq_false_2 by exact Hsome. rewrite IH. split.
      * intros Hall req' Hin. apply elem_of_cons in Hin as [->|Hin]; [exact Hsome|].
        by apply Hall.
      * intros Hall req' Hin. apply Hall. by right.
Qed.

Lemma first_missing_some (expected : list string) (result : gmap string string)
    (req : string) :
  first_missing expected result = Some req →
  req ∈ expected ∧ result !! req = None.
Proof.
  induction expected as [|req' expected IH]; cbn [first_missing]; [discriminate|].
  destruct (decide (result !! req' = None)) as [Hnone|Hsome].
  - rewrite bool_decide_eq_true_2 by exact Hnone. intros [= <-].
    split; [by left|exact Hnone].
  - rewrite bool_decide_eq_false_2 by exact Hsome. intros Hreq.
    destruct (IH Hreq) as [Hin Hnone]. split; [by right|exact Hnone].
Qed.

(** [_parse_args] returns a dictionary exactly for a command line made of
    options that begin with ["--"], each followed by a value that does not,
    among which every required option occurs; the dictionary holds each
    option with the value that followed it last. The list [optional] has no
    part in it: an option that is neither required nor optional is taken. *)
Theorem parse_args_accepts_options (args expected optional : list string)
    (result : gmap string string) :
  _parse_args args expected optional = inr result ↔
  ∃ kvs,
    args = flatten_pairs kvs ∧
    Forall option_with_value kvs ∧
    (∀ req, req ∈ expected → req ∈ kvs.*1) ∧
    result = store_options ∅ kvs.
Proof.
  unfold _parse_args. split.
  - destruct (parse_loop args ∅) as [e|result'] eqn:Hparse; [discriminate|].
    destruct (first_missing expected result') as [req|] eqn:Hmiss; [discriminate|].
    intros [= <-].
    destruct (parse_loop_accepts _ _ _ Hparse) as (kvs & -> & Hkvs & ->).
    exists kvs. repeat apply conj; try done.
    intros req Hin. pose proof (proj1 (first_missing_none _ _) Hmiss req Hin) as Hsome.
    destruct (decide (req ∈ kvs.*1)) as [|Hout]; [done|].
    destruct Hsome. apply store_options_lookup. by split.
  - intros (kvs & -> & Hkvs & Hexp & ->).
    rewrite (parse_loop_flatten _ _ Hkvs).
    rewrite (proj2 (first_missing_none expected (store_options ∅ kvs))); [reflexivity|].
    intros req Hin Hnone. apply store_options_lookup in Hnone as [_ Hout].
    by apply Hout, Hexp.
Qed.

(** [--currency btc --amount 5 --note x --amount 7]: the last amount counts,
    and [--note], which no command knows, is taken. *)
Lemma parse_args_accepts_options_witness :
  ∃ result,
    _parse_args ["--currency"; "btc"; "--amount"; "5"; "--note"; "x"; "--amount"; "7"]
      ["--currency"; "--amount"] ["--base"] = inr result ∧
    result !! "--amount" = Some "7" ∧
    result !! "--note" = Some "x".
Proof.
  eexists. split.
  - apply (proj2 (parse_args_accepts_options _ _ _ _)).
    exists [("--currency", "btc"); ("--amount", "5"); ("--note", "x"); ("--amount", "7")].
    split; [reflexivity|]. split; [repeat constructor|]. split; [|reflexivity].
    intros req Hin. cbn.
    repeat (apply elem_of_cons in Hin as [->|Hin]; [compute_done|]).
    by apply elem_of_nil in Hin.
  - split; reflexivity.
Defined.

(** What [_parse_args] refuses, after any number of options with values: an
    argument that does not begin with ["--"] where an option should be; an
    option at the end of the line, or followed by another option; and, on a
    line without such an argument, a missing required option, which is the
    first one missing in the order of [expected]. *)
Theorem parse_args_refusals (kvs : list (string * string))
    (expected optional : list string) :
  Forall option_with_value kvs →
  (∀ arg rest, startswith "--" arg = false →
     _parse_args (flatten_pairs kvs ++ arg :: rest)%list expected optional =
     inl (UnknownArgument arg)) ∧
  (∀ key, startswith "--" key = true →
     _parse_args (flatten_pairs kvs ++ [key])%list expected optional =
     inl (ValueMissing key)) ∧
  (∀ key value rest, startswith "--" key = true → startswith "--" value = true →
     _parse_args (flatten_pairs kvs ++ key :: value :: rest)%list expected optional =
     inl (ValueMissing key)) ∧
  (∀ found req rest, expected = (found ++ req :: rest)%list →
     (∀ r, r ∈ found → r ∈ kvs.*1) → req ∉ kvs.*1 →
     _parse_args (flatten_pairs kvs) expected optional = inl (RequiredMissing req)).
Proof.
  intros Hkvs.
  assert (∀ tail result, parse_loop (flatten_pairs kvs ++ tail)%list result =
                         parse_loop tail (store_options result kvs)) as Hskip.
  { intros tail. induction Hkvs as [|[k v] kvs [Hk Hv] _ IH]; intros result;
      [reflexivity|].
    cbn [fst snd] in Hk, Hv. unfold flatten_pairs, store_options in *.
    cbn [fmap list_fmap concat app fst snd parse_loop foldl].
    rewrite Hk, Hv. cbn [negb]. apply IH. }
  unfold _parse_args. repeat apply conj.
  - intros arg rest Harg. rewrite Hskip. cbn [parse_loop]. by rewrite Harg.
  - intros key Hkey. rewrite Hskip. cbn [parse_loop]. by rewrite Hkey.
  - intros key value rest Hkey Hvalue. rewrite Hskip. cbn [parse_loop].
    by rewrite Hkey, Hvalue.
  - intros found req rest -> Hfound Hreq.
    rewrite (parse_loop_flatten _ _ Hkvs).
    assert (first_missing (found ++ req :: rest) (store_options ∅ kvs) = Some req)
      as ->; [|reflexivity].
    induction found as [|r found IH]; cbn [app first_missing].
    + rewrite bool_decide_eq_true_2; [reflexivity|].
      apply store_options_lookup. by split.
    + rewrite bool_decide_eq_false_2.
      * apply IH. intros r' Hin. apply Hfound. by right.
      * intros Hnone. apply store_options_lookup in Hnone as [_ Hout].
        apply Hout, Hfound. by left.
Qed.

(** A sale without its amount, with an amount written [--5], with a stray
    word, and without the option [--currency]. *)
Lemma parse_args_refusals_witness :
  _parse_args ["--currency"; "btc"; "--amount"] ["--currency"; "--amount"] ["--base"] =
    inl (ValueMissing "--amount") ∧
  _parse_args ["--currency"; "btc"; "--amount"; "--5"] ["--currency"; "--amount"] ["--base"] =
    inl (ValueMissing "--amount") ∧
  _parse_args ["--currency"; "btc"; "sell"; "now"] ["--currency"; "--amount"] ["--base"] =
    inl (UnknownArgument "sell") ∧
  _parse_args ["--amount"; "5"] ["--currency"; "--amount"] ["--base"] =
    inl (RequiredMissing "--currency").
Proof.
  destruct (parse_args_refusals [("--currency", "btc")]
              ["--currency"; "--amount"] ["--base"])
    as (Hunknown & Hlast & Hvalue & _); [repeat constructor|].
  destruct (parse_args_refusals [("--amount", "5")]
              ["--currency"; "--amount"] ["--base"])
    as (_ & _ & _ & Hmissing); [repeat constructor|].
  repeat apply conj.
  - apply (Hlast "--amount"). reflexivity.
  - apply (Hvalue "--amount" "--5" []); reflexivity.
  - apply (Hunknown "sell" ["now"]). reflexivity.
  - apply (Hmissing [] "--currency" ["--amount"]); [reflexivity| |compute_done].
    intros r Hin. by apply elem_of_nil in Hin.
Defined.
